(** * MASQUE automated program repair pipeline: decision and verification logic

    A shallow embedding of the pipeline's pure and effectful core:

    - the structured-response recoverer ([_extract_json_from_text],
      [_extract_json], [_clean_json], [extract_json_from_text]) and the
      second-chance normalisation of a ledger entry ([_normalize_bug_report],
      [normalize_bug_report]);
    - the decision fuser ([_as_bool] and the [bug_exists] expression of the
      runner's [main]);
    - the fix applicator ([BugFixAgent.fix_bug]);
    - the test runner selector ([UnitTestEvaluationAgent.evaluate]);
    - the version-control publisher's [GitPushAgent.commit], and its
      [_detect_base_branch], [create_branch], [stage_files] and [push];
    - the supervisor ([SupervisorAgent.review_report]) and the detector
      ([BugDetectionAgent.analyze_file]);
    - the loop body of phase 2 and the git flow of the runner's [main], and
      the loop body of [main] in fix_from_report.py.

    The file system, the subprocesses and the reasoning service are the
    environment: effectful functions run in a monad that threads the state of
    the environment and records the trace of effects.  The libraries the code
    calls are modelled next to it: [re] for the patterns used, [json.loads],
    [hashlib.sha256], [pathlib].

    Python [str] values are modelled as [string]; every [ascii] stands for the
    code point of the same number, so the texts covered are those whose code
    points lie below 256.  The classification of characters ([isspace],
    [lower]) is Python's on that range. *)

From Stdlib Require Import String Ascii ZArith NArith List Bool Lia Sorted.
From Stdlib Require Import Floats.SpecFloat.
Import ListNotations.

#[local] Open Scope string_scope.
#[local] Open Scope Z_scope.
#[local] Open Scope bool_scope.

(* ===================================================================== *)
(** * Python string primitives *)
(* ===================================================================== *)

Module PyStr.

Definition LF : ascii := "010"%char.
Definition CR : ascii := "013"%char.
Definition backtick : ascii := "`"%char.

(** [str.isspace] for one character; also the class [\s] of [re] on [str]
    patterns: U+0009..U+000D, U+001C..U+0020, U+0085, U+00A0. *)
Definition isspace (c : ascii) : bool :=
  let n := N_of_ascii c in
  ((9 <=? n) && (n <=? 13) || (28 <=? n) && (n <=? 32) || (n =? 133) || (n =? 160))%N.

(** The class [[a-zA-Z]]. *)
Definition is_alpha (c : ascii) : bool :=
  let n := N_of_ascii c in
  ((65 <=? n) && (n <=? 90) || (97 <=? n) && (n <=? 122))%N.

(** [str.lower] for one character: A-Z, and the upper-case letters of the
    Latin-1 block (U+00C0..U+00DE except the multiplication sign U+00D7). *)
Definition lower_char (c : ascii) : ascii :=
  let n := N_of_ascii c in
  if ((65 <=? n) && (n <=? 90) || (192 <=? n) && (n <=? 222) && negb (n =? 215))%N
  then ascii_of_N (n + 32) else c.

Fixpoint lower (s : string) : string :=
  match s with
  | EmptyString => EmptyString
  | String c s' => String (lower_char c) (lower s')
  end.

Fixpoint lstrip (s : string) : string :=
  match s with
  | EmptyString => EmptyString
  | String c s' => if isspace c then lstrip s' else s
  end.

Fixpoint rstrip (s : string) : string :=
  match s with
  | EmptyString => EmptyString
  | String c s' =>
      match rstrip s' with
      | EmptyString => if isspace c then EmptyString else String c EmptyString
      | r => String c r
      end
  end.

(** [s.strip()] *)
Definition strip (s : string) : string := rstrip (lstrip s).

(** [s.startswith(p)] *)
Definition startswith (s p : string) : bool := prefix p s.

Fixpoint rev (s : string) : string :=
  match s with
  | EmptyString => EmptyString
  | String c s' => rev s' ++ String c EmptyString
  end.

(** [s.endswith(p)] *)
Definition endswith (s p : string) : bool := prefix (rev p) (rev s).

(** [sub in s] *)
Fixpoint contains (sub s : string) : bool :=
  prefix sub s ||
  match s with
  | EmptyString => false
  | String _ s' => contains sub s'
  end.

Fixpoint find_from (sub s : string) (i : Z) : Z :=
  if prefix sub s then i
  else match s with
       | EmptyString => -1
       | String _ s' => find_from sub s' (i + 1)
       end.

(** [s.find(sub)]: the lowest index of [sub] in [s], or -1. *)
Definition find (s sub : string) : Z := find_from sub s 0.

Fixpoint rfind_from (sub s : string) (i : Z) : Z :=
  match s with
  | EmptyString => if prefix sub s then i else -1
  | String _ s' =>
      let r := rfind_from sub s' (i + 1) in
      if r <? 0 then (if prefix sub s then i else -1) else r
  end.

(** [s.rfind(sub)]: the highest index of [sub] in [s], or -1. *)
Definition rfind (s sub : string) : Z := rfind_from sub s 0.

(** Clamping of a slice bound, as Python does for [s[lo:hi]]. *)
Definition slice_bound (len i : Z) : Z :=
  if i <? 0 then Z.max 0 (i + len) else Z.min i len.

(** [s[lo:hi]] *)
Definition slice (s : string) (lo hi : Z) : string :=
  let len := Z.of_nat (String.length s) in
  let a := slice_bound len lo in
  let b := slice_bound len hi in
  substring (Z.to_nat a) (Z.to_nat (b - a)) s.

(** [bool(s)] *)
Definition nonempty (s : string) : bool :=
  match s with EmptyString => false | _ => true end.

End PyStr.

(* ===================================================================== *)
(** * The fragment of [re] the pipeline uses *)
(* ===================================================================== *)

Module Re.
Import PyStr.

(** Every pattern of the repository is a sequence of one-character atoms
    under a quantifier, and anchors. *)
Inductive item : Type :=
| Bol                              (* ^ *)
| Eol                              (* $ *)
| One (p : ascii -> bool)          (* c, [..], \s *)
| Opt (p : ascii -> bool)          (* c? *)
| Star (p : ascii -> bool)         (* c* , greedy *)
| Plus (p : ascii -> bool).        (* c+ , greedy *)

Definition ch (c : ascii) : ascii -> bool := Ascii.eqb c.

Fixpoint lit (s : string) : list item :=
  match s with
  | EmptyString => []
  | String c s' => One (ch c) :: lit s'
  end.

(** [^]: at the start of the text, and with MULTILINE also after a newline.
    [prev] is the character before the current position. *)
Definition at_bol (multiline : bool) (prev : option ascii) : bool :=
  match prev with
  | None => true
  | Some c => multiline && Ascii.eqb c LF
  end.

(** [$]: at the end of the text or before a newline that ends it; with
    MULTILINE before any newline. *)
Definition at_eol (multiline : bool) (s : string) : bool :=
  match s with
  | EmptyString => true
  | String c s' =>
      Ascii.eqb c LF && (multiline || match s' with EmptyString => true | _ => false end)
  end.

(** Greedy repetition with backtracking: take as many characters of the
    class as possible and give them back one at a time until the rest of the
    pattern, [k], matches. *)
Fixpoint greedy (p : ascii -> bool) (k : option ascii -> string -> option string)
    (prev : option ascii) (s : string) : option string :=
  match s with
  | String c s' =>
      if p c then
        match greedy p k (Some c) s' with
        | Some r => Some r
        | None => k prev s
        end
      else k prev s
  | EmptyString => k prev s
  end.

(** [match_here ml re prev s]: the pattern matched at the current position;
    the result is the text left after the match the engine finds first. *)
Fixpoint match_here (multiline : bool) (re : list item)
    (prev : option ascii) (s : string) : option string :=
  match re with
  | [] => Some s
  | Bol :: re' => if at_bol multiline prev then match_here multiline re' prev s else None
  | Eol :: re' => if at_eol multiline s then match_here multiline re' prev s else None
  | One p :: re' =>
      match s with
      | String c s' => if p c then match_here multiline re' (Some c) s' else None
      | EmptyString => None
      end
  | Opt p :: re' =>
      match s with
      | String c s' =>
          if p c then
            match match_here multiline re' (Some c) s' with
            | Some r => Some r
            | None => match_here multiline re' prev s
            end
          else match_here multiline re' prev s
      | EmptyString => match_here multiline re' prev s
      end
  | Star p :: re' => greedy p (match_here multiline re') prev s
  | Plus p :: re' =>
      match s with
      | String c s' => if p c then greedy p (match_here multiline re') (Some c) s' else None
      | EmptyString => None
      end
  end.

Fixpoint search_from (multiline : bool) (re : list item)
    (prev : option ascii) (s : string) : bool :=
  match match_here multiline re prev s with
  | Some _ => true
  | None =>
      match s with
      | EmptyString => false
      | String c s' => search_from multiline re (Some c) s'
      end
  end.

(** [bool(re.search(pattern, text, flags))] *)
Definition search (multiline : bool) (re : list item) (text : string) : bool :=
  search_from multiline re None text.

(** [re.sub(pattern, "", text)] for a pattern that matches no empty text:
    scan from the left; a match is dropped and the scan goes on behind it,
    otherwise one character is copied.  [skip] counts the characters of a
    match still to be dropped. *)
Fixpoint sub_from (multiline : bool) (re : list item)
    (skip : nat) (prev : option ascii) (s : string) : string :=
  match s with
  | EmptyString => EmptyString
  | String c s' =>
      match skip with
      | S n => sub_from multiline re n (Some c) s'
      | O =>
          match match_here multiline re prev s with
          | Some r =>
              match (String.length s - String.length r)%nat with
              | S n => sub_from multiline re n (Some c) s'
              | O => String c (sub_from multiline re O (Some c) s')
              end
          | None => String c (sub_from multiline re O (Some c) s')
          end
      end
  end.

Definition sub_empty (multiline : bool) (re : list item) (text : string) : string :=
  sub_from multiline re O None text.

End Re.

(* ===================================================================== *)
(** * Fence stripping and brace slicing *)
(* ===================================================================== *)

Module Recoverer.
Import PyStr Re.

(** r"^```[a-zA-Z]*\s*\n" *)
Definition fence_open : list item :=
  [Bol; One (ch backtick); One (ch backtick); One (ch backtick);
   Star is_alpha; Star isspace; One (ch LF)].

(** r"\n```$" *)
Definition fence_close : list item :=
  [One (ch LF); One (ch backtick); One (ch backtick); One (ch backtick); Eol].

(** The two substitutions and the [strip] that follow [t.startswith("```")]. *)
Definition unfence (t : string) : string :=
  if startswith t "```" then
    let t := sub_empty false fence_open t in
    strip (sub_empty false fence_close t)
  else t.

(** [start = t.find("{"); end = t.rfind("}")] and the test
    [start != -1 and end != -1 and end > start]; the slice when it holds. *)
Definition brace_slice (t : string) : option string :=
  let start := find t "{" in
  let end_ := rfind t "}" in
  if negb (start =? -1) && negb (end_ =? -1) && (end_ >? start)
  then Some (slice t start (end_ + 1))
  else None.

(** [_strip_code_fences] of bug_fix_agent.py.  For a [str], [text or ""] is
    [text]. *)
Definition _strip_code_fences (text : string) : string :=
  unfence (strip text).

(** [_extract_json_from_text] of run_bug_supervision.py. *)
Definition _extract_json_from_text (text : string) : string :=
  let t := unfence (strip text) in
  match brace_slice t with
  | Some c => c
  | None => t
  end.

(** [_extract_json] of supervisor_agent.py. *)
Definition _extract_json (text : string) : string :=
  let t := unfence (strip text) in
  match brace_slice t with
  | Some c => c
  | None => t
  end.

(** [_clean_json] of bug_fix_agent.py. *)
Definition _clean_json (text : string) : string :=
  let t := unfence (strip text) in
  match brace_slice t with
  | Some c => c
  | None => t
  end.

End Recoverer.

(* ===================================================================== *)
(** * Python values *)
(* ===================================================================== *)

Module PyVal.
Import PyStr.

(** The values a ledger entry, a bug report or a decoded service reply is
    made of.  A [dict] keeps its keys in insertion order. *)
#[warnings="-register-all"]
Inductive pyval : Type :=
| VNone
| VBool (b : bool)
| VInt (z : Z)
| VFloat (f : spec_float)
| VStr (s : string)
| VList (l : list pyval)
| VDict (d : list (string * pyval)).

Definition pydict : Type := list (string * pyval).

Definition float_nonzero (f : spec_float) : bool :=
  match f with
  | S754_zero _ => false
  | _ => true
  end.

(** [bool(v)] *)
Definition truthy (v : pyval) : bool :=
  match v with
  | VNone => false
  | VBool b => b
  | VInt z => negb (z =? 0)
  | VFloat f => float_nonzero f
  | VStr s => nonempty s
  | VList l => match l with [] => false | _ => true end
  | VDict d => match d with [] => false | _ => true end
  end.

Fixpoint lookup (k : string) (d : pydict) : option pyval :=
  match d with
  | [] => None
  | (k', v) :: d' => if String.eqb k k' then Some v else lookup k d'
  end.

(** [d.get(k, default)] *)
Definition get_default (d : pydict) (k : string) (default : pyval) : pyval :=
  match lookup k d with
  | Some v => v
  | None => default
  end.

(** [d.get(k)] *)
Definition get (d : pydict) (k : string) : pyval := get_default d k VNone.

(** [d[k] = v]: the value of an existing key is replaced where it stands, a
    new key goes to the end. *)
Fixpoint setitem (k : string) (v : pyval) (d : pydict) : pydict :=
  match d with
  | [] => [(k, v)]
  | (k', v') :: d' =>
      if String.eqb k k' then (k', v) :: d' else (k', v') :: setitem k v d'
  end.

(** [a or b] *)
Definition or_else (a b : pyval) : pyval := if truthy a then a else b.

(** [isinstance(v, dict)] *)
Definition is_dict (v : pyval) : bool :=
  match v with VDict _ => true | _ => false end.

End PyVal.

(* ===================================================================== *)
(** * Decision fuser  (run_bug_supervision.py) *)
(* ===================================================================== *)

Module Fuser.
Import PyStr PyVal.

(** [_as_bool] *)
Definition _as_bool (v : pyval) : bool :=
  match v with
  | VBool b => b
  | VInt z => negb (z =? 0)
  | VFloat f => float_nonzero f
  | VStr s =>
      let t := lower (strip s) in
      existsb (String.eqb t) ["true"; "1"; "yes"; "y"]
  | _ => false
  end.

(** [isinstance(review, dict) and _as_bool(review.get(key, False))] *)
Definition review_signal (review : pyval) (key : string) : bool :=
  match review with
  | VDict r => _as_bool (get_default r key (VBool false))
  | _ => false
  end.

(** The decision of [main] for one entry:
    [bug_exists = confirmed_bug or corrected_has_bug or detector_has_bug]. *)
Definition bug_exists (review : pyval) (bug_report : pydict) : bool :=
  let confirmed_bug := review_signal review "confirmed_bug" in
  let corrected_has_bug := review_signal review "corrected_has_bug" in
  let detector_has_bug := _as_bool (get_default bug_report "has_bug" (VBool false)) in
  confirmed_bug || corrected_has_bug || detector_has_bug.

(** [do_fix = apply_fixes and bug_exists] *)
Definition do_fix (apply_fixes : bool) (review : pyval) (bug_report : pydict) : bool :=
  apply_fixes && bug_exists review bug_report.

(** The contract in the specification's words:
    bugExists = detectorHasBug OR confirmedBug OR correctedHasBug, each input
    normalised by the one coercion. *)
Definition fuse (detector_has_bug confirmed_bug corrected_has_bug : pyval) : bool :=
  _as_bool detector_has_bug || _as_bool confirmed_bug || _as_bool corrected_has_bug.

End Fuser.

(* ===================================================================== *)
(** * The decoder [json.loads] *)
(* ===================================================================== *)

(** A model of the standard library's decoder with its default settings
    (strict strings, [NaN] and [Infinity] accepted, the last of two equal
    keys wins).  It is a library of the interpreter, not code of the
    repository; the pipeline's functions below take the decoder as a
    parameter, and this model serves where a decoded value has to be
    computed. *)
Module PyJson.
Import PyStr PyVal.

Inductive pres (A : Type) : Type :=
| POk (a : A) (rest : string)
| PErr                       (* the decoder raises JSONDecodeError *)
| PBeyond.                   (* a text this model does not cover *)
Arguments POk {A} a rest.
Arguments PErr {A}.
Arguments PBeyond {A}.

Definition dquote : ascii := "034"%char.
Definition backslash : ascii := "\"%char.

(** The decoder's own whitespace: space, tab, line feed, carriage return. *)
Definition is_json_ws (c : ascii) : bool :=
  let n := N_of_ascii c in ((n =? 32) || (n =? 9) || (n =? 10) || (n =? 13))%N.

Fixpoint skip_ws (s : string) : string :=
  match s with
  | String c s' => if is_json_ws c then skip_ws s' else s
  | EmptyString => s
  end.

Definition is_digit (c : ascii) : bool :=
  let n := N_of_ascii c in ((48 <=? n) && (n <=? 57))%N.

Definition digit_val (c : ascii) : Z := Z.of_N (N_of_ascii c) - 48.

Definition hex_val (c : ascii) : option Z :=
  let n := Z.of_N (N_of_ascii c) in
  if (48 <=? n) && (n <=? 57) then Some (n - 48)
  else if (65 <=? n) && (n <=? 70) then Some (n - 55)
  else if (97 <=? n) && (n <=? 102) then Some (n - 87)
  else None.

(** The four hexadecimal digits of a [\uXXXX] escape. *)
Definition hex4 (s : string) : option (Z * string) :=
  match s with
  | String a (String b (String c (String d rest))) =>
      match hex_val a, hex_val b, hex_val c, hex_val d with
      | Some x, Some y, Some z, Some w => Some (((x * 16 + y) * 16 + z) * 16 + w, rest)
      | _, _, _, _ => None
      end
  | _ => None
  end.

Definition escape_char (c : ascii) : option ascii :=
  if Ascii.eqb c dquote then Some dquote
  else if Ascii.eqb c backslash then Some backslash
  else if Ascii.eqb c "/" then Some "/"%char
  else if Ascii.eqb c "b" then Some "008"%char
  else if Ascii.eqb c "f" then Some "012"%char
  else if Ascii.eqb c "n" then Some "010"%char
  else if Ascii.eqb c "r" then Some "013"%char
  else if Ascii.eqb c "t" then Some "009"%char
  else None.

(** The body of a string, behind its opening quote. *)
Fixpoint scanstring (fuel : nat) (s : string) : pres string :=
  match fuel with
  | O => PBeyond
  | S fuel' =>
      match s with
      | EmptyString => PErr                                  (* unterminated *)
      | String c s' =>
          if Ascii.eqb c dquote then POk EmptyString s'
          else if Ascii.eqb c backslash then
            match s' with
            | EmptyString => PErr
            | String e s'' =>
                if Ascii.eqb e "u" then
                  match hex4 s'' with
                  | None => PErr                             (* invalid \uXXXX *)
                  | Some (n, rest) =>
                      if n <? 256 then
                        match scanstring fuel' rest with
                        | POk r rest' => POk (String (ascii_of_N (Z.to_N n)) r) rest'
                        | PErr => PErr
                        | PBeyond => PBeyond
                        end
                      else PBeyond
                  end
                else
                  match escape_char e with
                  | None => PErr                             (* invalid escape *)
                  | Some x =>
                      match scanstring fuel' s'' with
                      | POk r rest' => POk (String x r) rest'
                      | PErr => PErr
                      | PBeyond => PBeyond
                      end
                  end
            end
          else if (N_of_ascii c <? 32)%N then PErr            (* control character *)
          else
            match scanstring fuel' s' with
            | POk r rest' => POk (String c r) rest'
            | PErr => PErr
            | PBeyond => PBeyond
            end
      end
  end.

(** A maximal run of decimal digits: its digits and what follows. *)
Fixpoint digits (s : string) : string * string :=
  match s with
  | String c s' =>
      if is_digit c then let (d, r) := digits s' in (String c d, r) else (EmptyString, s)
  | EmptyString => (EmptyString, s)
  end.

Fixpoint int_of_digits (acc : Z) (d : string) : Z :=
  match d with
  | String c d' => int_of_digits (acc * 10 + digit_val c) d'
  | EmptyString => acc
  end.

(** [float(text)] of a decimal literal [digits * 10 ^ exp10], rounded to the
    nearest binary64, ties to even. *)
Definition float_of_decimal (neg : bool) (m : Z) (exp10 : Z) : spec_float :=
  match m with
  | Z0 => S754_zero neg
  | Zneg _ => S754_nan
  | Zpos p =>
      if 0 <=? exp10 then
        match m * 10 ^ exp10 with
        | Zpos q => binary_round 53 1024 neg q 0
        | _ => S754_nan
        end
      else
        let '(q, e, l) := SFdiv_core_binary 53 1024 m 0 (10 ^ (- exp10)) 0 in
        binary_round_aux 53 1024 neg q e l
  end.

(** A number at the head of [s]: an optional minus sign, then 0 or a run of
    digits that does not start with 0, then optionally a point with at least
    one digit, then optionally an exponent (e or E, an optional sign, at least
    one digit).  It is an [int] when it has neither fraction nor exponent. *)
Definition scan_number (s : string) : option (pyval * string) :=
  let (neg, s1) :=
    match s with
    | String "-" r => (true, r)
    | _ => (false, s)
    end in
  let int_part :=
    match s1 with
    | String "0" r => Some ("0", r)
    | String c r => if is_digit c then Some (digits s1) else None
    | EmptyString => None
    end in
  match int_part with
  | None => None
  | Some (ip, s2) =>
      let frac :=
        match s2 with
        | String "." r =>
            match digits r with
            | (EmptyString, _) => None
            | (fd, r') => Some (fd, r')
            end
        | _ => None
        end in
      let s3 := match frac with Some (_, r) => r | None => s2 end in
      let expo :=
        match s3 with
        | String c r =>
            if Ascii.eqb c "e" || Ascii.eqb c "E" then
              let (eneg, r1) :=
                match r with
                | String "-" r1 => (true, r1)
                | String "+" r1 => (false, r1)
                | _ => (false, r)
                end in
              match digits r1 with
              | (EmptyString, _) => None
              | (ed, r') => Some (if eneg then - int_of_digits 0 ed else int_of_digits 0 ed, r')
              end
            else None
        | EmptyString => None
        end in
      let s4 := match expo with Some (_, r) => r | None => s3 end in
      match frac, expo with
      | None, None =>
          let n := int_of_digits 0 ip in
          Some (VInt (if neg then - n else n), s4)
      | _, _ =>
          let fd := match frac with Some (d, _) => d | None => EmptyString end in
          let e := match expo with Some (e, _) => e | None => 0 end in
          let m := int_of_digits 0 (ip ++ fd) in
          Some (VFloat (float_of_decimal neg m (e - Z.of_nat (String.length fd))), s4)
      end
  end.

(** [s] behind the prefix [p], when it starts with [p]. *)
Fixpoint after (p s : string) : option string :=
  match p with
  | EmptyString => Some s
  | String a p' =>
      match s with
      | String b s' => if Ascii.eqb a b then after p' s' else None
      | EmptyString => None
      end
  end.

(** One value at the head of [s]; arrays and objects by the loops of the
    decoder.  [fuel] bounds the number of nested calls; the length of the text
    is always enough. *)
Fixpoint scan_once (fuel : nat) (s : string) : pres pyval :=
  match fuel with
  | O => PBeyond
  | S fuel' =>
      match s with
      | EmptyString => PErr
      | String c s' =>
          if Ascii.eqb c dquote then
            match scanstring (String.length s) s' with
            | POk str rest => POk (VStr str) rest
            | PErr => PErr
            | PBeyond => PBeyond
            end
          else if Ascii.eqb c "{" then
            let s1 := skip_ws s' in
            match s1 with
            | String "}" rest => POk (VDict []) rest
            | _ => members fuel' [] s1
            end
          else if Ascii.eqb c "[" then
            let s1 := skip_ws s' in
            match s1 with
            | String "]" rest => POk (VList []) rest
            | _ => elements fuel' [] s1
            end
          else
            match after "null" s, after "true" s, after "false" s with
            | Some rest, _, _ => POk VNone rest
            | _, Some rest, _ => POk (VBool true) rest
            | _, _, Some rest => POk (VBool false) rest
            | None, None, None =>
                match scan_number s with
                | Some (v, rest) => POk v rest
                | None =>
                    match after "NaN" s, after "Infinity" s, after "-Infinity" s with
                    | Some rest, _, _ => POk (VFloat S754_nan) rest
                    | _, Some rest, _ => POk (VFloat (S754_infinity false)) rest
                    | _, _, Some rest => POk (VFloat (S754_infinity true)) rest
                    | None, None, None => PErr
                    end
                end
            end
      end
  end

(** The members of an object, [s] at the quote of the next key. *)
with members (fuel : nat) (acc : pydict) (s : string) : pres pyval :=
  match fuel with
  | O => PBeyond
  | S fuel' =>
      match s with
      | String c s' =>
          if Ascii.eqb c dquote then
            match scanstring (String.length s) s' with
            | PErr => PErr
            | PBeyond => PBeyond
            | POk key s1 =>
                match skip_ws s1 with
                | String ":" s2 =>
                    match scan_once fuel' (skip_ws s2) with
                    | PErr => PErr
                    | PBeyond => PBeyond
                    | POk v s3 =>
                        let acc' := setitem key v acc in
                        match skip_ws s3 with
                        | String "}" rest => POk (VDict acc') rest
                        | String "," s4 => members fuel' acc' (skip_ws s4)
                        | _ => PErr
                        end
                    end
                | _ => PErr
                end
            end
          else PErr
      | EmptyString => PErr
      end
  end

(** The elements of an array, [s] at the next value. *)
with elements (fuel : nat) (acc : list pyval) (s : string) : pres pyval :=
  match fuel with
  | O => PBeyond
  | S fuel' =>
      match scan_once fuel' s with
      | PErr => PErr
      | PBeyond => PBeyond
      | POk v s1 =>
          match skip_ws s1 with
          | String "]" rest => POk (VList (acc ++ [v])) rest
          | String "," s2 => elements fuel' (acc ++ [v]) (skip_ws s2)
          | _ => PErr
          end
      end
  end.

Inductive decoded : Type :=
| Decoded (v : pyval)
| DecodeError
| Beyond.

(** [json.loads(s)]: one value between optional whitespace, and nothing
    behind it. *)
Definition loads (s : string) : decoded :=
  match scan_once (S (String.length s)) (skip_ws s) with
  | PErr => DecodeError
  | PBeyond => Beyond
  | POk v rest =>
      match skip_ws rest with
      | EmptyString => Decoded v
      | _ => DecodeError
      end
  end.

(** The decoder as the pipeline sees it: a value, or an exception. *)
Definition json_loads (s : string) : option pyval :=
  match loads s with
  | Decoded v => Some v
  | _ => None
  end.

(** Writing aid for texts with double quotes: every apostrophe of [s]
    stands for a double quote. *)
Fixpoint js (s : string) : string :=
  match s with
  | String c s' => String (if Ascii.eqb c "'" then dquote else c) (js s')
  | EmptyString => EmptyString
  end.

End PyJson.

(* ===================================================================== *)
(** * Exceptions *)
(* ===================================================================== *)

Module Exn.

(** The exceptions that can leave the modelled functions. *)
Inductive exn : Type :=
| AttributeError
| TypeError
| ValueError
| OSError (msg : string)
| ClientError (msg : string)
| CalledProcessError (returncode : Z) (cmd : list string) (output stderr : string)
| TimeoutExpired (stdout stderr : option string).

(** How a call ends: with a value, with an exception, or never. *)
Inductive outcome (A : Type) : Type :=
| Return (a : A)
| Raise (e : exn)
| Diverge.
Arguments Return {A} a.
Arguments Raise {A} e.
Arguments Diverge {A}.

End Exn.

(* ===================================================================== *)
(** * Second-chance recovery of a bug report *)
(* ===================================================================== *)

Module Normalise.
Import PyStr Re Recoverer PyVal Exn.

Section WithDecoder.

(** [json.loads]: the decoded value, or [None] when it raises. *)
Variable json_loads : string -> option pyval.

(** [extract_json_from_text] of fix_from_report.py; Python's [None] is
    [VNone]. *)
Definition extract_json_from_text (text : string) : pyval :=
  if negb (nonempty text) then VNone
  else
    let t := unfence (strip text) in
    match brace_slice t with
    | None => VNone
    | Some candidate =>
        match json_loads candidate with
        | Some v => v
        | None => VNone
        end
    end.

(** [bug_report.get("code_excerpt") and not recovered.get("code_excerpt")],
    then [recovered["code_excerpt"] = bug_report["code_excerpt"]]. *)
Definition carry_excerpt (bug_report recovered : pydict) : pydict :=
  if truthy (get bug_report "code_excerpt") && negb (truthy (get recovered "code_excerpt"))
  then setitem "code_excerpt" (get bug_report "code_excerpt") recovered
  else recovered.

(** [_normalize_bug_report] of run_bug_supervision.py.  A raw text that is
    not a [str] has no [strip]: the call before the [try] raises.  Inside the
    [try], [recovered.get] on a value that is no [dict] raises too, and is
    caught, but it is only reached when the report has an excerpt. *)
Definition _normalize_bug_report (entry : pydict) : outcome pyval :=
  match or_else (get entry "bug_report") (VDict []) with
  | VDict bug_report =>
      if truthy (get bug_report "error") && truthy (get bug_report "raw_response_text") then
        match get bug_report "raw_response_text" with
        | VStr raw =>
            let cleaned := _extract_json_from_text raw in
            match json_loads cleaned with
            | Some (VDict recovered) => Return (VDict (carry_excerpt bug_report recovered))
            | Some recovered =>
                if truthy (get bug_report "code_excerpt")
                then Return (VDict bug_report)
                else Return recovered
            | None => Return (VDict bug_report)
            end
        | _ => Raise AttributeError
        end
      else Return (VDict bug_report)
  | _ => Return (VDict [])
  end.

(** [normalize_bug_report] of fix_from_report.py. *)
Definition normalize_bug_report (entry : pydict) : outcome pyval :=
  match or_else (get entry "bug_report") (VDict []) with
  | VDict bug_report =>
      if truthy (get bug_report "error") && truthy (get bug_report "raw_response_text") then
        match get bug_report "raw_response_text" with
        | VStr raw =>
            match extract_json_from_text raw with
            | VDict recovered => Return (VDict (carry_excerpt bug_report recovered))
            | _ => Return (VDict bug_report)
            end
        | _ => Raise AttributeError
        end
      else Return (VDict bug_report)
  | _ => Return (VDict [])
  end.

End WithDecoder.

End Normalise.

(* ===================================================================== *)
(** * [hashlib.sha256] and the fingerprint [_sha256] *)
(* ===================================================================== *)

Module Sha256.

(** Words are 32-bit integers in [Z]; every sum is reduced modulo 2^32. *)
Definition w32 (x : Z) : Z := Z.land x 0xffffffff.

Definition rotr (n x : Z) : Z := Z.lor (Z.shiftr x n) (w32 (Z.shiftl x (32 - n))).

Definition Ch (x y z : Z) : Z :=
  Z.lxor (Z.land x y) (Z.land (Z.lxor x 0xffffffff) z).

Definition Maj (x y z : Z) : Z :=
  Z.lxor (Z.lxor (Z.land x y) (Z.land x z)) (Z.land y z).

Definition Sigma0 (x : Z) : Z := Z.lxor (Z.lxor (rotr 2 x) (rotr 13 x)) (rotr 22 x).
Definition Sigma1 (x : Z) : Z := Z.lxor (Z.lxor (rotr 6 x) (rotr 11 x)) (rotr 25 x).
Definition sigma0 (x : Z) : Z := Z.lxor (Z.lxor (rotr 7 x) (rotr 18 x)) (Z.shiftr x 3).
Definition sigma1 (x : Z) : Z := Z.lxor (Z.lxor (rotr 17 x) (rotr 19 x)) (Z.shiftr x 10).

(** The round constants: the first 32 bits of the fractional parts of the
    cube roots of the first 64 primes. *)
Definition K : list Z :=
  [
   1116352408; 1899447441; 3049323471; 3921009573; 961987163; 1508970993;
   2453635748; 2870763221; 3624381080; 310598401; 607225278; 1426881987;
   1925078388; 2162078206; 2614888103; 3248222580; 3835390401; 4022224774;
   264347078; 604807628; 770255983; 1249150122; 1555081692; 1996064986;
   2554220882; 2821834349; 2952996808; 3210313671; 3336571891; 3584528711;
   113926993; 338241895; 666307205; 773529912; 1294757372; 1396182291;
   1695183700; 1986661051; 2177026350; 2456956037; 2730485921; 2820302411;
   3259730800; 3345764771; 3516065817; 3600352804; 4094571909; 275423344;
   430227734; 506948616; 659060556; 883997877; 958139571; 1322822218;
   1537002063; 1747873779; 1955562222; 2024104815; 2227730452; 2361852424;
   2428436474; 2756734187; 3204031479; 3329325298
  ].

(** The initial hash value: the same of the square roots of the first 8
    primes. *)
Definition H0 : list Z :=
  [
   1779033703; 3144134277; 1013904242; 2773480762;
   1359893119; 2600822924; 528734635; 1541459225
  ].

(** The message followed by the bit 1, zeros up to 56 modulo 64 bytes, and
    the length in bits as a 64-bit big-endian integer. *)
Definition big_endian (width : nat) (x : Z) : list Z :=
  map (fun i => Z.land (Z.shiftr x (8 * Z.of_nat i)) 0xff) (List.rev (seq 0 width)).

Definition pad (msg : list Z) : list Z :=
  let len := Z.of_nat (List.length msg) in
  let zeros := Z.to_nat ((55 - len) mod 64) in
  msg ++ [0x80] ++ repeat 0 zeros ++ big_endian 8 (8 * len).

Fixpoint words (bytes : list Z) : list Z :=
  match bytes with
  | a :: b :: c :: d :: rest =>
      Z.lor (Z.shiftl a 24) (Z.lor (Z.shiftl b 16) (Z.lor (Z.shiftl c 8) d)) :: words rest
  | _ => []
  end.

(** The message schedule: [w] holds the words so far, newest first. *)
Fixpoint schedule (n : nat) (w : list Z) : list Z :=
  match n with
  | O => w
  | S n' =>
      let x := w32 (sigma1 (nth 1 w 0) + nth 6 w 0 + sigma0 (nth 14 w 0) + nth 15 w 0) in
      schedule n' (x :: w)
  end.

Definition round (st : list Z) (kw : Z * Z) : list Z :=
  match st with
  | [a; b; c; d; e; f; g; h] =>
      let t1 := w32 (h + Sigma1 e + Ch e f g + fst kw + snd kw) in
      let t2 := w32 (Sigma0 a + Maj a b c) in
      [w32 (t1 + t2); a; b; c; w32 (d + t1); e; f; g]
  | _ => st
  end.

Definition compress (h : list Z) (block : list Z) : list Z :=
  let w := List.rev (schedule 48 (List.rev block)) in
  let st := fold_left round (combine K w) h in
  map (fun p => w32 (fst p + snd p)) (combine h st).

Fixpoint blocks (n : nat) (ws : list Z) : list (list Z) :=
  match n with
  | O => []
  | S n' => firstn 16 ws :: blocks n' (skipn 16 ws)
  end.

(** The digest as eight 32-bit words. *)
Definition digest (msg : list Z) : list Z :=
  let ws := words (pad msg) in
  fold_left compress (blocks (List.length ws / 16) ws) H0.

Definition hex_digit (n : Z) : ascii :=
  ascii_of_N (Z.to_N (if n <? 10 then 48 + n else 87 + n)).

Definition hex_word (x : Z) : string :=
  string_of_list_ascii
    (map (fun i => hex_digit (Z.land (Z.shiftr x (4 * Z.of_nat i)) 0xf)) (List.rev (seq 0 8))).

(** [hashlib.sha256(msg).hexdigest()] *)
Definition hexdigest (msg : list Z) : string :=
  String.concat "" (map hex_word (digest msg)).

(** [s.encode("utf-8", errors="ignore")] on the modelled code points: one
    byte below U+0080, two bytes from there on. *)
Fixpoint utf8 (s : string) : list Z :=
  match s with
  | EmptyString => []
  | String c s' =>
      let n := Z.of_N (N_of_ascii c) in
      if n <? 128 then n :: utf8 s'
      else Z.lor 0xc0 (Z.shiftr n 6) :: Z.lor 0x80 (Z.land n 0x3f) :: utf8 s'
  end.

(** [_sha256] of bug_fix_agent.py. *)
Definition _sha256 (s : string) : string := hexdigest (utf8 s).

End Sha256.

(* ===================================================================== *)
(** * [pathlib] on POSIX paths in normal form *)
(* ===================================================================== *)

Module Pathlib.
Import PyStr Exn.

Definition len (s : string) : Z := Z.of_nat (String.length s).

(** [p.name] *)
Definition name (p : string) : string :=
  if String.eqb p "." then EmptyString
  else
    let i := rfind p "/" in
    if i <? 0 then p else slice p (i + 1) (len p).

(** [p.parent] *)
Definition parent (p : string) : string :=
  let i := rfind p "/" in
  if i <? 0 then "."
  else if i =? 0 then "/"
  else slice p 0 i.

(** [p.suffix] *)
Definition suffix (p : string) : string :=
  let n := name p in
  let i := rfind n "." in
  if (0 <? i) && (i <? len n - 1) then slice n i (len n) else EmptyString.

(** [p.stem] *)
Definition stem (p : string) : string :=
  let n := name p in
  let i := rfind n "." in
  if (0 <? i) && (i <? len n - 1) then slice n 0 i else n.

(** [p.with_suffix(sfx)] *)
Definition with_suffix (p sfx : string) : outcome string :=
  if contains "/" sfx || (nonempty sfx && negb (startswith sfx ".")) || String.eqb sfx "."
  then Raise ValueError
  else
    let n := name p in
    if negb (nonempty n) then Raise ValueError
    else
      let old := suffix p in
      let n' := if nonempty old then slice n 0 (len n - len old) ++ sfx else n ++ sfx in
      Return (slice p 0 (len p - len n) ++ n').

(** [p / child] for a relative [child]. *)
Definition joinpath (p child : string) : string :=
  if String.eqb p "." then child
  else if endswith p "/" then p ++ child
  else p ++ "/" ++ child.

End Pathlib.

(* ===================================================================== *)
(** * The environment: file system, subprocesses, and the trace of effects *)
(* ===================================================================== *)

Module Sys.
Import PyStr PyVal Exn.

(** [errors=] of [Path.read_text]. *)
Inductive decode_errors : Type := Ignore | Replace.

(** [subprocess.CompletedProcess] with captured text. *)
Record completed : Type := {
  returncode : Z;
  stdout : string;
  stderr : string
}.

(** One call of [subprocess.run]. *)
Record process : Type := {
  cmd : list string;
  cwd : string;
  pythonpath : option string;     (* env["PYTHONPATH"], when the caller sets it *)
  timeout : option Z
}.

(** What is sent to the reasoning service: the model name and the two
    values the user prompt is filled with (the bug report, printed by
    [json.dumps], and the original file content); the rest of both prompts is
    fixed text. *)
Record request : Type := {
  req_model : string;
  req_bug_report : pydict;
  req_original_code : string
}.

(** The operating system as the pipeline uses it, over a state [W].
    [file_bytes] is the content of a regular file; it is how properties speak
    about what is on disk, the code never calls it. *)
Class OS (W : Type) : Type := {
  path_exists : string -> W -> bool;
  resolve : string -> W -> string;
  read_text : decode_errors -> string -> W -> outcome string;
  copyfile : string -> string -> W -> W * outcome unit;
  write_text : string -> string -> W -> W * outcome unit;
  subprocess_run : process -> W -> W * outcome completed;
  file_bytes : string -> W -> option string
}.

(** What a file system guarantees: a copy that returns has made the
    destination equal to the source, and copying or writing one path leaves
    the content of every other path alone. *)
Class FileSystemLaws (W : Type) {os : OS W} : Prop := {
  copyfile_dst : forall src dst w w',
    copyfile src dst w = (w', Return tt) -> file_bytes dst w' = file_bytes src w;
  copyfile_frame : forall src dst w w' r p,
    copyfile src dst w = (w', r) -> p <> dst -> file_bytes p w' = file_bytes p w;
  write_text_frame : forall p text w w' r q,
    write_text p text w = (w', r) -> q <> p -> file_bytes q w' = file_bytes q w
}.

(** The effects a run leaves behind, in the order they happen. *)
Inductive event : Type :=
| EExists (p : string)
| EResolve (p : string)
| ERead (p : string)
| ECopy (src dst : string)
| EWrite (p : string) (text : string)
| ECreate (req : request)
| ERun (pr : process).

Section Monad.
Context {W : Type} {os : OS W}.

(** A computation: from a state to the state it leaves, the effects it
    performed and how it ended. *)
Definition M (A : Type) : Type := W -> W * list event * outcome A.

Definition ret {A} (a : A) : M A := fun w => (w, [], Return a).

Definition raise {A} (e : exn) : M A := fun w => (w, [], Raise e).

Definition diverge {A} : M A := fun w => (w, [], Diverge).

Definition bind {A B} (m : M A) (k : A -> M B) : M B :=
  fun w =>
    match m w with
    | (w1, t1, Return a) => let '(w2, t2, r) := k a w1 in (w2, (t1 ++ t2)%list, r)
    | (w1, t1, Raise e) => (w1, t1, Raise e)
    | (w1, t1, Diverge) => (w1, t1, Diverge)
    end.

(** [try: m  except Exception as e: handler(e)] *)
Definition try_except {A} (m : M A) (handler : exn -> M A) : M A :=
  fun w =>
    match m w with
    | (w1, t1, Raise e) => let '(w2, t2, r) := handler e w1 in (w2, (t1 ++ t2)%list, r)
    | r => r
    end.

Definition lift {A} (o : outcome A) : M A := fun w => (w, [], o).

Definition do_exists (p : string) : M bool :=
  fun w => (w, [EExists p], Return (path_exists p w)).

Definition do_resolve (p : string) : M string :=
  fun w => (w, [EResolve p], Return (resolve p w)).

Definition do_read_text (errors : decode_errors) (p : string) : M string :=
  fun w => (w, [ERead p], read_text errors p w).

Definition do_copyfile (src dst : string) : M unit :=
  fun w => let '(w', r) := copyfile src dst w in (w', [ECopy src dst], r).

Definition do_write_text (p text : string) : M unit :=
  fun w => let '(w', r) := write_text p text w in (w', [EWrite p text], r).

Definition do_run (pr : process) : M completed :=
  fun w => let '(w', r) := subprocess_run pr w in (w', [ERun pr], r).

End Monad.

Arguments M W A : clear implicits.

Declare Scope py_scope.
Delimit Scope py_scope with py.
Notation "x <- m ;; k" := (bind m (fun x => k))
  (at level 61, m at next level, right associativity) : py_scope.
Notation "m ;;; k" := (bind m (fun _ => k))
  (at level 61, right associativity) : py_scope.

End Sys.

(* ===================================================================== *)
(** * Fix applicator  (Agents/bug_fix_agent.py) *)
(* ===================================================================== *)

Module FixBug.
Import PyStr Recoverer PyVal Exn Pathlib Sys Sha256.
#[local] Open Scope py_scope.

(** What [client.responses.create] and the extraction of the reply text
    amount to: a text, or an exception with its [str(e)]. *)
Inductive reply : Type :=
| Reply (text : string)
| Failure (message : string).

(** [self] of [BugFixAgent]. *)
Record BugFixAgent : Type := {
  client : request -> reply;
  model : string
}.

Section Agent.
Context {W : Type} {os : OS W}.

(** [json.loads], and the text of the exception it raises. *)
Variable json_loads : string -> option pyval.
Variable json_error : string -> string.

Definition do_create (self : BugFixAgent) (req : request) : M W reply :=
  fun w => (w, [ECreate req], Return (client self req)).

(** [BugFixAgent.fix_bug].  The path in the report is taken in the normal
    form of [pathlib], so that [Path(file_path)] and [str(target)] are the
    text itself. *)
Definition fix_bug (self : BugFixAgent) (bug_report : pydict) (dry_run : bool) : M W pydict :=
  let file_path := get bug_report "file_path" in
  if negb (truthy file_path) then
    ret [("status", VStr "error"); ("error", VStr "bug_report missing file_path");
         ("bug_report", VDict bug_report)]
  else
    match file_path with
    | VStr target =>
        present <- do_exists target ;;
        if negb present then
          ret [("status", VStr "error");
               ("error", VStr ("file_path does not exist: " ++ target));
               ("bug_report", VDict bug_report)]
        else
          original_code <- do_read_text Ignore target ;;
          let original_hash := _sha256 original_code in
          let has_bug := truthy (get_default bug_report "has_bug" (VBool false)) in
          if negb has_bug then
            ret [("status", VStr "skipped"); ("reason", VStr "has_bug=false in bug_report");
                 ("file_path", VStr target)]
          else
            resp <- do_create self {| req_model := model self;
                                      req_bug_report := bug_report;
                                      req_original_code := original_code |} ;;
            match resp with
            | Failure message =>
                ret [("status", VStr "error");
                     ("error", VStr ("OpenAI API call failed: " ++ message));
                     ("file_path", VStr target)]
            | Reply text =>
                let cleaned := _clean_json text in
                match json_loads cleaned with
                | None =>
                    ret [("status", VStr "error");
                         ("error", VStr ("Could not parse JSON from model: " ++ json_error cleaned));
                         ("file_path", VStr target);
                         ("raw_response_text", VStr text)]
                | Some fix_plan =>
                    match or_else fix_plan (VDict []) with
                    | VDict plan =>
                        match or_else (get_default plan "fixed_code" (VStr "")) (VStr "") with
                        | VStr code =>
                            let fixed_code := _strip_code_fences code in
                            if negb (nonempty (strip fixed_code)) then
                              ret [("status", VStr "no_fixed_code"); ("file_path", VStr target);
                                   ("fix_plan", fix_plan)]
                            else
                              let fixed_hash := _sha256 fixed_code in
                              if String.eqb fixed_hash original_hash then
                                ret [("status", VStr "no_change");
                                     ("reason", VStr "Model returned identical file content");
                                     ("file_path", VStr target);
                                     ("fix_plan", fix_plan)]
                              else if dry_run then
                                ret [("status", VStr "dry_run"); ("file_path", VStr target);
                                     ("before_hash", VStr original_hash);
                                     ("after_hash", VStr fixed_hash);
                                     ("fix_plan", fix_plan)]
                              else
                                backup_path <- lift (with_suffix target (suffix target ++ ".bak")) ;;
                                do_copyfile target backup_path ;;;
                                do_write_text target fixed_code ;;;
                                on_disk <- do_read_text Ignore target ;;
                                let on_disk_hash := _sha256 on_disk in
                                if String.eqb on_disk_hash original_hash then
                                  do_copyfile backup_path target ;;;
                                  ret [("status", VStr "write_failed");
                                       ("error", VStr "File did not change after write; rolled back");
                                       ("file_path", VStr target);
                                       ("backup_path", VStr backup_path);
                                       ("fix_plan", fix_plan)]
                                else
                                  ret [("status", VStr "patched"); ("file_path", VStr target);
                                       ("backup_path", VStr backup_path);
                                       ("before_hash", VStr original_hash);
                                       ("after_hash", VStr on_disk_hash);
                                       ("fix_plan", fix_plan)]
                        | _ => raise AttributeError
                        end
                    | _ => raise AttributeError
                    end
                end
            end
    | _ => raise TypeError
    end.

End Agent.

End FixBug.

(* ===================================================================== *)
(** * Test runner selector  (unit_test_evaluation_agent.py) *)
(* ===================================================================== *)

Module TestEval.
Import PyStr Re PyVal Exn Pathlib Sys.
#[local] Open Scope py_scope.

Record UnitTestEvalResult : Type := {
  scanned_file : string;
  test_file : string;
  runner : string;        (* "pytest" | "python-file" | "python-module" | "none" *)
  passed : bool;
  exit_code : Z;
  stdout : string;
  stderr : string;
  notes : string
}.

(** [self] of [UnitTestEvaluationAgent], with the interpreter path
    [sys.executable] the commands start with.  [repo_root] is resolved by
    the constructor. *)
Record UnitTestEvaluationAgent : Type := {
  repo_root : string;
  tests_dir : string;
  timeout_seconds : Z;
  sys_executable : string
}.

Definition nonspace (c : ascii) : bool := negb (isspace c).

(** The pattern of [_looks_like_relative_import_test]: start of a line,
    blanks, "from", blanks, one or two dots, a run of non-blanks, blanks,
    "import", blanks. *)
Definition relative_import_re : list item :=
  ([Bol; Star isspace] ++ lit "from" ++
   [Plus isspace; One (ch "."); Opt (ch "."); Star nonspace; Plus isspace] ++
   lit "import" ++ [Plus isspace])%list.

(** The pattern of [_looks_like_pytest_test]: start of a line, blanks, "def",
    blanks, "test". *)
Definition def_test_re : list item :=
  ([Bol; Star isspace] ++ lit "def" ++ [Plus isspace] ++ lit "test")%list.

Definition _looks_like_relative_import_test (text : string) : bool :=
  search true relative_import_re text.

Definition _looks_like_pytest_test (text : string) (test_file : string) : bool :=
  if contains "import pytest" text then true
  else if search true def_test_re text then true
  else startswith (name test_file) "test_" || endswith (name test_file) "_test.py".

(** [str(n)] for an [int]. *)
Definition str_int (n : Z) : string :=
  let digits := fix go (fuel : nat) (k : Z) (acc : string) : string :=
    match fuel with
    | O => acc
    | Datatypes.S fuel' =>
        let acc' := String (ascii_of_N (Z.to_N (48 + k mod 10))) acc in
        if k / 10 =? 0 then acc' else go fuel' (k / 10) acc'
    end in
  if n <? 0 then "-" ++ digits (Z.to_nat (- n)) (- n) "" else digits (Datatypes.S (Z.to_nat n)) n "".

(** [' '.join(cmd)] *)
Definition join_space (cmd : list string) : string := String.concat " " cmd.

(** [str(list_of_paths)], for paths free of quotes, backslashes and control
    characters. *)
Definition repr_list (l : list string) : string :=
  "[" ++ String.concat ", " (map (fun s => "'" ++ s ++ "'") l) ++ "]".

Section Agent.
Context {W : Type} {os : OS W}.
Variable self : UnitTestEvaluationAgent.

Definition _candidate_test_paths (scanned : string) : M W (list string) :=
  let stem := stem scanned in
  tests_root <- do_resolve (joinpath (repo_root self) (tests_dir self)) ;;
  ret [joinpath tests_root (stem ++ "_test.py");
       joinpath tests_root ("test_" ++ stem ++ ".py")].

Fixpoint first_existing (ps : list string) : M W (option string) :=
  match ps with
  | [] => ret None
  | p :: ps' =>
      present <- do_exists p ;;
      if present then ret (Some p) else first_existing ps'
  end.

Definition _find_test_file (scanned : string) : M W (option string) :=
  ps <- _candidate_test_paths scanned ;;
  first_existing ps.

(** The [while] loop of [_module_name_for_file]; [parts] is kept reversed.
    Each turn shortens [cur] except at a path that is its own parent, where
    the loop, once entered, never ends: [fuel] counts the turns. *)
Fixpoint walk_up (fuel : nat) (cur : string) (parts : list string)
    : M W (string * list string) :=
  if String.eqb cur (repo_root self) then ret (cur, parts)
  else
    present <- do_exists (joinpath cur "__init__.py") ;;
    if present then
      match fuel with
      | O => diverge
      | Datatypes.S fuel' => walk_up fuel' (parent cur) (name cur :: parts)
      end
    else ret (cur, parts).

Definition _module_name_for_file (file_path : string) : M W string :=
  r <- walk_up (String.length file_path) (parent file_path) [stem file_path] ;;
  let '(cur, parts) := r in
  if String.eqb cur (repo_root self) then
    present <- do_exists (joinpath cur "__init__.py") ;;
    ret (String.concat "." (if present then name cur :: parts else parts))
  else ret (String.concat "." parts).

Definition _run (cmd : list string) : M W completed :=
  do_run {| Sys.cmd := cmd;
            cwd := repo_root self;
            pythonpath := Some (repo_root self);
            timeout := Some (timeout_seconds self) |}.

(** The choice of the execution mode in [evaluate]. *)
Definition choose_runner (test_text test_file : string) : M W (string * list string) :=
  if _looks_like_pytest_test test_text test_file then
    ret ("pytest", [sys_executable self; "-m"; "pytest"; test_file])
  else if _looks_like_relative_import_test test_text then
    module <- _module_name_for_file test_file ;;
    ret ("python-module", [sys_executable self; "-m"; module])
  else
    ret ("python-file", [sys_executable self; test_file]).

Definition opt_text (o : option string) : string :=
  match o with Some s => s | None => EmptyString end.

(** [UnitTestEvaluationAgent.evaluate] *)
Definition evaluate (scanned_file_path : string) : M W UnitTestEvalResult :=
  scanned <- do_resolve scanned_file_path ;;
  present <- do_exists scanned ;;
  if negb present then
    ret {| scanned_file := scanned; test_file := ""; runner := "none"; passed := false;
           exit_code := 2; stdout := ""; stderr := "";
           notes := "Scanned file does not exist." |}
  else
    found <- _find_test_file scanned ;;
    match found with
    | None =>
        cands <- _candidate_test_paths scanned ;;
        ret {| scanned_file := scanned; test_file := ""; runner := "none"; passed := false;
               exit_code := 3; stdout := ""; stderr := "";
               notes := "Unit test not found in " ++ tests_dir self ++ ". Tried: "
                        ++ repr_list cands |}
    | Some tf =>
        test_text <- do_read_text Replace tf ;;
        rc <- choose_runner test_text tf ;;
        let '(runner_, cmd) := rc in
        try_except
          (cp <- _run cmd ;;
           let ok := returncode cp =? 0 in
           ret {| scanned_file := scanned; test_file := tf; runner := runner_;
                  passed := ok; exit_code := returncode cp;
                  stdout := Sys.stdout cp; stderr := Sys.stderr cp;
                  notes := if ok then "OK"
                           else "Failed (exit=" ++ str_int (returncode cp)
                                ++ "). Command: " ++ join_space cmd |})
          (fun e =>
             match e with
             | TimeoutExpired out err =>
                 ret {| scanned_file := scanned; test_file := tf; runner := runner_;
                        passed := false; exit_code := 124;
                        stdout := opt_text out; stderr := opt_text err;
                        notes := "Timed out after " ++ str_int (timeout_seconds self)
                                 ++ "s running: " ++ join_space cmd |}
             | _ => raise e
             end)
    end.

End Agent.

End TestEval.

(* ===================================================================== *)
(** * Version-control publisher  (git_push_agent.py) *)
(* ===================================================================== *)

Module GitPush.
Import PyStr PyVal Exn Sys.
#[local] Open Scope py_scope.

(** [self] of [GitPushAgent]. *)
Record GitPushAgent : Type := { repo_root : string }.

Section Agent.
Context {W : Type} {os : OS W}.
Variable self : GitPushAgent.

(** [GitPushAgent._run] *)
Definition _run (cmd : list string) : M W string :=
  p <- do_run {| Sys.cmd := cmd; cwd := repo_root self;
                 pythonpath := None; timeout := None |} ;;
  if negb (returncode p =? 0) then
    raise (CalledProcessError (returncode p) cmd (stdout p) (stderr p))
  else ret (strip (stdout p)).

Definition diff_cached : list string := ["git"; "diff"; "--cached"; "--name-only"].

Definition commit_cmd (message : string) : list string := ["git"; "commit"; "-m"; message].

(** [GitPushAgent._has_staged_changes] *)
Definition _has_staged_changes : M W bool :=
  out <- _run diff_cached ;;
  ret (nonempty (strip out)).

(** [GitPushAgent.commit] *)
Definition commit (message : string) : M W unit :=
  staged <- _has_staged_changes ;;
  if negb staged then ret tt
  else _run (commit_cmd message) ;;; ret tt.

(** [GitPushAgent.stage_files] *)
Definition stage_files (files : list string) : M W unit :=
  match files with
  | [] => raise ValueError
  | _ => _run (["git"; "add"; "--"] ++ files)%list ;;; ret tt
  end.

(** [GitPushAgent.push] *)
Definition push (branch_name : string) : M W unit :=
  _run ["git"; "push"; "-u"; "origin"; branch_name] ;;; ret tt.

End Agent.

End GitPush.

(* ===================================================================== *)
(** * An in-memory environment *)
(* ===================================================================== *)

(** A file system of regular files holding ASCII text, read back with
    universal newlines, and subprocesses answered by a table.  It is the
    environment the examples run in. *)
Module MemFS.
Import PyStr PyVal Exn Sys.

Record world : Type := {
  files : string -> option string;
  processes : process -> outcome completed
}.

Definition update (p : string) (bytes : string) (fs : string -> option string)
    : string -> option string :=
  fun q => if String.eqb q p then Some bytes else fs q.

(** Text mode on reading: CR LF and a lone CR become LF. *)
Fixpoint universal_newlines (s : string) : string :=
  match s with
  | EmptyString => EmptyString
  | String c s' =>
      if Ascii.eqb c CR then
        match s' with
        | String c' s'' =>
            if Ascii.eqb c' LF then String LF (universal_newlines s'')
            else String LF (universal_newlines s')
        | EmptyString => String LF EmptyString
        end
      else String c (universal_newlines s')
  end.

Definition mem_read_text (p : string) (w : world) : outcome string :=
  match files w p with
  | Some bytes => Return (universal_newlines bytes)
  | None => Raise (OSError "No such file or directory")
  end.

Definition mem_copyfile (src dst : string) (w : world) : world * outcome unit :=
  match files w src with
  | None => (w, Raise (OSError "No such file or directory"))
  | Some bytes =>
      if String.eqb src dst then (w, Raise (OSError "are the same file"))
      else ({| files := update dst bytes (files w); processes := processes w |}, Return tt)
  end.

Definition mem_write_text (p text : string) (w : world) : world * outcome unit :=
  ({| files := update p text (files w); processes := processes w |}, Return tt).

#[export] Instance mem_os : OS world := {
  path_exists p w := match files w p with Some _ => true | None => false end;
  resolve p w := p;
  read_text _ p w := mem_read_text p w;
  copyfile := mem_copyfile;
  write_text := mem_write_text;
  subprocess_run pr w := (w, processes w pr);
  file_bytes p w := files w p
}.

Definition no_files : string -> option string := fun _ => None.

(** Every subprocess exits with the given code and prints nothing. *)
Definition exits_with (code : Z) : process -> outcome completed :=
  fun _ => Return {| returncode := code; stdout := ""; stderr := "" |}.

(** [git diff --cached --name-only] prints [names]; every command exits 0. *)
Definition git_with_staged (names : string) : process -> outcome completed :=
  fun pr =>
    Return {| returncode := 0;
              stdout := if list_eq_dec string_dec (cmd pr) ["git"; "diff"; "--cached"; "--name-only"]
                        then names else "";
              stderr := "" |}.

End MemFS.

(* ===================================================================== *)
(** * Auxiliary notions for the properties *)
(* ===================================================================== *)

Module Aux.
Import PyStr.

(** [c] occurs in [s]. *)
Fixpoint has_char (c : ascii) (s : string) : bool :=
  match s with
  | EmptyString => false
  | String a s' => Ascii.eqb c a || has_char c s'
  end.

(** Every character of [s] satisfies [p]. *)
Fixpoint all_chars (p : ascii -> bool) (s : string) : bool :=
  match s with
  | EmptyString => true
  | String a s' => p a && all_chars p s'
  end.

(** [s] without its first [n] characters. *)
Fixpoint drop (n : nat) (s : string) : string :=
  match n, s with
  | O, _ => s
  | Datatypes.S n', String _ s' => drop n' s'
  | Datatypes.S _, EmptyString => EmptyString
  end.

Definition nl : string := String LF EmptyString.

(** The text of a JSON object: an opening brace, anything, a closing brace. *)
Definition object_text (mid : string) : string := String "{" (mid ++ "}").

(** [t] holds the object text between a part without an opening brace and a
    part without a closing brace. *)
Definition sandwich (mid t : string) : Prop :=
  exists pre post,
    t = pre ++ object_text mid ++ post /\
    has_char "{" pre = false /\ has_char "}" post = false.

(** [t] has an opening brace with a closing brace somewhere behind it. *)
Definition braced (t : string) : Prop :=
  exists a b c, t = a ++ String "{" (b ++ String "}" c).

(** A payload inside a code fence: the fence line with an optional language
    tag, the payload on its own lines, the closing fence, and whatever the
    reply goes on with. *)
Definition fenced (lang payload prose : string) : string :=
  "```" ++ lang ++ nl ++ payload ++ nl ++ "```" ++ prose.

(** The characters a pattern can consume all satisfy [P]. *)
Definition consumes_only (P : ascii -> bool) (re : list Re.item) : Prop :=
  Forall (fun it =>
            match it with
            | Re.One p | Re.Opt p | Re.Star p | Re.Plus p => forall c, p c = true -> P c = true
            | _ => True
            end) re.

(** [r] is [s] behind a prefix made of characters that satisfy [P]: what a
    match consumes when it leaves [r]. *)
Definition splits (P : ascii -> bool) (s r : string) : Prop :=
  exists m, s = m ++ r /\ all_chars P m = true.

Definition not_brace (c : ascii) : bool :=
  negb (Ascii.eqb "{" c) && negb (Ascii.eqb "}" c).

End Aux.

(* ===================================================================== *)
(** * Reading results and traces *)
(* ===================================================================== *)

Module Observe.
Import PyStr Recoverer PyVal Exn Pathlib Sys FixBug.

(** The event is a call of the reasoning service. *)
Definition is_service_call (e : event) : bool :=
  match e with ECreate _ => true | _ => false end.

(** The event changes a file: a copy or a write. *)
Definition is_mutation (e : event) : bool :=
  match e with ECopy _ _ | EWrite _ _ => true | _ => false end.

(** [(fix_plan or {}).get("fixed_code", "") or ""], when it is a [str]. *)
Definition proposed_code (fix_plan : pyval) : option string :=
  match or_else fix_plan (VDict []) with
  | VDict plan =>
      match or_else (get_default plan "fixed_code" (VStr "")) (VStr "") with
      | VStr code => Some code
      | _ => None
      end
  | _ => None
  end.

(** The request [fix_bug] sends for a report and a file content. *)
Definition request_for (self : BugFixAgent) (bug_report : pydict) (original_code : string)
    : request :=
  {| req_model := model self;
     req_bug_report := bug_report;
     req_original_code := original_code |}.

(** The runner the decision of [evaluate] names for a test file, given its
    text and its path. *)
Definition select_runner (test_text test_file : string) : string :=
  if TestEval._looks_like_pytest_test test_text test_file then "pytest"
  else if TestEval._looks_like_relative_import_test test_text then "python-module"
  else "python-file".

(** The two candidate test paths of a scanned file, under a resolved tests
    directory. *)
Definition candidates (tests_root scanned : string) : list string :=
  [joinpath tests_root (stem scanned ++ "_test.py");
   joinpath tests_root ("test_" ++ stem scanned ++ ".py")].

(** The subprocess [UnitTestEvaluationAgent._run] starts for a command. *)
Definition test_process (self : TestEval.UnitTestEvaluationAgent) (cmd : list string)
    : process :=
  {| cmd := cmd;
     cwd := TestEval.repo_root self;
     pythonpath := Some (TestEval.repo_root self);
     timeout := Some (TestEval.timeout_seconds self) |}.

(** The subprocess [GitPushAgent._run] starts for a command. *)
Definition git_process (self : GitPush.GitPushAgent) (cmd : list string) : process :=
  {| cmd := cmd; cwd := GitPush.repo_root self; pythonpath := None; timeout := None |}.

(** A text is at the start of a line when it is empty or ends with a
    newline. *)
Definition ends_line (pre : string) : Prop :=
  pre = EmptyString \/ exists pre', pre = pre' ++ String LF EmptyString.

(** The character before the position behind [pre], when [prev] is the one
    before [pre]. *)
Fixpoint prev_after (prev : option ascii) (pre : string) : option ascii :=
  match pre with
  | EmptyString => prev
  | String c pre' => prev_after (Some c) pre'
  end.


End Observe.

(* ===================================================================== *)
(** * Concrete inputs *)
(* ===================================================================== *)

Module Examples.
Import PyStr PyVal PyJson Exn Sys MemFS Aux.

(** The payload of the specification's example, bare and inside a fence
    that is followed by prose. *)
Definition payload : string := js "{'hasBug': true}".

Definition fenced_then_prose : string :=
  "```json" ++ nl ++ payload ++ nl ++ "```" ++ nl ++ "Done, see above.".

(** The same fence, followed by prose that mentions a set in braces. *)
Definition fenced_then_braces : string :=
  "```json" ++ nl ++ payload ++ nl ++ "```" ++ nl ++ "The set {x} is never read.".

(** A ledger entry whose detector report failed to decode a fenced reply. *)
Definition failed_report : pydict :=
  [("file", VStr "bitcount.py");
   ("has_bug", VBool false);
   ("error", VStr "Could not parse JSON from model");
   ("raw_response_text", VStr fenced_then_prose);
   ("code_excerpt", VStr "def bitcount(n):")].

Definition failed_entry : pydict :=
  [("bug_report", VDict failed_report); ("supervisor_review", VDict [])].

(** A repository with one program and its test. *)
Definition program : string := "/repo/python_programs/bitcount.py".
Definition program_text : string := "x = 1" ++ nl ++ "y = 2".

(** Its test, a driver script with a relative import. *)
Definition driver_test : string := "/repo/python_testcases/bitcount_test.py".
Definition driver_text : string := "from .. import bitcount" ++ nl ++ "print(bitcount)" ++ nl.

Definition repo : world :=
  {| files := update program program_text (update driver_test driver_text no_files);
     processes := exits_with 0 |}.

Definition buggy_report : pydict :=
  [("file", VStr "bitcount.py"); ("file_path", VStr program); ("has_bug", VBool true)].

Definition clean_report : pydict :=
  [("file", VStr "bitcount.py"); ("file_path", VStr program); ("has_bug", VBool false)].

(** A fixer whose service always answers [text]. *)
Definition fixer (text : string) : FixBug.BugFixAgent :=
  {| FixBug.client := fun _ => FixBug.Reply text; FixBug.model := "gpt-4.1-mini" |}.

Definition reply_changed : string := js "{'fixed_code': 'x = 1\ny = 3'}".

Definition no_message : string -> string := fun _ => "Expecting value".

(** The test agent of the runner. *)
Definition tester : TestEval.UnitTestEvaluationAgent :=
  {| TestEval.repo_root := "/repo";
     TestEval.tests_dir := "python_testcases";
     TestEval.timeout_seconds := 120;
     TestEval.sys_executable := "/usr/bin/python3" |}.

(** The same repository without any test, and with a test that hangs. *)
Definition repo_without_tests : world :=
  {| files := update program program_text no_files; processes := exits_with 0 |}.

Definition repo_hanging : world :=
  {| files := files repo;
     processes := fun _ => Raise (TimeoutExpired (Some "collecting") None) |}.

(** A repository where nothing is staged, and one with a staged file. *)
Definition publisher : GitPush.GitPushAgent := {| GitPush.repo_root := "/repo" |}.

Definition nothing_staged : world :=
  {| files := files repo; processes := git_with_staged nl |}.

Definition one_staged : world :=
  {| files := files repo;
     processes := git_with_staged ("python_programs/bitcount.py" ++ nl) |}.

Definition body_changed : string := "x = 1" ++ nl ++ "y = 3".
Definition plan_of (body : string) : pyval := VDict [("fixed_code", VStr body)].

End Examples.

(* ===================================================================== *)
(** * Effects of a run *)
(* ===================================================================== *)

Module Effects.
Import PyStr PyVal Exn Sys Observe.

(** The copies and writes of a trace, in the order they happened. *)
Definition mutations (trace : list event) : list event := filter is_mutation trace.

(** The calls of the reasoning service in a trace. *)
Definition service_calls (trace : list event) : list event := filter is_service_call trace.

(** The event starts a subprocess. *)
Definition is_run (e : event) : bool :=
  match e with ERun _ => true | _ => false end.

Definition subprocesses (trace : list event) : list event := filter is_run trace.

(** The values of "status" in the results [fix_bug] builds. *)
Definition fix_statuses : list string :=
  ["error"; "skipped"; "no_fixed_code"; "no_change"; "dry_run"; "write_failed"; "patched"].

(** The three changes [fix_bug] can make to the files, in the order of the
    code: the backup copy, the write of the new body, the rollback copy. *)
Definition fix_mutations (target code : string) : list event :=
  [ECopy target (target ++ ".bak"); EWrite target code; ECopy (target ++ ".bak") target].

(** The event is no copy, no write and no call of the service. *)
Definition quiet (e : event) : Prop := is_mutation e = false /\ is_service_call e = false.

(** Every event of every run of [m] satisfies [P]. *)
Definition traces {W : Type} {os : OS W} {A : Type} (P : event -> Prop) (m : M W A) : Prop :=
  forall w w' t r, m w = (w', t, r) -> Forall P t.

End Effects.

(* ===================================================================== *)
(** * The opening fence inside a run of blanks *)
(* ===================================================================== *)

Module Fences.
Import PyStr Re.

(** Where the opening-fence pattern ends inside a run of blanks: the engine
    takes the whole run for [\s*] and gives characters back until a newline
    follows; what is left of the run is the part behind its last newline.
    [None] when the run has no newline. *)
Fixpoint behind_last_newline (blanks : string) : option string :=
  match blanks with
  | EmptyString => None
  | String c s' =>
      match behind_last_newline s' with
      | Some r => Some r
      | None => if ch LF c then Some s' else None
      end
  end.

End Fences.

(* ===================================================================== *)
(** * Version-control publisher: branches  (git_push_agent.py) *)
(* ===================================================================== *)

Module GitFlow.
Import PyStr PyVal Exn Sys GitPush.
#[local] Open Scope py_scope.

(** [s.split(sep)] for a separator of one character. *)
Fixpoint split_char (sep : ascii) (s : string) : list string :=
  match s with
  | EmptyString => [EmptyString]
  | String c s' =>
      if Ascii.eqb c sep then EmptyString :: split_char sep s'
      else match split_char sep s' with
           | h :: t => String c h :: t
           | [] => [String c EmptyString]
           end
  end.

(** How a step of the git flow ends when it raises nothing the monad knows:
    done, or with the RuntimeError of [_detect_base_branch], which none of
    its callers catches. *)
Inductive flow (A : Type) : Type :=
| Done (a : A)
| NoBaseBranch.
Arguments Done {A} a.
Arguments NoBaseBranch {A}.

Definition symbolic_ref_cmd : list string :=
  ["git"; "symbolic-ref"; "refs/remotes/origin/HEAD"].

Definition rev_parse_cmd (b : string) : list string :=
  ["git"; "rev-parse"; "--verify"; b].

Definition checkout_cmd (b : string) : list string := ["git"; "checkout"; b].

Definition checkout_new_cmd (b : string) : list string := ["git"; "checkout"; "-b"; b].

Definition add_cmd (files : list string) : list string := (["git"; "add"; "--"] ++ files)%list.

Definition push_cmd (b : string) : list string := ["git"; "push"; "-u"; "origin"; b].

Section Agent.
Context {W : Type} {os : OS W}.
Variable self : GitPushAgent.

(** [GitPushAgent._detect_base_branch]: every exception of an attempt is
    swallowed. *)
Definition _detect_base_branch : M W (flow string) :=
  try_except
    (ref <- _run self symbolic_ref_cmd ;;
     ret (Done (last (split_char "/" ref) EmptyString)))
    (fun _ =>
       try_except
         (_run self (rev_parse_cmd "main") ;;; ret (Done "main"))
         (fun _ =>
            try_except
              (_run self (rev_parse_cmd "master") ;;; ret (Done "master"))
              (fun _ => ret NoBaseBranch))).

(** [GitPushAgent.create_branch]; [base_branch] is [None] when the caller
    leaves it out. *)
Definition create_branch (branch_name : string) (base_branch : option string)
    : M W (flow unit) :=
  base <- match base_branch with
          | Some b => ret (Done b)
          | None => _detect_base_branch
          end ;;
  match base with
  | NoBaseBranch => ret NoBaseBranch
  | Done b =>
      _run self (checkout_cmd b) ;;;
      try_except
        (_run self (checkout_new_cmd branch_name) ;;; ret (Done tt))
        (fun e =>
           match e with
           | CalledProcessError _ _ _ _ =>
               _run self (checkout_cmd branch_name) ;;; ret (Done tt)
           | _ => raise e
           end)
  end.

End Agent.

(** The word behind "git" in the command of a subprocess. *)
Definition git_verb (e : event) : option string :=
  match e with
  | ERun pr =>
      match cmd pr with
      | "git" :: verb :: _ => Some verb
      | _ => None
      end
  | _ => None
  end.

(** The event is a git subprocess of the agent whose verb is in [verbs]. *)
Definition git_step (self : GitPushAgent) (verbs : list string) (e : event) : Prop :=
  exists cmd verb,
    e = ERun (Observe.git_process self cmd) /\ git_verb e = Some verb /\ In verb verbs.

(** The event is no [git add], or it is the one that stages [files]. *)
Definition stages_only (self : GitPushAgent) (files : list string) (e : event) : Prop :=
  git_verb e = Some "add" -> e = ERun (Observe.git_process self (add_cmd files)).

End GitFlow.

(* ===================================================================== *)
(** * Supervisor  (Agents/supervisor_agent.py) *)
(* ===================================================================== *)

Module Supervisor.
Import PyStr Recoverer PyVal Exn Sys FixBug.

(** What [review_report] sends to the reasoning service: the model name and
    the values of the report its prompt is filled with. *)
Record review_request : Type := {
  rr_model : string;
  rr_file : pyval;
  rr_file_path : pyval;
  rr_code_excerpt : pyval;
  rr_has_bug : pyval;
  rr_bug_summary : pyval;
  rr_bug_details : pyval
}.

(** [self] of [SupervisorAgent]. *)
Record SupervisorAgent : Type := {
  client : review_request -> reply;
  model : string
}.

Section WithDecoder.

(** [json.loads], and the text of the exception it raises. *)
Variable json_loads : string -> option pyval.
Variable json_error : string -> string.

(** The dict [fallback] after [fallback["notes"].append(...)]. *)
Definition fallback_review (has_bug bug_summary bug_details : pyval) (message : string)
    : pydict :=
  [("confirmed_bug", VBool false);
   ("corrected_has_bug", VBool (truthy has_bug));
   ("corrected_bug_summary", or_else bug_summary (VStr ""));
   ("corrected_bug_details", or_else bug_details (VList []));
   ("notes", VList [VStr "fallback supervisor response (parse failure or API failure)";
                    VStr ("Supervisor error: " ++ message)])].

(** [SupervisorAgent.review_report].  The call of the service is the
    application of [client]; the function has no other effect. *)
Definition review_report (self : SupervisorAgent) (bug_report : pydict) : pyval :=
  let file_name := get bug_report "file" in
  let file_path := get bug_report "file_path" in
  let code_excerpt := get_default bug_report "code_excerpt" (VStr "") in
  let has_bug := get bug_report "has_bug" in
  let bug_summary := get_default bug_report "bug_summary" (VStr "") in
  let bug_details := get_default bug_report "bug_details" (VList []) in
  match client self {| rr_model := model self; rr_file := file_name;
                       rr_file_path := file_path; rr_code_excerpt := code_excerpt;
                       rr_has_bug := has_bug; rr_bug_summary := bug_summary;
                       rr_bug_details := bug_details |} with
  | Failure message => VDict (fallback_review has_bug bug_summary bug_details message)
  | Reply text =>
      let cleaned := _extract_json text in
      match json_loads cleaned with
      | Some review => review
      | None => VDict (fallback_review has_bug bug_summary bug_details (json_error cleaned))
      end
  end.

End WithDecoder.
End Supervisor.

(* ===================================================================== *)
(** * Bug detector  (bug_detection_agent.py) *)
(* ===================================================================== *)

Module Detector.
Import PyStr Recoverer PyVal Exn Pathlib Sys FixBug.
#[local] Open Scope py_scope.

(** What [analyze_file] sends to the reasoning service: the model name, the
    code as the prompt shows it, and the name and path of the file. *)
Record detect_request : Type := {
  dr_model : string;
  dr_code : string;
  dr_file : string;
  dr_file_path : string
}.

(** [self] of [BugDetectionAgent]. *)
Record BugDetectionAgent : Type := {
  client : detect_request -> reply;
  model : string
}.

Definition MAX_CHARS : Z := 8000.

(** [code_for_model] *)
Definition code_for_model (code : string) : string :=
  if len code >? MAX_CHARS
  then slice code 0 MAX_CHARS ++ String LF (String LF ("# [Truncated for analysis]" ++ String LF ""))
  else code.

(** [d.setdefault(k, v)] *)
Definition setdefault (k : string) (v : pyval) (d : pydict) : pydict :=
  match lookup k d with
  | Some _ => d
  | None => (d ++ [(k, v)])%list
  end.

Definition fallback_report (file_path : string) : pydict :=
  [("file", VStr (name file_path));
   ("file_path", VStr file_path);
   ("has_bug", VBool false);
   ("bug_summary", VStr "");
   ("bug_details", VList [])].

(** The six [setdefault] calls that end [analyze_file]. *)
Definition normalize_shape (code file_path : string) (report : pydict) : pydict :=
  setdefault "bug_details" (VList [])
    (setdefault "bug_summary" (VStr "")
       (setdefault "has_bug" (VBool false)
          (setdefault "file_path" (VStr file_path)
             (setdefault "file" (VStr (name file_path))
                (setdefault "code_excerpt" (VStr (slice code 0 1000)) report))))).

Section Agent.
Context {W : Type} {os : OS W}.

(** [json.loads], and the text of the exception it raises. *)
Variable json_loads : string -> option pyval.
Variable json_error : string -> string.

(** [BugDetectionAgent.analyze_file], for a path in the normal form of
    [pathlib].  The call of the service is the application of [client].  A
    decoded reply that is no dict has no [setdefault]. *)
Definition analyze_file (self : BugDetectionAgent) (file_path : string) : M W pydict :=
  code <- do_read_text Ignore file_path ;;
  let report :=
    match client self {| dr_model := model self; dr_code := code_for_model code;
                         dr_file := name file_path; dr_file_path := file_path |} with
    | Failure message =>
        VDict (fallback_report file_path ++
               [("error", VStr ("OpenAI API call failed: " ++ message))])%list
    | Reply text =>
        match json_loads text with
        | Some report => report
        | None =>
            VDict (fallback_report file_path ++
                   [("error", VStr ("Could not parse JSON from model: " ++ json_error text));
                    ("raw_response_text", VStr text)])%list
        end
    end in
  match report with
  | VDict report => ret (normalize_shape code file_path report)
  | _ => raise AttributeError
  end.

End Agent.

(** The value [analyze_file] puts under a key the reply left out. *)
Definition default_for (code file_path k : string) : option pyval :=
  if String.eqb k "code_excerpt" then Some (VStr (slice code 0 1000))
  else if String.eqb k "file" then Some (VStr (name file_path))
  else if String.eqb k "file_path" then Some (VStr file_path)
  else if String.eqb k "has_bug" then Some (VBool false)
  else if String.eqb k "bug_summary" then Some (VStr "")
  else if String.eqb k "bug_details" then Some (VList [])
  else None.

End Detector.

(* ===================================================================== *)
(** * Pipeline orchestrator  (Agents/run_bug_supervision.py, Agents/fix_from_report.py) *)
(* ===================================================================== *)

Module Runner.
Import PyStr Recoverer PyVal Exn Pathlib Sys FixBug Fuser Normalise GitFlow.
#[local] Open Scope py_scope.

(** [p.relative_to(root)] for absolute paths in normal form; [None] when it
    raises ValueError. *)
Definition relative_to (p root : string) : option string :=
  if String.eqb p root then Some "."
  else
    let base := if endswith root "/" then root else root ++ "/" in
    if startswith p base then Some (slice p (len base) (len p)) else None.

(** [ans = input(...).strip().lower(); ans in ("y", "yes")] *)
Definition consent (ans : string) : bool :=
  existsb (String.eqb (lower (strip ans))) ["y"; "yes"].

Fixpoint insert_sorted (x : string) (l : list string) : list string :=
  match l with
  | [] => [x]
  | y :: l' => if String.leb x y then x :: l else y :: insert_sorted x l'
  end.

(** [sorted(set(l))]: the distinct elements in the order of their code
    points. *)
Definition sorted_set (l : list string) : list string :=
  fold_right insert_sorted [] (nodup string_dec l).

(** The order of [sorted] on texts. *)
Definition leb_rel (a b : string) : Prop := String.leb a b = true.

(** The counters and the list [main] keeps over the entries. *)
Record tally : Type := {
  fixes_attempted : Z;
  tests_run : Z;
  tests_passed : Z;
  passed_fixed_files : list string
}.

(** The statuses [main] takes for an applied fix. *)
Definition applied_statuses : list string :=
  ["applied"; "fixed"; "success"; "patched"; "ok"].

(** The dict stored under "unit_test_evaluation". *)
Definition test_record (r : TestEval.UnitTestEvalResult) : pydict :=
  [("passed", VBool (TestEval.passed r));
   ("runner", VStr (TestEval.runner r));
   ("test_file", VStr (TestEval.test_file r));
   ("exit_code", VInt (TestEval.exit_code r));
   ("notes", VStr (TestEval.notes r));
   ("stdout", VStr (TestEval.stdout r));
   ("stderr", VStr (TestEval.stderr r))].

Definition fix_skipped_no_path : pydict :=
  [("status", VStr "skipped"); ("reason", VStr "bug_report file path missing")].

Definition test_skipped_no_path : pydict :=
  [("status", VStr "skipped"); ("reason", VStr "No file path; cannot run unit test")].

Definition fix_skipped_no_bug : pydict :=
  [("status", VStr "skipped");
   ("reason", VStr "User selected N or no bug detected by supervisor/detector")].

Section Main.
Context {W : Type} {os : OS W}.

(** [json.loads] with the text of its exception, and [str] on a value. *)
Variable json_loads : string -> option pyval.
Variable json_error : string -> string.
Variable py_str : pyval -> string.

(** [_to_abs_path], for a path text in normal form. *)
Definition _to_abs_path (scanned_file target_dir : string) : M W string :=
  if startswith scanned_file "/" then ret scanned_file
  else do_resolve (joinpath target_dir scanned_file).

(** The path [_to_abs_path] returns. *)
Definition abs_path (target_dir scanned_file : string) (w : W) : string :=
  if startswith scanned_file "/" then scanned_file
  else resolve (joinpath target_dir scanned_file) w.

(** [_repo_relpath] *)
Definition _repo_relpath (abs_path repo_root : string) : M W string :=
  p <- do_resolve abs_path ;;
  ret (match relative_to p repo_root with
       | Some r => r
       | None => p
       end).

(** The body of the loop of phase 2 in [main], for one ledger entry: the
    entry as the body leaves it, and the counters. *)
Definition process_entry (apply_fixes : bool) (fix_agent : BugFixAgent)
    (test_agent : TestEval.UnitTestEvaluationAgent) (target_dir ROOT_DIR : string)
    (entry : pydict) (t : tally) : M W (pydict * tally) :=
  normalised <- lift (_normalize_bug_report json_loads entry) ;;
  let review := or_else (get entry "supervisor_review") (VDict []) in
  match normalised with
  | VDict bug_report =>
      let scanned_file := or_else (get bug_report "file") (get bug_report "file_path") in
      if negb (truthy scanned_file) then
        ret (setitem "unit_test_evaluation" (VDict test_skipped_no_path)
               (setitem "fix_result" (VDict fix_skipped_no_path) entry), t)
      else
        scanned_file_abs <- _to_abs_path (py_str scanned_file) target_dir ;;
        let do_fix := apply_fixes && bug_exists review bug_report in
        fixed <- (if do_fix then
                    fix_result <- fix_bug json_loads json_error fix_agent
                                    (setitem "file" (VStr scanned_file_abs) bug_report) false ;;
                    ret (fix_result, fixes_attempted t + 1)
                  else ret (fix_skipped_no_bug, fixes_attempted t)) ;;
        let '(fix_result, attempted) := fixed in
        let entry := setitem "fix_result" (VDict fix_result) entry in
        test_res <- TestEval.evaluate test_agent scanned_file_abs ;;
        match or_else (get entry "fix_result") (VDict []) with
        | VDict fr =>
            match or_else (get fr "status") (VStr "") with
            | VStr status =>
                let fix_status := lower status in
                let fix_applied := existsb (String.eqb fix_status) applied_statuses in
                files <- (if fix_applied && TestEval.passed test_res then
                            rel <- _repo_relpath scanned_file_abs ROOT_DIR ;;
                            ret (passed_fixed_files t ++ [rel])%list
                          else ret (passed_fixed_files t)) ;;
                ret (setitem "unit_test_evaluation" (VDict (test_record test_res)) entry,
                     {| fixes_attempted := attempted;
                        tests_run := tests_run t + 1;
                        tests_passed := if TestEval.passed test_res
                                        then tests_passed t + 1 else tests_passed t;
                        passed_fixed_files := files |})
            | _ => raise AttributeError
            end
        | _ => raise AttributeError
        end
  | _ => raise AttributeError
  end.

(** The git flow that ends [main], for the files collected, the answer to
    its prompt and the scanned directory. *)
Definition publish (git_agent : GitPush.GitPushAgent) (target_dir : string)
    (passed_fixed_files : list string) (git_ans : string) : M W (flow unit) :=
  let fixed_files := sorted_set passed_fixed_files in
  match fixed_files with
  | [] => ret (Done tt)
  | _ =>
      let do_push := consent git_ans in
      let branch_name := "masque/auto-fix-" ++ name target_dir in
      created <- create_branch git_agent branch_name None ;;
      match created with
      | NoBaseBranch => ret NoBaseBranch
      | Done _ =>
          GitPush.stage_files git_agent fixed_files ;;;
          if do_push then
            GitPush.commit git_agent "MASQUE: automated fix (tests passed)" ;;;
            GitPush.push git_agent branch_name ;;;
            ret (Done tt)
          else ret (Done tt)
      end
  end.

(** The body of the loop of [main] in fix_from_report.py, for one entry:
    the entry as the body leaves it, and the counter [updated]. *)
Definition fix_entry (fix_agent : BugFixAgent) (entry : pydict) (updated : Z)
    : M W (pydict * Z) :=
  normalised <- lift (normalize_bug_report json_loads entry) ;;
  if negb (truthy normalised) then
    ret (setitem "fix_result"
           (VDict [("status", VStr "skipped");
                   ("reason", VStr "Invalid bug_report structure")]) entry,
         updated)
  else
    match normalised with
    | VDict bug_report =>
        match get bug_report "has_bug" with
        | VBool true =>
            fix_result <- fix_bug json_loads json_error fix_agent bug_report false ;;
            ret (setitem "fix_result" (VDict fix_result) entry, updated + 1)
        | _ =>
            ret (setitem "fix_result"
                   (VDict [("status", VStr "skipped");
                           ("reason", VStr "has_bug is not true")]) entry,
                 updated)
        end
    | _ => raise AttributeError
    end.

End Main.
End Runner.

(* ===================================================================== *)
(** * More concrete inputs: the fix applicator *)
(* ===================================================================== *)

Module Samples.
Import PyStr PyVal PyJson Exn Sys MemFS Aux Examples.

(** A fixer whose service cannot be reached. *)
Definition fixer_offline : FixBug.BugFixAgent :=
  {| FixBug.client := fun _ => FixBug.Failure "Connection error.";
     FixBug.model := "gpt-4.1-mini" |}.

(** Replies that are no plan: prose, and a JSON array. *)
Definition reply_prose : string := "I could not find a bug in this file.".
Definition reply_array : string := js "['fixed_code', 'x = 1']".

End Samples.

Module FenceSamples.
Import PyStr PyVal PyJson Aux Examples.

(** A plan whose body is a fence with nothing in it. *)
Definition reply_fenced_blank : string := js "{'fixed_code': '```python\n\n```'}".

Definition body_fenced_blank : string := "```python" ++ nl ++ nl ++ "```".

(** A reply with prose on both sides of the object, and one that wraps the
    object in an array. *)
Definition reply_with_prose : string :=
  "Here is the report: " ++ payload ++ " I hope this helps.".

Definition reply_wrapped : string := "[" ++ payload ++ "]".

End FenceSamples.

(* ===================================================================== *)
(** * More concrete inputs: git *)
(* ===================================================================== *)

Module GitSamples.
Import PyStr PyVal Exn Sys MemFS Aux Examples.

(** Subprocesses answered by a table of commands with their exit code and
    output; a command that is not in the table exits with 0 and prints
    nothing. *)
Definition answers (table : list (list string * (Z * string))) : process -> outcome completed :=
  fun pr =>
    match List.find (fun row => if list_eq_dec string_dec (fst row) (cmd pr) then true else false)
                    table with
    | Some row => Return {| returncode := fst (snd row); stdout := snd (snd row);
                            stderr := "" |}
    | None => Return {| returncode := 0; stdout := ""; stderr := "" |}
    end.

Definition git_world (table : list (list string * (Z * string))) : world :=
  {| files := files repo; processes := answers table |}.

(** A clone whose default branch is feature/x. *)
Definition clone_feature : world :=
  git_world [(["git"; "symbolic-ref"; "refs/remotes/origin/HEAD"],
              (0, "refs/remotes/origin/feature/x" ++ nl))].

(** A clone without origin/HEAD and without a branch main or master. *)
Definition clone_bare : world :=
  git_world [(["git"; "symbolic-ref"; "refs/remotes/origin/HEAD"], (128, ""));
             (["git"; "rev-parse"; "--verify"; "main"], (128, ""));
             (["git"; "rev-parse"; "--verify"; "master"], (128, ""))].

(** A clone where the branch to create is already there. *)
Definition clone_with_branch (branch : string) : world :=
  git_world [(["git"; "checkout"; "-b"; branch], (128, ""))].

End GitSamples.

(* ===================================================================== *)
(** * More concrete inputs: supervisor and detector *)
(* ===================================================================== *)

Module ReviewSamples.
Import PyStr PyVal PyJson Exn Sys MemFS Aux Examples.


Definition supervisor (text : string) : Supervisor.SupervisorAgent :=
  {| Supervisor.client := fun _ => FixBug.Reply text; Supervisor.model := "gpt-4.1" |}.


(** A detector that answers with [text]. *)
Definition detector (text : string) : Detector.BugDetectionAgent :=
  {| Detector.client := fun _ => FixBug.Reply text; Detector.model := "gpt-4.1-mini" |}.

(** A reply with the report inside a fence, and one that is a JSON array. *)
Definition reply_fenced_report : string :=
  "```json" ++ nl ++ js "{'file': 'bitcount.py', 'has_bug': true}" ++ nl ++ "```".

Definition reply_list : string := js "[{'has_bug': true}]".

Definition reply_flat_list : string := js "['confirmed_bug', true]".

Definition reply_partial : string := js "{'has_bug': null, 'bug_summary': 'off by one'}".

(** [n] times the character [c], and [tail] behind them. *)
Fixpoint fill (n : nat) (c : ascii) (tail : string) : string :=
  match n with
  | O => tail
  | S n' => String c (fill n' c tail)
  end.

(** A detector whose service answers with the code it was shown, and two
    files that differ behind their first 8000 characters. *)
Definition detector_echo : Detector.BugDetectionAgent :=
  {| Detector.client := fun req => FixBug.Reply (Detector.dr_code req);
     Detector.model := "gpt-4.1-mini" |}.

Definition long_repo (tail : string) : world :=
  {| files := update program (fill (20 * 20 * 20) "a" tail) no_files;
     processes := exits_with 0 |}.

End ReviewSamples.

(* ===================================================================== *)
(** * More concrete inputs: the runner *)
(* ===================================================================== *)

Module RunnerSamples.
Import PyVal.

(** [str] on the values that are texts; the examples use no other. *)
Definition text_of (v : pyval) : string :=
  match v with
  | VStr s => s
  | _ => EmptyString
  end.

End RunnerSamples.

Module LedgerSamples.
Import PyStr PyVal PyJson Exn Sys MemFS Aux Examples GitSamples Runner.

(** Ledger entries as phase 1 leaves them: the detector sees a bug; the
    detector sees none and the reviewer confirms one; the report is missing;
    has_bug is the text "true". *)
Definition entry_buggy : pydict :=
  [("bug_report", VDict buggy_report); ("supervisor_review", VDict []);
   ("fix_result", VNone); ("unit_test_evaluation", VNone)].

Definition entry_disputed : pydict :=
  [("bug_report", VDict clean_report);
   ("supervisor_review", VDict [("confirmed_bug", VBool true)]);
   ("fix_result", VNone); ("unit_test_evaluation", VNone)].

Definition entry_empty : pydict :=
  [("bug_report", VNone); ("supervisor_review", VNone);
   ("fix_result", VNone); ("unit_test_evaluation", VNone)].

Definition entry_textual : pydict :=
  [("bug_report",
    VDict [("file", VStr "bitcount.py"); ("file_path", VStr program);
           ("has_bug", VStr "true")])].

Definition start : tally :=
  {| fixes_attempted := 0; tests_run := 0; tests_passed := 0; passed_fixed_files := [] |}.

(** A clone whose default branch is main. *)
Definition clone_main : world :=
  git_world [(["git"; "symbolic-ref"; "refs/remotes/origin/HEAD"],
              (0, "refs/remotes/origin/main" ++ nl))].

End LedgerSamples.

(* ===================================================================== *)
(** * A file system with directories, and more files for the applicator *)
(* ===================================================================== *)

Module TreeFS.
Import PyStr PyVal Exn Sys MemFS.

(** What a path names: a regular file, a regular file whose mode grants no
    permission, or a directory. *)
Inductive node : Type :=
| File (bytes : string)
| Sealed (bytes : string)
| Directory.

Record tree : Type := {
  nodes : string -> option node
}.

Definition plant (p : string) (n : node) (ns : string -> option node)
    : string -> option node :=
  fun q => if String.eqb q p then Some n else ns q.

(** Reading a file without permission raises PermissionError, reading a
    directory IsADirectoryError; both are [OSError]s. *)
Definition tree_read_text (p : string) (w : tree) : outcome string :=
  match nodes w p with
  | Some (File bytes) => Return (universal_newlines bytes)
  | Some (Sealed _) => Raise (OSError "Permission denied")
  | Some Directory => Raise (OSError "Is a directory")
  | None => Raise (OSError "No such file or directory")
  end.

Definition tree_copyfile (src dst : string) (w : tree) : tree * outcome unit :=
  match nodes w src with
  | None => (w, Raise (OSError "No such file or directory"))
  | Some Directory => (w, Raise (OSError "Is a directory"))
  | Some (Sealed _) => (w, Raise (OSError "Permission denied"))
  | Some (File bytes) =>
      if String.eqb src dst then (w, Raise (OSError "are the same file"))
      else
        match nodes w dst with
        | Some Directory => (w, Raise (OSError "Is a directory"))
        | Some (Sealed _) => (w, Raise (OSError "Permission denied"))
        | _ => ({| nodes := plant dst (File bytes) (nodes w) |}, Return tt)
        end
  end.

Definition tree_write_text (p text : string) (w : tree) : tree * outcome unit :=
  match nodes w p with
  | Some Directory => (w, Raise (OSError "Is a directory"))
  | Some (Sealed _) => (w, Raise (OSError "Permission denied"))
  | _ => ({| nodes := plant p (File text) (nodes w) |}, Return tt)
  end.

(** [Path.exists] holds of files and of directories alike. *)
Definition tree_os : OS tree := {|
  path_exists p w := match nodes w p with Some _ => true | None => false end;
  resolve p w := p;
  read_text _ p w := tree_read_text p w;
  copyfile := tree_copyfile;
  write_text := tree_write_text;
  subprocess_run pr w := (w, Return {| returncode := 0; stdout := ""; stderr := "" |});
  file_bytes p w :=
    match nodes w p with
    | Some (File bytes) | Some (Sealed bytes) => Some bytes
    | _ => None
    end
|}.

End TreeFS.

Module ApplicatorSamples.
Import PyStr PyVal PyJson Exn Sys MemFS Aux Examples TreeFS.

(** The directory of the programs, and a report that names it as its file. *)
Definition folder : string := "/repo/python_programs".

Definition repo_tree : tree :=
  {| nodes := plant folder Directory (plant program (File program_text) (fun _ => None)) |}.

Definition folder_report : pydict :=
  [("file", VStr "python_programs"); ("file_path", VStr folder); ("has_bug", VBool false)].

(** The same repository with the program sealed: it exists, and no one may
    read it. *)
Definition repo_sealed : tree :=
  {| nodes := plant folder Directory (plant program (Sealed program_text) (fun _ => None)) |}.





End ApplicatorSamples.

Module Blanks.
Import PyStr Aux.

(** A text without blanks at its end, as [s.strip()] returns it. *)
Definition trimmed (t : string) : Prop :=
  forall a c w, t = a ++ String c w -> all_chars isspace (String c w) = false.

End Blanks.

(* ********************************************************************* *)
(** * Properties *)
(* ********************************************************************* *)

(* ===================================================================== *)
(** * Facts about strings *)
(* ===================================================================== *)

Module StrFacts.
Import PyStr Aux.

Lemma append_assoc (a b c : string) : (a ++ b) ++ c = a ++ b ++ c.
Proof. induction a as [|x a IH]; simpl; [reflexivity | now rewrite IH]. Qed.

Lemma append_nil_r (a : string) : a ++ "" = a.
Proof. induction a as [|x a IH]; simpl; [reflexivity | now rewrite IH]. Qed.

Lemma length_append (a b : string) :
  String.length (a ++ b) = (String.length a + String.length b)%nat.
Proof. induction a as [|x a IH]; simpl; [reflexivity | now rewrite IH]. Qed.

Lemma has_char_app c a b : has_char c (a ++ b) = has_char c a || has_char c b.
Proof.
  induction a as [|x a IH]; simpl; [reflexivity|].
  rewrite IH. now rewrite orb_assoc.
Qed.

Lemma all_chars_app p a b : all_chars p (a ++ b) = all_chars p a && all_chars p b.
Proof.
  induction a as [|x a IH]; simpl; [reflexivity|].
  rewrite IH. now rewrite andb_assoc.
Qed.

(** A string whose characters all satisfy [p] does not contain a character
    that fails [p]. *)
Lemma all_chars_no_char p c s :
  p c = false -> all_chars p s = true -> has_char c s = false.
Proof.
  intros Hc. induction s as [|a s IH]; simpl; [reflexivity|].
  intros H. apply andb_true_iff in H as [Ha Hs].
  rewrite (IH Hs), orb_false_r.
  destruct (Ascii.eqb_spec c a) as [->|]; [congruence | reflexivity].
Qed.

Lemma prefix_single c s :
  prefix (String c "") s = match s with String a _ => Ascii.eqb c a | EmptyString => false end.
Proof.
  destruct s as [|a s]; simpl; [reflexivity|].
  destruct (ascii_dec c a) as [->|Hne].
  - rewrite Ascii.eqb_refl. now destruct s.
  - symmetry. now apply Ascii.eqb_neq.
Qed.

Lemma contains_single c s : contains (String c "") s = has_char c s.
Proof.
  induction s as [|a s IH].
  - reflexivity.
  - cbn [contains has_char]. now rewrite prefix_single, IH.
Qed.

Lemma find_from_absent c s i :
  has_char c s = false -> find_from (String c "") s i = -1.
Proof.
  revert i. induction s as [|a s IH]; intros i H.
  - reflexivity.
  - cbn [has_char] in H. apply orb_false_iff in H as [Ha Hs].
    cbn [find_from]. rewrite prefix_single, Ha. now apply IH.
Qed.

Lemma find_from_first c pre rest i :
  has_char c pre = false ->
  find_from (String c "") (pre ++ String c rest) i = i + Z.of_nat (String.length pre).
Proof.
  revert i. induction pre as [|a pre IH]; intros i H.
  - cbn [append find_from]. rewrite prefix_single, Ascii.eqb_refl. simpl. lia.
  - cbn [has_char] in H. apply orb_false_iff in H as [Ha Hs].
    cbn [append find_from]. rewrite prefix_single, Ha, (IH _ Hs).
    cbn [String.length]. lia.
Qed.

Lemma rfind_from_absent c s i :
  has_char c s = false -> rfind_from (String c "") s i = -1.
Proof.
  revert i. induction s as [|a s IH]; intros i H.
  - reflexivity.
  - cbn [has_char] in H. apply orb_false_iff in H as [Ha Hs].
    cbn [rfind_from]. rewrite (IH _ Hs), prefix_single, Ha. reflexivity.
Qed.

Lemma rfind_from_last c x post i :
  0 <= i -> has_char c post = false ->
  rfind_from (String c "") (x ++ String c post) i = i + Z.of_nat (String.length x).
Proof.
  revert i. induction x as [|a x IH]; intros i Hi H.
  - cbn [append rfind_from]. rewrite (rfind_from_absent _ _ _ H), prefix_single, Ascii.eqb_refl.
    simpl. lia.
  - cbn [append rfind_from]. rewrite IH by (lia || assumption).
    destruct (Z.ltb_spec (i + 1 + Z.of_nat (String.length x)) 0); [lia|].
    cbn [String.length]. lia.
Qed.

Lemma substring_middle pre core post :
  substring (String.length pre) (String.length core) (pre ++ core ++ post) = core.
Proof.
  induction pre as [|a pre IH]; simpl.
  - induction core as [|b core IHc]; simpl.
    + now destruct post.
    + now rewrite IHc.
  - exact IH.
Qed.

Lemma slice_middle pre core post :
  slice (pre ++ core ++ post)
        (Z.of_nat (String.length pre))
        (Z.of_nat (String.length pre) + Z.of_nat (String.length core)) = core.
Proof.
  unfold slice, slice_bound. rewrite !length_append.
  set (a := String.length pre). set (b := String.length core). set (d := String.length post).
  destruct (Z.ltb_spec (Z.of_nat a) 0); [lia|].
  destruct (Z.ltb_spec (Z.of_nat a + Z.of_nat b) 0); [lia|].
  replace (Z.to_nat (Z.min (Z.of_nat a) (Z.of_nat (a + (b + d))))) with a by lia.
  replace (Z.to_nat (Z.min (Z.of_nat a + Z.of_nat b) (Z.of_nat (a + (b + d)))
                     - Z.min (Z.of_nat a) (Z.of_nat (a + (b + d))))) with b by lia.
  apply substring_middle.
Qed.

(** Cutting a prefix without [c] off a text keeps the first [c] and what
    follows it. *)
Lemma cut_prefix c m r pre rest :
  (m ++ r = pre ++ String c rest) -> has_char c m = false ->
  exists pre', pre = m ++ pre' /\ r = pre' ++ String c rest.
Proof.
  revert pre. induction m as [|a m IH]; intros pre E H.
  - exists pre. split; [reflexivity | exact E].
  - cbn [has_char] in H. apply orb_false_iff in H as [Ha Hm].
    destruct pre as [|b pre].
    + simpl in E. injection E as E1 E2. subst a. now rewrite Ascii.eqb_refl in Ha.
    + simpl in E. injection E as E1 E2. subst b.
      destruct (IH pre E2 Hm) as (pre' & -> & ->).
      exists pre'. split; reflexivity.
Qed.

End StrFacts.

(* ===================================================================== *)
(** * Facts about the pattern matcher *)
(* ===================================================================== *)

Module ReFacts.
Import PyStr Re Aux StrFacts.

Lemma drop_app (m r : string) : drop (String.length m) (m ++ r) = r.
Proof. induction m as [|a m IH]; simpl; [now destruct r | exact IH]. Qed.

Lemma drop_zero s : drop 0 s = s.
Proof. now destruct s. Qed.

Section Consumed.
Variable P : ascii -> bool.

Lemma splits_refl s : splits P s s.
Proof. exists ""%string. now split. Qed.

Lemma splits_step c s r : P c = true -> splits P s r -> splits P (String c s) r.
Proof.
  intros Hc (m & -> & Hm). exists (String c m). split; [reflexivity|].
  simpl. now rewrite Hc, Hm.
Qed.

Lemma greedy_splits p k :
  (forall c, p c = true -> P c = true) ->
  (forall prev s r, k prev s = Some r -> splits P s r) ->
  forall s prev r, greedy p k prev s = Some r -> splits P s r.
Proof.
  intros Hp Hk. induction s as [|c s IH]; intros prev r; cbn [greedy].
  - apply Hk.
  - destruct (p c) eqn:Hc; [|apply Hk].
    destruct (greedy p k (Some c) s) as [r'|] eqn:Hg.
    + intros [= <-]. apply splits_step; [now apply Hp | now apply (IH (Some c))].
    + apply Hk.
Qed.

Lemma match_here_splits ml re :
  consumes_only P re ->
  forall prev s r, match_here ml re prev s = Some r -> splits P s r.
Proof.
  induction 1 as [|it re Hit Hre IH]; intros prev s r; cbn [match_here].
  - intros [= <-]. apply splits_refl.
  - destruct it as [ | |p|p|p|p].
    + destruct (at_bol ml prev); [apply IH | discriminate].
    + destruct (at_eol ml s); [apply IH | discriminate].
    + destruct s as [|c s]; [discriminate|].
      destruct (p c) eqn:Hc; [|discriminate].
      intros Hm. apply splits_step; [now apply Hit | now apply IH in Hm].
    + destruct s as [|c s]; [apply IH|].
      destruct (p c) eqn:Hc; [|apply IH].
      destruct (match_here ml re (Some c) s) as [r'|] eqn:Hm.
      * intros [= <-]. apply splits_step; [now apply Hit | now apply IH in Hm].
      * apply IH.
    + apply greedy_splits; assumption.
    + destruct s as [|c s]; [discriminate|].
      destruct (p c) eqn:Hc; [|discriminate].
      intros Hg. apply splits_step; [now apply Hit|].
      revert Hg. apply greedy_splits; assumption.
Qed.

End Consumed.

(** Behind the start of the text, a pattern anchored with [^] (without
    MULTILINE) matches nowhere: the scan only finishes the pending skip. *)
Lemma sub_from_bol_inside re : forall s n c,
  sub_from false (Bol :: re) n (Some c) s = drop n s.
Proof.
  induction s as [|a s IH]; intros n c.
  - now destruct n.
  - cbn [sub_from]. destruct n as [|n].
    + cbn [match_here at_bol andb]. rewrite IH. now rewrite drop_zero.
    + now rewrite IH.
Qed.

Lemma sub_empty_bol re t :
  sub_empty false (Bol :: re) t =
  match match_here false (Bol :: re) None t with
  | Some r => drop (String.length t - String.length r) t
  | None => t
  end.
Proof.
  unfold sub_empty. destruct t as [|a t].
  - cbn [sub_from]. now destruct (match_here false (Bol :: re) None "").
  - cbn [sub_from].
    destruct (match_here false (Bol :: re) None (String a t)) as [r|].
    + destruct (String.length (String a t) - String.length r)%nat as [|n].
      * now rewrite sub_from_bol_inside, drop_zero.
      * now rewrite sub_from_bol_inside.
    + now rewrite sub_from_bol_inside, drop_zero.
Qed.

(** The result of removing an anchored match is the text behind a prefix
    made of characters of the pattern's classes. *)
Lemma sub_empty_bol_splits P re t :
  consumes_only P (Bol :: re) -> splits P t (sub_empty false (Bol :: re) t).
Proof.
  intros Hre. rewrite sub_empty_bol.
  destruct (match_here false (Bol :: re) None t) as [r|] eqn:Hm.
  - destruct (match_here_splits P false _ Hre _ _ _ Hm) as (m & -> & HP).
    rewrite length_append.
    replace (String.length m + String.length r - String.length r)%nat
      with (String.length m) by lia.
    rewrite drop_app. now exists m.
  - apply splits_refl.
Qed.

(** A substitution never brings in a character. *)
Lemma sub_from_no_new_char c ml re : forall s n prev,
  has_char c s = false -> has_char c (sub_from ml re n prev s) = false.
Proof.
  induction s as [|a s IH]; intros n prev H; [reflexivity|].
  cbn [has_char] in H. apply orb_false_iff in H as [Ha Hs].
  cbn [sub_from]. destruct n as [|n]; [|now apply IH].
  destruct (match_here ml re prev (String a s)) as [r|].
  - destruct (String.length (String a s) - String.length r)%nat.
    + cbn [has_char]. now rewrite Ha, IH.
    + now apply IH.
  - cbn [has_char]. now rewrite Ha, IH.
Qed.

End ReFacts.

(* ===================================================================== *)
(** * Facts about the recoverer *)
(* ===================================================================== *)

Module RecovererFacts.
Import PyStr Re Recoverer Aux StrFacts ReFacts.

Lemma lstrip_splits t : splits isspace t (lstrip t).
Proof.
  induction t as [|a t IH]; cbn [lstrip].
  - apply splits_refl.
  - destruct (isspace a) eqn:Ha; [now apply splits_step | apply splits_refl].
Qed.

(** [rstrip] removes a suffix of blanks. *)
Lemma rstrip_suffix t : exists w, t = rstrip t ++ w /\ all_chars isspace w = true.
Proof.
  induction t as [|a t (w & E & Hw)]; cbn [rstrip].
  - exists ""%string. now split.
  - destruct (rstrip t) as [|b r] eqn:Hr.
    + simpl in E. subst t. destruct (isspace a) eqn:Ha.
      * exists (String a w). split; [reflexivity|]. simpl. now rewrite Ha.
      * exists w. now split.
    + exists w. split; [|exact Hw]. simpl. now rewrite E at 1.
Qed.

(** Cutting a suffix without [c] off a text keeps the last [c] and what
    precedes it. *)
Lemma cut_suffix c m : forall r x post,
  r ++ m = x ++ String c post -> has_char c m = false ->
  exists post', post = post' ++ m /\ r = x ++ String c post'.
Proof.
  induction r as [|a r IH]; intros x post E Hm.
  - simpl in E. subst m. rewrite has_char_app in Hm. simpl in Hm.
    rewrite Ascii.eqb_refl in Hm. simpl in Hm. rewrite orb_true_r in Hm. discriminate.
  - destruct x as [|b x]; simpl in E; injection E as E1 E2.
    + subst a. exists r. split; [now symmetry | reflexivity].
    + subst b. destruct (IH x post E2 Hm) as (post' & -> & ->).
      exists post'. split; reflexivity.
Qed.

Lemma isspace_not_brace c : isspace c = true -> not_brace c = true.
Proof.
  intros H. unfold not_brace.
  destruct (Ascii.eqb_spec "{" c) as [<-|]; [discriminate H|].
  destruct (Ascii.eqb_spec "}" c) as [<-|]; [discriminate H|]. reflexivity.
Qed.

Lemma is_alpha_not_brace c : is_alpha c = true -> not_brace c = true.
Proof.
  intros H. unfold not_brace.
  destruct (Ascii.eqb_spec "{" c) as [<-|]; [discriminate H|].
  destruct (Ascii.eqb_spec "}" c) as [<-|]; [discriminate H|]. reflexivity.
Qed.

Lemma ch_not_brace a c :
  not_brace a = true -> ch a c = true -> not_brace c = true.
Proof. unfold ch. intros Ha H. apply Ascii.eqb_eq in H. now subst. Qed.

Lemma not_brace_open s : all_chars not_brace s = true -> has_char "{" s = false.
Proof. apply all_chars_no_char. reflexivity. Qed.

Lemma not_brace_close s : all_chars not_brace s = true -> has_char "}" s = false.
Proof. apply all_chars_no_char. reflexivity. Qed.

Lemma all_chars_weaken (p q : ascii -> bool) s :
  (forall c, p c = true -> q c = true) -> all_chars p s = true -> all_chars q s = true.
Proof.
  intros Hpq. induction s as [|a s IH]; simpl; [reflexivity|].
  intros H. apply andb_true_iff in H as [Ha Hs]. now rewrite (Hpq _ Ha), IH.
Qed.

Lemma fence_open_consumes : consumes_only not_brace fence_open.
Proof.
  unfold fence_open.
  repeat constructor;
    first [ apply isspace_not_brace | apply is_alpha_not_brace
          | (intros c; apply ch_not_brace; reflexivity) ].
Qed.

(** A text with a closing brace in it is no match of the closing fence. *)
Lemma fence_close_no_match prev s :
  has_char "}" s = true -> match_here false fence_close prev s = None.
Proof.
  intros H. unfold fence_close. cbn [match_here].
  destruct s as [|a1 s]; [reflexivity|].
  destruct (ch LF a1) eqn:E1; [|reflexivity].
  destruct s as [|a2 s]; [reflexivity|].
  destruct (ch backtick a2) eqn:E2; [|reflexivity].
  destruct s as [|a3 s]; [reflexivity|].
  destruct (ch backtick a3) eqn:E3; [|reflexivity].
  destruct s as [|a4 s]; [reflexivity|].
  destruct (ch backtick a4) eqn:E4; [|reflexivity].
  destruct (at_eol false s) eqn:E5; [|reflexivity].
  exfalso. unfold ch in *.
  apply Ascii.eqb_eq in E1, E2, E3, E4. subst.
  destruct s as [|a5 s]; [discriminate H|].
  simpl in E5. apply andb_true_iff in E5 as [E5 E6].
  apply Ascii.eqb_eq in E5. subst a5.
  destruct s; [discriminate H | discriminate E6].
Qed.

Lemma sub_from_close_keeps post : forall x prev,
  sub_from false fence_close 0 prev (x ++ String "}" post) =
  x ++ String "}" (sub_from false fence_close 0 (Some "}"%char) post).
Proof.
  induction x as [|a x IH]; intros prev.
  - cbn [append sub_from]. rewrite fence_close_no_match.
    + reflexivity.
    + simpl. reflexivity.
  - cbn [append sub_from]. rewrite fence_close_no_match.
    + now rewrite IH.
    + cbn [has_char]. rewrite has_char_app. simpl.
      now rewrite !orb_true_r.
Qed.

Lemma object_text_app mid post :
  object_text mid ++ post = String "{" (mid ++ String "}" post).
Proof. unfold object_text. cbn [append]. now rewrite append_assoc. Qed.

(** The same shape, with the text written out. *)
Lemma sandwich_spelled mid t :
  sandwich mid t <->
  exists pre post,
    t = pre ++ String "{" (mid ++ String "}" post) /\
    has_char "{" pre = false /\ has_char "}" post = false.
Proof.
  split; intros (pre & post & E & H); exists pre, post; (split; [|exact H]).
  - now rewrite <- object_text_app.
  - now rewrite object_text_app.
Qed.

(** [strip] keeps the shape. *)
Lemma strip_sandwich mid t : sandwich mid t -> sandwich mid (strip t).
Proof.
  rewrite !sandwich_spelled.
  intros (pre & post & -> & Hpre & Hpost). unfold strip.
  destruct (lstrip_splits (pre ++ String "{" (mid ++ String "}" post))) as (w & E & Hw).
  symmetry in E.
  apply cut_prefix in E as (pre' & E1 & E2).
  2:{ apply not_brace_open. revert Hw. apply all_chars_weaken, isspace_not_brace. }
  rewrite E2.
  assert (Eq : pre' ++ String "{" (mid ++ String "}" post)
               = (pre' ++ String "{" mid) ++ String "}" post)
    by (now rewrite append_assoc).
  rewrite Eq.
  destruct (rstrip_suffix ((pre' ++ String "{" mid) ++ String "}" post)) as (v & E & Hv).
  assert (Hv' : has_char "}" v = false).
  { apply not_brace_close. revert Hv. apply all_chars_weaken, isspace_not_brace. }
  symmetry in E.
  apply cut_suffix in E as (post' & E3 & E4); [|exact Hv'].
  exists pre', post'. split; [|split].
  - rewrite E4. now rewrite append_assoc.
  - subst pre. rewrite has_char_app in Hpre. now apply orb_false_iff in Hpre.
  - subst post. rewrite has_char_app in Hpost. now apply orb_false_iff in Hpost.
Qed.

Lemma sub_open_sandwich mid t :
  sandwich mid t -> sandwich mid (sub_empty false fence_open t).
Proof.
  rewrite !sandwich_spelled.
  intros (pre & post & -> & Hpre & Hpost).
  destruct (sub_empty_bol_splits not_brace _ (pre ++ String "{" (mid ++ String "}" post))
              fence_open_consumes) as (m & E & Hm).
  fold fence_open in E.
  set (res := sub_empty false fence_open _) in *. clearbody res.
  symmetry in E.
  apply cut_prefix in E as (pre' & E1 & E2); [|now apply not_brace_open].
  exists pre', post. split; [exact E2|]. split; [|exact Hpost].
  subst pre. rewrite has_char_app in Hpre. now apply orb_false_iff in Hpre.
Qed.

Lemma sub_close_sandwich mid t :
  sandwich mid t -> sandwich mid (sub_empty false fence_close t).
Proof.
  rewrite !sandwich_spelled.
  intros (pre & post & -> & Hpre & Hpost). unfold sub_empty.
  change (pre ++ String "{" (mid ++ String "}" post))
    with (pre ++ (String "{" mid) ++ String "}" post).
  rewrite <- append_assoc. rewrite sub_from_close_keeps.
  exists pre, (sub_from false fence_close 0 (Some "}"%char) post).
  split; [|split].
  - now rewrite append_assoc.
  - exact Hpre.
  - now apply sub_from_no_new_char.
Qed.

Lemma unfence_sandwich mid t : sandwich mid t -> sandwich mid (unfence t).
Proof.
  intros H. unfold unfence. destruct (startswith t "```"); [|exact H].
  now apply strip_sandwich, sub_close_sandwich, sub_open_sandwich.
Qed.

(** On such a text the slice from the first opening to the last closing
    brace is the object text. *)
Lemma brace_slice_sandwich mid t :
  sandwich mid t -> brace_slice t = Some (object_text mid).
Proof.
  intros (pre & post & -> & Hpre & Hpost). unfold brace_slice, find, rfind.
  assert (Hf : find_from "{" (pre ++ object_text mid ++ post) 0
               = Z.of_nat (String.length pre)).
  { rewrite object_text_app. now rewrite find_from_first. }
  assert (Hr : rfind_from "}" (pre ++ object_text mid ++ post) 0
               = Z.of_nat (String.length pre) + Z.of_nat (String.length mid) + 1).
  { rewrite object_text_app.
    change (pre ++ String "{" (mid ++ String "}" post))
      with (pre ++ (String "{" mid) ++ String "}" post).
    rewrite <- append_assoc. rewrite rfind_from_last by (lia || assumption).
    rewrite length_append. cbn [String.length]. lia. }
  rewrite Hf, Hr.
  destruct (Z.eqb_spec (Z.of_nat (String.length pre)) (-1)); [lia|].
  destruct (Z.eqb_spec (Z.of_nat (String.length pre) + Z.of_nat (String.length mid) + 1) (-1)); [lia|].
  destruct (Z.gtb_spec (Z.of_nat (String.length pre) + Z.of_nat (String.length mid) + 1)
                       (Z.of_nat (String.length pre))); [|lia].
  cbn [negb andb]. f_equal.
  replace (Z.of_nat (String.length pre) + Z.of_nat (String.length mid) + 1 + 1)
    with (Z.of_nat (String.length pre) + Z.of_nat (String.length (object_text mid))).
  - apply slice_middle.
  - unfold object_text. cbn [String.length]. rewrite length_append. simpl. lia.
Qed.

(** The candidate cut out of a text of that shape is the object text,
    whatever fences and prose surround it. *)
Lemma candidate_sandwich mid t :
  sandwich mid t -> brace_slice (unfence (strip t)) = Some (object_text mid).
Proof. intros H. now apply brace_slice_sandwich, unfence_sandwich, strip_sandwich. Qed.

End RecovererFacts.

(* ===================================================================== *)
(** * Decision fuser: the verdict is the OR of the three signals *)
(* ===================================================================== *)

Module FuserFacts.
Import PyStr PyVal Fuser.

Lemma fuse_true_iff d c h :
  fuse d c h = true <-> _as_bool d = true \/ _as_bool c = true \/ _as_bool h = true.
Proof. unfold fuse. rewrite !orb_true_iff. tauto. Qed.

(** C3.  For a review and a bug report that are dicts, the verdict
    [bug_exists] computed by the runner is the OR of the detector's [has_bug],
    the reviewer's [confirmed_bug] and the reviewer's [corrected_has_bug],
    each read with default [False] and normalised by the same [_as_bool]:
    a bool is itself, a number is true when it is not zero, a text is true
    when, stripped and lower-cased, it is one of true, 1, yes, y.  Three
    false inputs give false, and a single true input gives true whatever the
    other two are. *)
Theorem C3_fusion_is_or (review bug_report : pydict) :
  bug_exists (VDict review) bug_report =
    fuse (get_default bug_report "has_bug" (VBool false))
         (get_default review "confirmed_bug" (VBool false))
         (get_default review "corrected_has_bug" (VBool false))
  /\ fuse (VBool false) (VBool false) (VBool false) = false
  /\ (forall x y, fuse (VBool true) x y = true
                  /\ fuse x (VBool true) y = true
                  /\ fuse x y (VBool true) = true)
  /\ (forall d c h, fuse d c h = _as_bool d || _as_bool c || _as_bool h)
  /\ (forall b, _as_bool (VBool b) = b)
  /\ (forall z, _as_bool (VInt z) = negb (z =? 0))
  /\ (forall f, _as_bool (VFloat f) = float_nonzero f)
  /\ (forall s, _as_bool (VStr s) =
                existsb (String.eqb (lower (strip s))) ["true"; "1"; "yes"; "y"]).
Proof.
  split; [|split; [|split; [|split]]].
  - unfold bug_exists, fuse, review_signal.
    destruct (_as_bool (get_default review "confirmed_bug" (VBool false)));
      destruct (_as_bool (get_default review "corrected_has_bug" (VBool false)));
      destruct (_as_bool (get_default bug_report "has_bug" (VBool false))); reflexivity.
  - reflexivity.
  - intros x y. unfold fuse. cbn [_as_bool].
    repeat split; now rewrite ?orb_true_r.
  - reflexivity.
  - repeat split; reflexivity.
Qed.

(** A review that is no dict contributes no signal: the verdict is the
    detector's alone. *)
Lemma bug_exists_without_review review bug_report :
  is_dict review = false ->
  bug_exists review bug_report = _as_bool (get_default bug_report "has_bug" (VBool false)).
Proof. intros H. unfold bug_exists, review_signal. now destruct review. Qed.

Example as_bool_texts :
  _as_bool (VStr "  Yes ") = true /\ _as_bool (VStr "false") = false /\
  _as_bool (VStr "TRUE") = true /\ _as_bool (VInt 2) = true /\
  _as_bool (VFloat S754_nan) = true /\ _as_bool (VList [VBool true]) = false.
Proof. repeat split. Qed.

End FuserFacts.

(* ===================================================================== *)
(** * Structured-response recoverer: fenced payloads *)
(* ===================================================================== *)

Module RecoveryClaims.
Import PyStr Re Recoverer PyVal PyJson Normalise Aux StrFacts ReFacts RecovererFacts Examples.

Lemma find_from_found c : forall s i j,
  find_from (String c "") s i = j -> j <> -1 ->
  exists a rest, s = a ++ String c rest /\ j = i + Z.of_nat (String.length a).
Proof.
  induction s as [|x s IH]; intros i j; cbn [find_from]; rewrite prefix_single.
  - intros <- H. now contradiction H.
  - destruct (Ascii.eqb_spec c x) as [->|Hne].
    + intros <- _. exists ""%string, s. split; [reflexivity | simpl; lia].
    + intros Hj Hnot. destruct (IH _ _ Hj Hnot) as (a & rest & -> & ->).
      exists (String x a), rest. split; [reflexivity|]. cbn [String.length]. lia.
Qed.

Lemma rfind_from_found c : forall s i j,
  0 <= i -> rfind_from (String c "") s i = j -> j <> -1 ->
  exists x post, s = x ++ String c post /\ j = i + Z.of_nat (String.length x).
Proof.
  induction s as [|a s IH]; intros i j Hi; cbn [rfind_from].
  - rewrite prefix_single. intros <- H. now contradiction H.
  - destruct (Z.ltb_spec (rfind_from (String c "") s (i + 1)) 0) as [Hlt|Hge].
    + rewrite prefix_single. destruct (Ascii.eqb_spec c a) as [->|Hne].
      * intros <- _. exists ""%string, s. split; [reflexivity | simpl; lia].
      * intros <- H. now contradiction H.
    + intros Hj Hnot.
      destruct (IH (i + 1) j ltac:(lia) Hj Hnot) as (x & post & -> & ->).
      exists (String a x), post. split; [reflexivity|]. cbn [String.length]. lia.
Qed.

Lemma app_split c1 c2 : forall a x r1 r2,
  a ++ String c1 r1 = x ++ String c2 r2 ->
  (String.length a < String.length x)%nat ->
  exists b, x = a ++ String c1 b /\ r1 = b ++ String c2 r2.
Proof.
  induction a as [|u a IH]; intros x r1 r2 E Hlen.
  - destruct x as [|v x]; [simpl in Hlen; lia|].
    simpl in E. injection E as -> ->. now exists x.
  - destruct x as [|v x]; [simpl in Hlen; lia|].
    simpl in E. injection E as -> E. simpl in Hlen.
    destruct (IH x r1 r2 E ltac:(lia)) as (b & -> & ->). now exists b.
Qed.

(** When the slice is taken, the text has an opening brace before a closing
    one. *)
Lemma brace_slice_braced t c : brace_slice t = Some c -> braced t.
Proof.
  unfold brace_slice, find, rfind.
  destruct (Z.eqb_spec (find_from "{" t 0) (-1)) as [|Hs]; [discriminate|].
  destruct (Z.eqb_spec (rfind_from "}" t 0) (-1)) as [|He]; [discriminate|].
  destruct (Z.gtb_spec (rfind_from "}" t 0) (find_from "{" t 0)) as [Hgt|]; [|discriminate].
  intros _.
  destruct (find_from_found _ _ _ _ eq_refl Hs) as (a & rest & E1 & H1).
  destruct (rfind_from_found _ _ _ _ (Z.le_refl 0) eq_refl He) as (x & post & E2 & H2).
  rewrite H1, H2 in Hgt.
  assert (E : a ++ String "{" rest = x ++ String "}" post) by congruence.
  destruct (app_split _ _ _ _ _ _ E ltac:(lia)) as (b & -> & ->).
  exists a, b, post. exact E1.
Qed.

Lemma brace_slice_unbraced t : ~ braced t -> brace_slice t = None.
Proof.
  intros H. destruct (brace_slice t) as [c|] eqn:E; [|reflexivity].
  contradiction H. now apply brace_slice_braced in E.
Qed.

(** A fenced object followed by prose without a closing brace has the shape
    the slice recovers, whatever stands behind the opening backticks, as long
    as it holds no opening brace. *)
Lemma fenced_sandwich lang mid prose :
  has_char "{" lang = false -> contains "}" prose = false ->
  sandwich mid (fenced lang (object_text mid) prose).
Proof.
  intros Hlang Hprose. unfold fenced.
  exists ("```" ++ lang ++ nl), (nl ++ "```" ++ prose). split; [|split].
  - now rewrite !append_assoc.
  - rewrite !has_char_app, Hlang. reflexivity.
  - rewrite !has_char_app. simpl. now rewrite <- contains_single.
Qed.

(** A language tag of letters holds no opening brace. *)
Lemma tag_of_letters lang : all_chars is_alpha lang = true -> has_char "{" lang = false.
Proof.
  intros Hlang. apply not_brace_open. revert Hlang.
  apply all_chars_weaken, is_alpha_not_brace.
Qed.

Lemma bare_sandwich mid : sandwich mid (object_text mid).
Proof.
  exists ""%string, ""%string. split; [|split]; try reflexivity.
  simpl. now rewrite append_nil_r.
Qed.

(** The fenced reply with braces in its prose decodes to nothing, the bare
    payload to the record. *)
Lemma fenced_with_braces_is_lost :
  loads (_extract_json fenced_then_braces) = DecodeError /\
  json_loads (_extract_json fenced_then_braces) = None /\
  json_loads (_extract_json_from_text fenced_then_braces) = None /\
  json_loads (_clean_json fenced_then_braces) = None /\
  extract_json_from_text json_loads fenced_then_braces = VNone /\
  json_loads (_extract_json payload) = Some (VDict [("hasBug", VBool true)]) /\
  extract_json_from_text json_loads payload = VDict [("hasBug", VBool true)].
Proof. vm_compute. repeat split. Qed.

(** An opening brace on the fence line is where the slice starts: the
    payload in a fence opened by three backticks and {r}, as R Markdown
    writes it, is not recovered. *)
Lemma brace_on_fence_line_is_lost :
  _extract_json (fenced "{r}" payload "") = ("{r}" ++ nl ++ payload)%string /\
  loads (_extract_json (fenced "{r}" payload "")) = DecodeError /\
  json_loads (_extract_json (fenced "{r}" payload "")) = None /\
  json_loads (_extract_json_from_text (fenced "{r}" payload "")) = None /\
  json_loads (_clean_json (fenced "{r}" payload "")) = None /\
  extract_json_from_text json_loads (fenced "{r}" payload "") = VNone /\
  json_loads (_extract_json payload) = Some (VDict [("hasBug", VBool true)]).
Proof. vm_compute. repeat split. Qed.

(** Counterexample to C5 as stated: the payload of the specification's
    example, in a json fence followed by the prose "The set {x} is never
    read.", is not recovered as the bare payload is: the slice runs to the
    brace that closes {x}, and the decoder rejects it.  Nor is the payload
    recovered from a fence opened by three backticks and {r}, with no prose
    behind it: the slice starts at the brace of the fence line. *)
Lemma C5_counterexample :
  (fenced_then_braces = fenced "json" payload (nl ++ "The set {x} is never read.") /\
   _extract_json fenced_then_braces
     = payload ++ nl ++ "```" ++ nl ++ "The set {x}" /\
   loads (_extract_json fenced_then_braces) = DecodeError /\
   json_loads (_extract_json fenced_then_braces) <> json_loads (_extract_json payload) /\
   extract_json_from_text json_loads fenced_then_braces
     <> extract_json_from_text json_loads payload) /\
  (_extract_json (fenced "{r}" payload "") = "{r}" ++ nl ++ payload /\
   loads (_extract_json (fenced "{r}" payload "")) = DecodeError /\
   json_loads (_extract_json (fenced "{r}" payload "")) <> json_loads (_extract_json payload) /\
   extract_json_from_text json_loads (fenced "{r}" payload "")
     <> extract_json_from_text json_loads payload).
Proof.
  destruct fenced_with_braces_is_lost as (H0 & H1 & _ & _ & H2 & H3 & H4).
  destruct brace_on_fence_line_is_lost as (G0 & Gd & G1 & _ & _ & G2 & _).
  split.
  - split; [reflexivity|]. split; [reflexivity|]. split; [exact H0|].
    rewrite H1, H2, H3, H4. split; discriminate.
  - split; [exact G0|]. split; [exact Gd|]. rewrite G1, G2, H3, H4. split; discriminate.
Qed.

(** C5, amended.  For every object text (an opening brace, anything, a
    closing brace) wrapped in a code fence whose opening line holds no
    opening brace behind the backticks (a language tag, or nothing, or any
    other text without that character) and followed by prose that contains
    no closing brace, every copy of the recoverer hands the decoder the same
    candidate as for the bare object text, the object text itself, so the
    decoded record is the same.  And for a text that, trimmed and unfenced,
    has no opening brace with a closing brace behind it, the recoverers that
    return a text ([_extract_json], [_extract_json_from_text], [_clean_json])
    return the trimmed text as it is, for the decoder to take, while
    [extract_json_from_text] of fix_from_report.py returns no record without
    decoding. *)
Theorem C5_fenced_recovery (loads : string -> option pyval) (lang mid prose text : string) :
  has_char "{" lang = false ->
  contains "}" prose = false ->
  ~ braced (unfence (strip text)) ->
  let bare := object_text mid in
  let wrapped := fenced lang bare prose in
  (_extract_json wrapped = bare /\ _extract_json bare = bare /\
   _extract_json_from_text wrapped = bare /\ _extract_json_from_text bare = bare /\
   _clean_json wrapped = bare /\ _clean_json bare = bare /\
   loads (_extract_json wrapped) = loads (_extract_json bare) /\
   extract_json_from_text loads wrapped = extract_json_from_text loads bare) /\
  (_extract_json text = unfence (strip text) /\
   _extract_json_from_text text = unfence (strip text) /\
   _clean_json text = unfence (strip text) /\
   loads (_extract_json text) = loads (unfence (strip text)) /\
   extract_json_from_text loads text = VNone).
Proof.
  intros Hlang Hprose Hun bare wrapped.
  pose proof (candidate_sandwich _ _ (fenced_sandwich lang mid prose Hlang Hprose)) as Hw.
  pose proof (candidate_sandwich _ _ (bare_sandwich mid)) as Hb.
  fold bare in Hw, Hb. fold wrapped in Hw.
  pose proof (brace_slice_unbraced _ Hun) as Hn.
  split.
  - unfold _extract_json, _extract_json_from_text, _clean_json, extract_json_from_text.
    rewrite Hw, Hb. repeat split; reflexivity.
  - unfold _extract_json, _extract_json_from_text, _clean_json, extract_json_from_text.
    rewrite Hn. repeat split; try reflexivity.
    now destruct (negb (nonempty text)).
Qed.

(** A text without an opening brace is not braced. *)
Lemma unbraced_by_chars t : has_char "{" t = false -> ~ braced t.
Proof.
  intros H (a & b & c & ->). rewrite has_char_app in H. simpl in H.
  now rewrite orb_true_r in H.
Qed.

(** The hypotheses of C5 hold for the specification's example followed by
    plain prose, in a fence tagged json and in one tagged c99, whose line the
    opening-fence pattern does not match, and for a reply that is a JSON
    array. *)
Lemma C5_witness :
  has_char "{" "json" = false /\
  has_char "{" "c99" = false /\
  contains "}" (nl ++ "Done, see above.") = false /\
  ~ braced (unfence (strip "[1, 2]")) /\
  json_loads (_extract_json fenced_then_prose) = json_loads (_extract_json payload) /\
  extract_json_from_text json_loads fenced_then_prose
    = extract_json_from_text json_loads payload /\
  _extract_json (fenced "c99" payload (nl ++ "Done, see above.")) = payload /\
  json_loads (_extract_json "[1, 2]") = json_loads "[1, 2]" /\
  extract_json_from_text json_loads "[1, 2]" = VNone.
Proof.
  assert (H1 : has_char "{" "json" = false) by reflexivity.
  assert (H1' : has_char "{" "c99" = false) by reflexivity.
  assert (H2 : contains "}" (nl ++ "Done, see above.") = false) by reflexivity.
  assert (H3 : ~ braced (unfence (strip "[1, 2]")))
    by (apply unbraced_by_chars; reflexivity).
  destruct (C5_fenced_recovery json_loads "json" (js "'hasBug': true")
              (nl ++ "Done, see above.") "[1, 2]" H1 H2 H3)
    as [(_ & _ & _ & _ & _ & _ & Ha & Hb) (_ & _ & _ & Hc & Hd)].
  destruct (C5_fenced_recovery json_loads "c99" (js "'hasBug': true")
              (nl ++ "Done, see above.") "[1, 2]" H1' H2 H3)
    as [(He & _) _].
  repeat split; assumption.
Defined.

End RecoveryClaims.

(* ===================================================================== *)
(** * Second-chance recovery: the excerpt is carried, never made up *)
(* ===================================================================== *)

Module NormaliseClaims.
Import PyStr Re Recoverer PyVal PyJson Exn Normalise Aux Examples.

Lemma lookup_setitem_eq k v d : lookup k (setitem k v d) = Some v.
Proof.
  induction d as [|[k' v'] d IH]; cbn [setitem lookup].
  - now rewrite String.eqb_refl.
  - destruct (String.eqb_spec k k') as [->|Hne]; cbn [lookup].
    + now rewrite String.eqb_refl.
    + apply String.eqb_neq in Hne. now rewrite Hne.
Qed.

Lemma lookup_setitem_ne k k' v d : k' <> k -> lookup k' (setitem k v d) = lookup k' d.
Proof.
  intros Hne. induction d as [|[k0 v0] d IH]; cbn [setitem lookup].
  - apply String.eqb_neq in Hne. now rewrite Hne.
  - destruct (String.eqb_spec k k0) as [->|Hk]; cbn [lookup].
    + apply String.eqb_neq in Hne. now rewrite Hne.
    + now rewrite IH.
Qed.

Lemma get_absent d k : lookup k d = None -> get d k = VNone.
Proof. unfold get, get_default. now intros ->. Qed.

(** What the carry-over does to a recovered record. *)
Lemma carry_excerpt_spec (bug_report recovered : pydict) :
  (truthy (get bug_report "code_excerpt") = true ->
   lookup "code_excerpt" recovered = None ->
   carry_excerpt bug_report recovered
     = setitem "code_excerpt" (get bug_report "code_excerpt") recovered) /\
  (truthy (get bug_report "code_excerpt") = false ->
   carry_excerpt bug_report recovered = recovered) /\
  (forall k, k <> "code_excerpt" ->
   lookup k (carry_excerpt bug_report recovered) = lookup k recovered) /\
  (forall v, lookup "code_excerpt" (carry_excerpt bug_report recovered) = Some v ->
   lookup "code_excerpt" recovered = Some v \/
   (v = get bug_report "code_excerpt" /\ truthy v = true)).
Proof.
  unfold carry_excerpt. repeat split.
  - intros Ht Habs. now rewrite Ht, (get_absent _ _ Habs).
  - now intros ->.
  - intros k Hk.
    destruct (truthy (get bug_report "code_excerpt") && _); [|reflexivity].
    now apply lookup_setitem_ne.
  - intros v.
    destruct (truthy (get bug_report "code_excerpt")) eqn:Ht; cbn [andb].
    + destruct (negb (truthy (get recovered "code_excerpt"))).
      * rewrite lookup_setitem_eq. intros [= <-]. now right.
      * now left.
    + now left.
Qed.

(** The candidate of [extract_json_from_text] is the text
    [_extract_json_from_text] returns, when there is one. *)
Lemma extract_dict_is_decoded (loads : string -> option pyval) raw d :
  extract_json_from_text loads raw = VDict d ->
  loads (_extract_json_from_text raw) = Some (VDict d).
Proof.
  unfold extract_json_from_text, _extract_json_from_text.
  destruct (negb (nonempty raw)); [discriminate|].
  destruct (brace_slice (unfence (strip raw))) as [c|]; [|discriminate].
  destruct (loads c) as [v|]; [|discriminate]. now intros ->.
Qed.

(** C6.  For a ledger entry whose bug report has a truthy [error] and a
    non-empty raw text, normalisation runs the recoverer again on that raw
    text.  When the recovered value is a record, the result is that record
    with the report's excerpt set in it if the report has an excerpt and the
    record has none; every other key of the record is as recovered; and when
    the report has no excerpt the result is the recovered record unchanged,
    so a [code_excerpt] in the result is either the record's own or the
    report's.  [normalize_bug_report] of fix_from_report.py gives the same
    result whenever its recoverer returns the record. *)
Theorem C6_second_chance_recovery
    (loads : string -> option pyval) (entry report recovered : pydict) (raw : string) :
  get entry "bug_report" = VDict report ->
  truthy (get report "error") = true ->
  get report "raw_response_text" = VStr raw ->
  raw <> ""%string ->
  loads (_extract_json_from_text raw) = Some (VDict recovered) ->
  exists result,
    _normalize_bug_report loads entry = Return (VDict result) /\
    (extract_json_from_text loads raw = VDict recovered ->
     normalize_bug_report loads entry = Return (VDict result)) /\
    (truthy (get report "code_excerpt") = true ->
     lookup "code_excerpt" recovered = None ->
     result = setitem "code_excerpt" (get report "code_excerpt") recovered /\
     lookup "code_excerpt" result = Some (get report "code_excerpt")) /\
    (truthy (get report "code_excerpt") = false -> result = recovered) /\
    (forall k, k <> "code_excerpt" -> lookup k result = lookup k recovered) /\
    (forall v, lookup "code_excerpt" result = Some v ->
     lookup "code_excerpt" recovered = Some v \/
     (v = get report "code_excerpt" /\ truthy v = true)).
Proof.
  intros Hentry Herr Hraw Hne Hrec.
  exists (carry_excerpt report recovered).
  assert (Htr : truthy (get report "raw_response_text") = true).
  { rewrite Hraw. destruct raw; [now contradiction Hne | reflexivity]. }
  assert (Hor : or_else (get entry "bug_report") (VDict []) = VDict report).
  { rewrite Hentry. unfold or_else. now destruct report. }
  destruct (carry_excerpt_spec report recovered) as (Hset & Hsame & Hother & Horigin).
  split; [|split; [|split; [|split; [|split]]]].
  - unfold _normalize_bug_report. now rewrite Hor, Herr, Htr, Hraw, Hrec.
  - intros Hx. unfold normalize_bug_report. now rewrite Hor, Herr, Htr, Hraw, Hx.
  - intros Ht Habs. rewrite (Hset Ht Habs). split; [reflexivity | apply lookup_setitem_eq].
  - exact Hsame.
  - exact Hother.
  - exact Horigin.
Qed.

(** Without an error, or without raw text, the report is returned as it is:
    nothing is recovered and nothing is added. *)
Lemma normalize_without_error (loads : string -> option pyval) (entry report : pydict) :
  get entry "bug_report" = VDict report ->
  truthy (get report "error") && truthy (get report "raw_response_text") = false ->
  _normalize_bug_report loads entry = Return (VDict report) /\
  normalize_bug_report loads entry = Return (VDict report).
Proof.
  intros Hentry H.
  assert (Hor : or_else (get entry "bug_report") (VDict []) = VDict report).
  { rewrite Hentry. unfold or_else. now destruct report. }
  unfold _normalize_bug_report, normalize_bug_report. now rewrite Hor, H.
Qed.

(** When the raw text does not decode, the earlier report stands. *)
Lemma normalize_undecodable (loads : string -> option pyval) (entry report : pydict) raw :
  get entry "bug_report" = VDict report ->
  get report "raw_response_text" = VStr raw ->
  loads (_extract_json_from_text raw) = None ->
  _normalize_bug_report loads entry = Return (VDict report).
Proof.
  intros Hentry Hraw Hnone.
  assert (Hor : or_else (get entry "bug_report") (VDict []) = VDict report).
  { rewrite Hentry. unfold or_else. now destruct report. }
  unfold _normalize_bug_report. rewrite Hor, Hraw, Hnone.
  now destruct (truthy (get report "error") && truthy (VStr raw)).
Qed.

(** The hypotheses of C6 hold for a report whose raw text is the fenced
    example: the record is recovered and the report's excerpt is carried. *)
Lemma C6_witness :
  _normalize_bug_report json_loads failed_entry
    = Return (VDict [("hasBug", VBool true); ("code_excerpt", VStr "def bitcount(n):")]) /\
  normalize_bug_report json_loads failed_entry
    = Return (VDict [("hasBug", VBool true); ("code_excerpt", VStr "def bitcount(n):")]).
Proof.
  assert (H1 : get failed_entry "bug_report" = VDict failed_report) by reflexivity.
  assert (H2 : truthy (get failed_report "error") = true) by reflexivity.
  assert (H3 : get failed_report "raw_response_text" = VStr fenced_then_prose) by reflexivity.
  assert (H4 : fenced_then_prose <> ""%string) by discriminate.
  assert (H5 : json_loads (_extract_json_from_text fenced_then_prose)
               = Some (VDict [("hasBug", VBool true)])) by reflexivity.
  destruct (C6_second_chance_recovery json_loads failed_entry failed_report
              [("hasBug", VBool true)] fenced_then_prose H1 H2 H3 H4 H5)
    as (result & Ha & Hb & Hc & _).
  destruct (Hc eq_refl eq_refl) as [-> _].
  split; [exact Ha | exact (Hb eq_refl)].
Defined.

End NormaliseClaims.

(* ===================================================================== *)
(** * Facts about paths: the backup path *)
(* ===================================================================== *)

Module PathFacts.
Import PyStr Exn Pathlib Aux StrFacts RecoveryClaims.

Lemma slice_prefix a b : slice (a ++ b) 0 (len a) = a.
Proof. exact (slice_middle "" a b). Qed.

Lemma slice_suffix a b : slice (a ++ b) (len a) (len (a ++ b)) = b.
Proof.
  unfold len. rewrite length_append, Nat2Z.inj_add.
  pose proof (slice_middle a b "") as H. now rewrite append_nil_r in H.
Qed.

Lemma rfind_from_negative c : forall s i,
  0 <= i -> rfind_from (String c "") s i < 0 -> has_char c s = false.
Proof.
  induction s as [|a s IH]; intros i Hi; cbn [rfind_from has_char]; [reflexivity|].
  destruct (Z.ltb_spec (rfind_from (String c "") s (i + 1)) 0) as [Hlt|Hge].
  - rewrite prefix_single. destruct (Ascii.eqb c a); [lia|].
    intros _. now apply (IH (i + 1)); [lia|].
  - lia.
Qed.

(** The last occurrence of [c] splits the text into a part before it and a
    part without [c] behind it. *)
Lemma rfind_from_last_split c : forall s i,
  0 <= i -> 0 <= rfind_from (String c "") s i ->
  exists x post,
    s = x ++ String c post /\
    rfind_from (String c "") s i = i + len x /\ has_char c post = false.
Proof.
  induction s as [|a s IH]; intros i Hi; cbn [rfind_from].
  - rewrite prefix_single. lia.
  - destruct (Z.ltb_spec (rfind_from (String c "") s (i + 1)) 0) as [Hlt|Hge].
    + rewrite prefix_single. destruct (Ascii.eqb_spec c a) as [->|]; [|lia].
      intros _. exists ""%string, s. split; [reflexivity|]. split; [unfold len; simpl; lia|].
      now apply (rfind_from_negative _ _ (i + 1)); [lia|].
    + intros _. destruct (IH (i + 1) ltac:(lia) Hge) as (x & post & -> & E & Hpost).
      exists (String a x), post. split; [reflexivity|]. split; [|exact Hpost].
      rewrite E. unfold len. cbn [String.length]. lia.
Qed.

Lemma rfind_last c s :
  0 <= rfind s (String c "") ->
  exists x post,
    s = x ++ String c post /\ rfind s (String c "") = len x /\ has_char c post = false.
Proof.
  intros H. destruct (rfind_from_last_split c s 0 (Z.le_refl 0) H) as (x & post & E & R & P).
  exists x, post. split; [exact E|]. split; [exact R | exact P].
Qed.

Lemma rfind_absent c s : rfind s (String c "") < 0 -> has_char c s = false.
Proof. apply rfind_from_negative. lia. Qed.

Lemma len_app a b : len (a ++ b) = len a + len b.
Proof. unfold len. rewrite length_append. lia. Qed.

Lemma len_nonneg s : 0 <= len s.
Proof. unfold len. lia. Qed.

(** A path is what precedes its name, followed by its name; the name has no
    separator in it. *)
Lemma name_split p :
  name p <> ""%string ->
  exists dir, p = dir ++ name p /\ has_char "/" (name p) = false.
Proof.
  unfold name. destruct (String.eqb_spec p ".") as [->|Hdot]; [now intros H|].
  destruct (Z.ltb_spec (rfind p "/") 0) as [Hlt|Hge]; intros Hn.
  - exists ""%string. split; [reflexivity | now apply rfind_absent].
  - destruct (rfind_last "/" p Hge) as (x & post & E & R & Hpost).
    rewrite R. subst p.
    assert (S : slice (x ++ String "/" post) (len x + 1) (len (x ++ String "/" post)) = post).
    { change (x ++ String "/" post) with (x ++ "/" ++ post).
      rewrite <- append_assoc.
      replace (len x + 1) with (len (x ++ "/")) by (rewrite len_app; reflexivity).
      apply slice_suffix. }
    rewrite S. exists (x ++ "/"). split; [|exact Hpost].
    now rewrite append_assoc.
Qed.

(** The suffix of a name is empty or starts with a dot, and is the end of
    the name. *)
Lemma suffix_split p :
  suffix p = ""%string \/
  exists x rest, name p = x ++ String "." rest /\ suffix p = String "." rest.
Proof.
  unfold suffix. set (n := name p).
  destruct ((0 <? rfind n ".") && (rfind n "." <? len n - 1)) eqn:C; [|now left].
  right. apply andb_true_iff in C as [C1 C2]. apply Z.ltb_lt in C1.
  destruct (rfind_last "." n ltac:(lia)) as (x & rest & E & R & _).
  exists x, rest. split; [exact E|]. rewrite R, E.
  change (x ++ String "." rest) with (x ++ (String "." rest)).
  apply slice_suffix.
Qed.

Lemma has_char_substring c : forall s n m,
  has_char c s = false -> has_char c (substring n m s) = false.
Proof.
  induction s as [|a s IH]; intros n m H.
  - now destruct n, m.
  - cbn [has_char] in H. apply orb_false_iff in H as [Ha Hs].
    destruct n as [|n]; cbn [substring].
    + destruct m as [|m]; [reflexivity|]. cbn [has_char]. now rewrite Ha, IH.
    + now apply IH.
Qed.

(** The backup path of [fix_bug]: the path of the file with ".bak" behind
    it. *)
Lemma with_suffix_bak p :
  name p <> ""%string ->
  with_suffix p (suffix p ++ ".bak") = Return (p ++ ".bak").
Proof.
  intros Hn. destruct (name_split p Hn) as (dir & Ep & Hsep).
  unfold with_suffix.
  destruct (suffix_split p) as [Es|(x & rest & Ex & Es)]; rewrite Es;
    remember (name p) as nm eqn:Enm; clear Enm; subst p.
  - cbn [append contains prefix orb nonempty andb negb startswith String.eqb Ascii.eqb].
    destruct nm as [|c n]; [now contradiction Hn|]. cbn [nonempty negb].
    f_equal. rewrite len_app.
    replace (len dir + len (String c n) - len (String c n)) with (len dir) by lia.
    now rewrite slice_prefix, append_assoc.
  - subst nm.
    assert (Hno : contains "/" (String "." rest ++ ".bak") = false).
    { rewrite contains_single, has_char_app. simpl. rewrite orb_false_r.
      rewrite has_char_app in Hsep. apply orb_false_iff in Hsep as [_ Hsep].
      simpl in Hsep. exact Hsep. }
    assert (Hdot : nonempty (String "." rest ++ ".bak")
                   && negb (startswith (String "." rest ++ ".bak") ".") = false).
    { unfold startswith. cbn [append]. now rewrite prefix_single. }
    assert (Hne : String.eqb (String "." rest ++ ".bak") "." = false).
    { simpl. now destruct rest. }
    rewrite Hno, Hdot, Hne. cbn [orb].
    assert (Hnm : nonempty (x ++ String "." rest) = true) by now destruct x.
    rewrite Hnm. cbn [negb nonempty]. f_equal.
    rewrite (len_app dir).
    replace (len dir + len (x ++ String "." rest) - len (x ++ String "." rest))
      with (len dir) by lia.
    rewrite slice_prefix. rewrite (len_app x).
    replace (len x + len (String "." rest) - len (String "." rest)) with (len x) by lia.
    rewrite slice_prefix. now rewrite !append_assoc.
Qed.

Lemma append_neq_self p s : s <> ""%string -> p ++ s <> p.
Proof.
  intros Hs E. apply Hs.
  assert (L : String.length (p ++ s) = String.length p) by now rewrite E.
  rewrite length_append in L. destruct s; [reflexivity | simpl in L; lia].
Qed.

End PathFacts.

(* ===================================================================== *)
(** * Fix applicator: what [fix_bug] does to the file *)
(* ===================================================================== *)

Module FixBugClaims.
Import PyStr Recoverer PyVal PyJson Exn Pathlib Sys Sha256 FixBug MemFS Observe Aux Examples.
Import FenceSamples TreeFS ApplicatorSamples.
Import StrFacts PathFacts.

Ltac run_fix :=
  cbv beta iota zeta delta [fix_bug bind ret raise lift try_except
                       do_exists do_read_text do_copyfile do_write_text do_create].

Lemma truthy_path target : target <> ""%string -> truthy (VStr target) = true.
Proof. now destruct target. Qed.

Section OnAnExistingFile.
Context {W : Type} {os : OS W}.
Variable loads : string -> option pyval.
Variable json_error : string -> string.
Variable self : BugFixAgent.
Variable bug_report : pydict.
Variables target original_code : string.
Variable w : W.

(** The report names a file that exists and can be read. *)
Hypothesis Hpath : get bug_report "file_path" = VStr target.
Hypothesis Hname : target <> ""%string.
Hypothesis Hexists : path_exists target w = true.
Hypothesis Hread : read_text Ignore target w = Return original_code.

(** C9, amended.  For a bug report whose file exists and can be read, and
    whose [has_bug] is falsy, [fix_bug] returns the skipped result; its only
    effects are the existence test and the read of the file: no call of the
    reasoning service, no backup copy, no write, and the state of the file
    system is the one it started from. *)
Theorem C9_no_bug_is_skipped (dry_run : bool) :
  truthy (get_default bug_report "has_bug" (VBool false)) = false ->
  exists trace,
    fix_bug loads json_error self bug_report dry_run w =
      (w, trace,
       Return [("status", VStr "skipped");
               ("reason", VStr "has_bug=false in bug_report");
               ("file_path", VStr target)]) /\
    trace = [EExists target; ERead target] /\
    existsb is_service_call trace = false /\
    existsb is_mutation trace = false.
Proof.
  intros Hbug. exists [EExists target; ERead target].
  split; [|repeat split].
  run_fix. rewrite Hpath, (truthy_path _ Hname). cbn [negb].
  rewrite Hexists. cbn [negb]. rewrite Hread, Hbug. reflexivity.
Qed.

Section WithAProposedBody.
Variables text code : string.
Variable fix_plan : pyval.

(** The report says there is a bug, the service answers, the answer decodes
    to a plan, and the plan's [fixed_code] is a text. *)
Hypothesis Hbug : truthy (get_default bug_report "has_bug" (VBool false)) = true.
Hypothesis Hreply : client self (request_for self bug_report original_code) = Reply text.
Hypothesis Hplan : loads (_clean_json text) = Some fix_plan.
Hypothesis Hcode : proposed_code fix_plan = Some code.

Let fixed_code : string := _strip_code_fences code.
Let asked : list event :=
  [EExists target; ERead target; ECreate (request_for self bug_report original_code)].

(** [fix_bug] up to the point where the proposed body is known. *)
Lemma fix_bug_reaches_body (dry_run : bool) :
  fix_bug loads json_error self bug_report dry_run w =
  (if negb (nonempty (strip fixed_code)) then
     (w, asked,
      Return [("status", VStr "no_fixed_code"); ("file_path", VStr target);
              ("fix_plan", fix_plan)])
   else if String.eqb (_sha256 fixed_code) (_sha256 original_code) then
     (w, asked,
      Return [("status", VStr "no_change");
              ("reason", VStr "Model returned identical file content");
              ("file_path", VStr target);
              ("fix_plan", fix_plan)])
   else if dry_run then
     (w, asked,
      Return [("status", VStr "dry_run"); ("file_path", VStr target);
              ("before_hash", VStr (_sha256 original_code));
              ("after_hash", VStr (_sha256 fixed_code));
              ("fix_plan", fix_plan)])
   else
     match with_suffix target (suffix target ++ ".bak") with
     | Return backup_path =>
         let '(w1, r1) := copyfile target backup_path w in
         match r1 with
         | Return _ =>
             let '(w2, r2) := write_text target fixed_code w1 in
             match r2 with
             | Return _ =>
                 match read_text Ignore target w2 with
                 | Return on_disk =>
                     if String.eqb (_sha256 on_disk) (_sha256 original_code) then
                       let '(w3, r3) := copyfile backup_path target w2 in
                       (w3,
                        (asked ++ [ECopy target backup_path; EWrite target fixed_code;
                                   ERead target; ECopy backup_path target])%list,
                        match r3 with
                        | Return _ =>
                            Return [("status", VStr "write_failed");
                                    ("error", VStr "File did not change after write; rolled back");
                                    ("file_path", VStr target);
                                    ("backup_path", VStr backup_path);
                                    ("fix_plan", fix_plan)]
                        | Raise e => Raise e
                        | Diverge => Diverge
                        end)
                     else
                       (w2,
                        (asked ++ [ECopy target backup_path; EWrite target fixed_code;
                                   ERead target])%list,
                        Return [("status", VStr "patched"); ("file_path", VStr target);
                                ("backup_path", VStr backup_path);
                                ("before_hash", VStr (_sha256 original_code));
                                ("after_hash", VStr (_sha256 on_disk));
                                ("fix_plan", fix_plan)])
                 | Raise e =>
                     (w2, (asked ++ [ECopy target backup_path; EWrite target fixed_code;
                                     ERead target])%list, Raise e)
                 | Diverge =>
                     (w2, (asked ++ [ECopy target backup_path; EWrite target fixed_code;
                                     ERead target])%list, Diverge)
                 end
             | Raise e =>
                 (w2, (asked ++ [ECopy target backup_path; EWrite target fixed_code])%list,
                  Raise e)
             | Diverge =>
                 (w2, (asked ++ [ECopy target backup_path; EWrite target fixed_code])%list,
                  Diverge)
             end
         | Raise e => (w1, (asked ++ [ECopy target backup_path])%list, Raise e)
         | Diverge => (w1, (asked ++ [ECopy target backup_path])%list, Diverge)
         end
     | Raise e => (w, asked, Raise e)
     | Diverge => (w, asked, Diverge)
     end).
Proof.
  run_fix. rewrite Hpath, (truthy_path _ Hname). cbn [negb].
  rewrite Hexists. cbn [negb]. rewrite Hread, Hbug. cbn [negb].
  fold (request_for self bug_report original_code). rewrite Hreply, Hplan.
  unfold proposed_code in Hcode.
  destruct (or_else fix_plan (VDict [])) as [| | | | |?|plan]; try discriminate.
  destruct (or_else (get_default plan "fixed_code" (VStr "")) (VStr ""))
    as [| | | |c| |]; try discriminate.
  injection Hcode as ->. fold fixed_code.
  destruct (negb (nonempty (strip fixed_code))); [reflexivity|].
  destruct (String.eqb (_sha256 fixed_code) (_sha256 original_code)); [reflexivity|].
  destruct dry_run; [reflexivity|].
  destruct (with_suffix target (suffix target ++ ".bak")) as [backup|e|]; [|reflexivity..].
  destruct (copyfile target backup w) as [w1 [[]|e|]]; [|reflexivity..].
  destruct (write_text target fixed_code w1) as [w2 [[]|e|]]; [|reflexivity..].
  destruct (read_text Ignore target w2) as [on_disk|e|]; [|reflexivity..].
  destruct (String.eqb (_sha256 on_disk) (_sha256 original_code)); [|reflexivity].
  destruct (copyfile backup target w2) as [w3 [[]|e|]]; reflexivity.
Qed.



(** In a dry run a body with another fingerprint is reported and nothing is
    copied or written. *)
Lemma dry_run_never_writes :
  strip fixed_code <> ""%string ->
  _sha256 fixed_code <> _sha256 original_code ->
  fix_bug loads json_error self bug_report true w =
    (w, asked,
     Return [("status", VStr "dry_run"); ("file_path", VStr target);
             ("before_hash", VStr (_sha256 original_code));
             ("after_hash", VStr (_sha256 fixed_code));
             ("fix_plan", fix_plan)]).
Proof.
  intros Hne Hdiff. rewrite fix_bug_reaches_body.
  destruct (strip fixed_code); [now contradiction Hne|]. cbn [nonempty negb].
  apply String.eqb_neq in Hdiff. now rewrite Hdiff.
Qed.


End WithAProposedBody.
End OnAnExistingFile.

(** [fix_bug] reads the file before it looks at [has_bug]: when the read of
    an existing file raises, the exception leaves [fix_bug] whatever the
    report says about a bug, and nothing else has happened. *)
Lemma unreadable_target_raises {W : Type} {os : OS W}
    (loads : string -> option pyval) (json_error : string -> string)
    (self : BugFixAgent) (bug_report : pydict) (target : string) (w : W)
    (e : exn) (dry_run : bool) :
  get bug_report "file_path" = VStr target -> target <> ""%string ->
  path_exists target w = true ->
  read_text Ignore target w = Raise e ->
  fix_bug loads json_error self bug_report dry_run w
    = (w, [EExists target; ERead target], Raise e).
Proof.
  intros Hpath Hname Hexists Hread. run_fix.
  rewrite Hpath, (truthy_path _ Hname). cbn [negb].
  rewrite Hexists. cbn [negb]. now rewrite Hread.
Qed.

(** The in-memory file system keeps the laws of a file system. *)
#[export] Instance mem_laws : FileSystemLaws world.
Proof.
  split.
  - intros src dst w w'. cbn [copyfile mem_os]. unfold mem_copyfile.
    destruct (files w src) as [bytes|] eqn:Hsrc; [|intros [=]].
    destruct (String.eqb src dst); [intros [=]|].
    intros [= <-]. cbn. unfold update. now rewrite String.eqb_refl, Hsrc.
  - intros src dst w w' r p. cbn [copyfile mem_os]. unfold mem_copyfile.
    destruct (files w src) as [bytes|]; [|now intros [= <- _]].
    destruct (String.eqb src dst); [now intros [= <- _]|].
    intros [= <- _] Hne. cbn. unfold update.
    apply String.eqb_neq in Hne. now rewrite Hne.
  - intros p text w w' r q. cbn [write_text mem_os]. unfold mem_write_text.
    intros [= <- _] Hne. cbn. unfold update.
    apply String.eqb_neq in Hne. now rewrite Hne.
Qed.

(** C9 at work: a report with [has_bug] false on the sample repository. *)
Lemma C9_witness :
  fix_bug json_loads no_message (fixer reply_changed) clean_report false repo =
    (repo, [EExists program; ERead program],
     Return [("status", VStr "skipped");
             ("reason", VStr "has_bug=false in bug_report");
             ("file_path", VStr program)]).
Proof.
  assert (Hname : program <> ""%string) by discriminate.
  destruct (C9_no_bug_is_skipped (os := mem_os) json_loads no_message (fixer reply_changed)
              clean_report program program_text repo
              eq_refl Hname eq_refl eq_refl false eq_refl)
    as (trace & E & -> & _).
  exact E.
Defined.

(** Counterexample to C9 as stated, twice.  The program exists and no one
    may read it, and the report says there is no bug: the read raises, so
    [fix_bug] returns no result, skipped or other.  The same happens for a
    report that names the directory of the programs. *)
Lemma C9_counterexample :
  (path_exists (OS := tree_os) program repo_sealed = true /\
   truthy (get_default clean_report "has_bug" (VBool false)) = false /\
   fix_bug (os := tree_os) json_loads no_message (fixer reply_changed) clean_report false
       repo_sealed
     = (repo_sealed, [EExists program; ERead program], Raise (OSError "Permission denied")) /\
   (forall w' trace result,
      fix_bug (os := tree_os) json_loads no_message (fixer reply_changed) clean_report false
          repo_sealed
        <> (w', trace, Return result))) /\
  (path_exists (OS := tree_os) folder repo_tree = true /\
   truthy (get_default folder_report "has_bug" (VBool false)) = false /\
   fix_bug (os := tree_os) json_loads no_message (fixer reply_changed) folder_report false
       repo_tree
     = (repo_tree, [EExists folder; ERead folder], Raise (OSError "Is a directory")) /\
   (forall w' trace result,
      fix_bug (os := tree_os) json_loads no_message (fixer reply_changed) folder_report false
          repo_tree
        <> (w', trace, Return result))).
Proof.
  assert (Hprogram : program <> ""%string) by discriminate.
  assert (Hfolder : folder <> ""%string) by discriminate.
  assert (E1 : fix_bug (os := tree_os) json_loads no_message (fixer reply_changed)
                 clean_report false repo_sealed
               = (repo_sealed, [EExists program; ERead program],
                  Raise (OSError "Permission denied"))).
  { apply (unreadable_target_raises (os := tree_os));
      [reflexivity | exact Hprogram | reflexivity..]. }
  assert (E2 : fix_bug (os := tree_os) json_loads no_message (fixer reply_changed)
                 folder_report false repo_tree
               = (repo_tree, [EExists folder; ERead folder], Raise (OSError "Is a directory"))).
  { apply (unreadable_target_raises (os := tree_os));
      [reflexivity | exact Hfolder | reflexivity..]. }
  split.
  - split; [reflexivity|]. split; [reflexivity|]. split; [exact E1|].
    intros w' trace result. rewrite E1. discriminate.
  - split; [reflexivity|]. split; [reflexivity|]. split; [exact E2|].
    intros w' trace result. rewrite E2. discriminate.
Qed.







End FixBugClaims.

(* ===================================================================== *)
(** * Version-control publisher: [commit] without staged files *)
(* ===================================================================== *)

Module GitClaims.
Import PyStr PyVal Exn Sys GitPush MemFS Observe Aux Examples.

Lemma rstrip_idempotent s : rstrip (rstrip s) = rstrip s.
Proof.
  induction s as [|c s IH]; [reflexivity|].
  cbn [rstrip]. destruct (rstrip s) as [|b r] eqn:E.
  - destruct (isspace c) eqn:Hc; [reflexivity|]. cbn [rstrip]. now rewrite Hc.
  - cbn [rstrip] in *. now rewrite IH.
Qed.

Lemma lstrip_rstrip_lstrip s : lstrip (rstrip (lstrip s)) = rstrip (lstrip s).
Proof.
  induction s as [|c s IH]; [reflexivity|].
  cbn [lstrip]. destruct (isspace c) eqn:Hc; [exact IH|].
  cbn [rstrip]. destruct (rstrip s); rewrite ?Hc; cbn [lstrip]; now rewrite Hc.
Qed.

Lemma strip_idempotent s : strip (strip s) = strip s.
Proof. unfold strip. now rewrite lstrip_rstrip_lstrip, rstrip_idempotent. Qed.

Section Commit.
Context {W : Type} {os : OS W}.
Variable self : GitPushAgent.

Ltac run_git :=
  cbv beta iota zeta delta [commit _has_staged_changes _run bind ret raise do_run].

(** C8.  For every commit message, the first effect of [commit] is the
    subprocess that lists the staged names, git diff --cached --name-only.
    When that command exits with 0 and prints nothing but blanks, [commit]
    returns normally and has started no other subprocess.  The commit
    command git commit -m message is started only when the listing exited
    with 0 and printed a name, and then it is started. *)
Theorem C8_commit_only_when_staged (message : string) (w : W) :
  exists w' rest r,
    commit self message w = (w', ERun (git_process self diff_cached) :: rest, r) /\
    (forall w1 p,
       subprocess_run (git_process self diff_cached) w = (w1, Return p) ->
       returncode p = 0 -> strip (stdout p) = ""%string ->
       w' = w1 /\ rest = [] /\ r = Return tt) /\
    (In (ERun (git_process self (commit_cmd message))) rest ->
     exists w1 p,
       subprocess_run (git_process self diff_cached) w = (w1, Return p) /\
       returncode p = 0 /\ strip (stdout p) <> ""%string) /\
    (forall w1 p,
       subprocess_run (git_process self diff_cached) w = (w1, Return p) ->
       returncode p = 0 -> strip (stdout p) <> ""%string ->
       rest = [ERun (git_process self (commit_cmd message))]).
Proof.
  run_git. fold (git_process self diff_cached). fold (git_process self (commit_cmd message)).
  destruct (subprocess_run (git_process self diff_cached) w) as [w1 [p|e|]] eqn:Hd.
  2:{ exists w1, [], (Raise e). split; [reflexivity|].
      split; [intros ? ? [=]|]. split; [intros []|]. intros ? ? [=]. }
  2:{ exists w1, [], Diverge. split; [reflexivity|].
      split; [intros ? ? [=]|]. split; [intros []|]. intros ? ? [=]. }
  destruct (Z.eqb_spec (returncode p) 0) as [Hrc|Hrc]; cbn [negb].
  2:{ eexists w1, [], _. split; [reflexivity|].
      split; [intros ? ? [= <- <-] Hz; now contradiction Hrc|].
      split; [intros []|]. intros ? ? [= <- <-] Hz. now contradiction Hrc. }
  rewrite strip_idempotent.
  destruct (strip (stdout p)) as [|c out] eqn:Hout; cbn [nonempty negb].
  - exists w1, [], (Return tt). split; [reflexivity|].
    split; [intros ? ? [= <- <-] _ _; repeat split|].
    split; [intros []|]. intros ? ? [= <- <-] _ Hne. rewrite Hout in Hne.
    now contradiction Hne.
  - destruct (subprocess_run (git_process self (commit_cmd message)) w1) as [w2 r2].
    exists w2, [ERun (git_process self (commit_cmd message))],
      (match r2 with
       | Return p2 =>
           if negb (returncode p2 =? 0)
           then Raise (CalledProcessError (returncode p2) (commit_cmd message)
                         (stdout p2) (stderr p2))
           else Return tt
       | Raise e => Raise e
       | Diverge => Diverge
       end).
    split.
    { destruct r2 as [p2|e|]; [destruct (negb (returncode p2 =? 0))|..]; reflexivity. }
    split; [intros ? ? [= <- <-] _ Hs; rewrite Hout in Hs; discriminate Hs|].
    split; [|reflexivity].
    intros _. exists w1, p. split; [reflexivity|]. split; [exact Hrc|].
    rewrite Hout. discriminate.
Qed.

End Commit.

(** C8 at work: with nothing staged the listing is the only subprocess and
    [commit] returns; with a staged file the commit command follows. *)
Lemma C8_witness :
  commit publisher "MASQUE: automated fix (tests passed)" nothing_staged =
    (nothing_staged, [ERun (git_process publisher diff_cached)], Return tt) /\
  (let '(_, trace, r) :=
     commit publisher "MASQUE: automated fix (tests passed)" one_staged in
   trace = [ERun (git_process publisher diff_cached);
            ERun (git_process publisher
                    (commit_cmd "MASQUE: automated fix (tests passed)"))] /\
   r = Return tt).
Proof.
  split.
  - destruct (C8_commit_only_when_staged (os := mem_os) publisher
                "MASQUE: automated fix (tests passed)" nothing_staged)
      as (w' & rest & r & E & Hnone & _).
    edestruct Hnone as (Ew & Er & Eo); [reflexivity | reflexivity | reflexivity |].
    subst w' rest r. exact E.
  - vm_compute. split; reflexivity.
Defined.

End GitClaims.

(* ===================================================================== *)
(** * Test runner selector: facts about the two patterns *)
(* ===================================================================== *)

Module SelectorFacts.
Import PyStr Re PyVal Exn Pathlib Sys TestEval Observe Aux StrFacts ReFacts PathFacts.

(** A greedy repetition does at least what the rest of the pattern does
    without it. *)
Lemma greedy_falls_back p k prev s r :
  k prev s = Some r -> exists r', greedy p k prev s = Some r'.
Proof.
  intros Hk. destruct s as [|c s]; cbn [greedy]; [now exists r|].
  destruct (p c); [|now exists r].
  destruct (greedy p k (Some c) s) as [r'|]; [now exists r' | now exists r].
Qed.

(** It runs through a stretch of its class when the rest of the pattern
    matches behind the stretch. *)
Lemma greedy_through p k : forall a prev s,
  all_chars p a = true ->
  (forall prev', exists r, k prev' s = Some r) ->
  exists r, greedy p k prev (a ++ s) = Some r.
Proof.
  induction a as [|c a IH]; intros prev s Ha Hk.
  - destruct (Hk prev) as [r Hr]. now apply greedy_falls_back with r.
  - cbn [all_chars] in Ha. apply andb_true_iff in Ha as [Hc Ha].
    cbn [append greedy]. rewrite Hc.
    destruct (IH (Some c) s Ha Hk) as [r Hr]. rewrite Hr. now exists r.
Qed.

(** A match somewhere behind [pre] is found by the search. *)
Lemma search_from_behind ml re : forall pre prev s,
  (exists r, match_here ml re (prev_after prev pre) s = Some r) ->
  search_from ml re prev (pre ++ s) = true.
Proof.
  induction pre as [|c pre IH]; intros prev s [r Hr].
  - cbn [append prev_after] in *. destruct s; cbn [search_from]; now rewrite Hr.
  - cbn [append search_from].
    destruct (match_here ml re prev (String c (pre ++ s))); [reflexivity|].
    apply IH. now exists r.
Qed.

Lemma prev_after_app prev a b : prev_after prev (a ++ b) = prev_after (prev_after prev a) b.
Proof. revert prev. induction a as [|c a IH]; intros prev; [reflexivity | apply IH]. Qed.

(** Behind the start of a line, [^] holds under MULTILINE. *)
Lemma at_bol_ends_line pre : ends_line pre -> at_bol true (prev_after None pre) = true.
Proof.
  intros [->|[pre' ->]]; [reflexivity|].
  rewrite prev_after_app. reflexivity.
Qed.

(** A line that starts, after blanks, with def, blanks and test is found by
    the pattern of [_looks_like_pytest_test]. *)
Lemma def_test_found pre indent gap post :
  ends_line pre ->
  all_chars isspace indent = true ->
  all_chars isspace gap = true -> gap <> ""%string ->
  search true def_test_re (pre ++ indent ++ "def" ++ gap ++ "test" ++ post) = true.
Proof.
  intros Hpre Hindent Hgap Hne. unfold search. apply search_from_behind.
  unfold def_test_re. cbn [app lit match_here]. rewrite (at_bol_ends_line _ Hpre).
  apply greedy_through; [exact Hindent|]. intros prev'.
  cbn [append match_here ch]. rewrite !Ascii.eqb_refl.
  destruct gap as [|g gap]; [now contradiction Hne|].
  cbn [all_chars] in Hgap. apply andb_true_iff in Hgap as [Hg Hgap].
  cbn [append]. rewrite Hg.
  apply greedy_through; [exact Hgap|]. intros prev''.
  cbn [append match_here ch]. rewrite !Ascii.eqb_refl. now exists post.
Qed.

(** A line that starts with "from .. import" and a blank is found by the
    pattern of [_looks_like_relative_import_test]. *)
Lemma relative_import_found pre post :
  ends_line pre ->
  search true relative_import_re (pre ++ "from .. import " ++ post) = true.
Proof.
  intros Hpre. unfold search. apply search_from_behind.
  unfold relative_import_re. cbn [app lit match_here]. rewrite (at_bol_ends_line _ Hpre).
  destruct (greedy_falls_back isspace (fun _ s => Some s) (Some " "%char) post post eq_refl)
    as [r' Hr'].
  enough (G : forall prev', exists r,
             match_here true
               [One (ch "f"); One (ch "r"); One (ch "o"); One (ch "m");
                Plus isspace; One (ch "."); Opt (ch "."); Star nonspace;
                Plus isspace; One (ch "i"); One (ch "m"); One (ch "p");
                One (ch "o"); One (ch "r"); One (ch "t"); Plus isspace]
               prev' ("from .. import " ++ post) = Some r).
  { destruct (G (prev_after None pre)) as [r Hr]. eapply greedy_falls_back. exact Hr. }
  intros prev'. cbn. rewrite Hr'. now exists r'.
Qed.

End SelectorFacts.

(* ===================================================================== *)
(** * Test runner selector: discovered test files *)
(* ===================================================================== *)

Module DiscoveryFacts.
Import PyStr Re PyVal Exn Pathlib Sys TestEval Observe Aux StrFacts ReFacts PathFacts.

Lemma prefix_nil s : prefix "" s = true.
Proof. now destruct s. Qed.

Lemma prefix_app a b : prefix a (a ++ b) = true.
Proof.
  induction a as [|c a IH]; cbn [append]; [apply prefix_nil|].
  cbn [prefix]. destruct (ascii_dec c c) as [_|Hne]; [exact IH | now contradiction Hne].
Qed.

Lemma rev_app a b : rev (a ++ b) = rev b ++ rev a.
Proof.
  induction a as [|c a IH]; cbn [append rev].
  - now rewrite append_nil_r.
  - now rewrite IH, append_assoc.
Qed.

Lemma rev_involutive s : rev (rev s) = s.
Proof.
  induction s as [|c s IH]; [reflexivity|].
  cbn [rev]. rewrite rev_app, IH. reflexivity.
Qed.

Lemma endswith_app a b : endswith (a ++ b) b = true.
Proof. unfold endswith. rewrite rev_app. apply prefix_app. Qed.

Lemma startswith_app a b : startswith (a ++ b) a = true.
Proof. apply prefix_app. Qed.

Lemma endswith_single p c :
  endswith p (String c "") = true -> exists p', p = p' ++ String c "".
Proof.
  unfold endswith. cbn [rev append]. rewrite prefix_single.
  destruct (rev p) as [|a x] eqn:E; [discriminate|].
  intros H. apply Ascii.eqb_eq in H. subst a.
  exists (rev x). rewrite <- (rev_involutive p), E. reflexivity.
Qed.

Lemma has_char_dot_ne s : has_char "/" s = true -> s <> "."%string.
Proof. intros H ->. discriminate H. Qed.

(** The name of a file put under a directory is the file's own name. *)
Lemma name_under dir f :
  has_char "/" f = false ->
  name (dir ++ String "/" f) = f.
Proof.
  intros Hf. unfold name.
  assert (Hne : dir ++ String "/" f <> "."%string).
  { apply has_char_dot_ne. rewrite has_char_app. simpl. now rewrite orb_true_r. }
  apply String.eqb_neq in Hne. rewrite Hne.
  unfold rfind. rewrite (rfind_from_last "/" dir f 0 (Z.le_refl 0) Hf).
  fold (len dir). destruct (Z.ltb_spec (0 + len dir) 0) as [Hlt|_].
  - pose proof (len_nonneg dir). lia.
  - change (dir ++ String "/" f) with (dir ++ "/" ++ f). rewrite <- append_assoc.
    replace (0 + len dir + 1) with (len (dir ++ "/")) by (rewrite len_app; reflexivity).
    apply slice_suffix.
Qed.

Lemma name_of_join root f :
  has_char "/" f = false -> f <> "."%string ->
  name (joinpath root f) = f.
Proof.
  intros Hf Hdot. unfold joinpath.
  destruct (String.eqb root ".").
  - unfold name. apply String.eqb_neq in Hdot. rewrite Hdot.
    unfold rfind. rewrite (rfind_from_absent _ _ _ Hf). reflexivity.
  - destruct (endswith root "/") eqn:E.
    + apply endswith_single in E as [root' ->]. rewrite append_assoc.
      now apply name_under.
    + now apply name_under.
Qed.

Lemma has_char_slice c s lo hi : has_char c s = false -> has_char c (slice s lo hi) = false.
Proof. intros H. unfold slice. now apply has_char_substring. Qed.

Lemma name_no_sep p : has_char "/" (name p) = false.
Proof.
  destruct (name p) as [|c n] eqn:E; [reflexivity|].
  assert (Hn : name p <> ""%string) by (rewrite E; discriminate).
  destruct (name_split p Hn) as (_ & _ & H). now rewrite E in H.
Qed.

Lemma stem_no_sep p : has_char "/" (stem p) = false.
Proof.
  unfold stem. pose proof (name_no_sep p) as H.
  destruct ((0 <? rfind (name p) ".") && (rfind (name p) "." <? len (name p) - 1));
    [now apply has_char_slice | exact H].
Qed.

(** Both candidate paths have a name the pytest check accepts, whatever the
    text of the file is. *)
Lemma candidates_look_like_pytest tests_root scanned text tf :
  In tf (candidates tests_root scanned) ->
  _looks_like_pytest_test text tf = true.
Proof.
  intros [<-|[<-|[]]]; unfold _looks_like_pytest_test;
    destruct (contains "import pytest" text); try reflexivity;
    destruct (search true def_test_re text); try reflexivity.
  - rewrite name_of_join.
    + now rewrite endswith_app, orb_true_r.
    + rewrite has_char_app, stem_no_sep. reflexivity.
    + intros E. apply (f_equal String.length) in E.
      rewrite length_append in E. simpl in E. lia.
  - rewrite name_of_join.
    + change ("test_" ++ stem scanned ++ ".py") with ("test_" ++ (stem scanned ++ ".py")).
      now rewrite startswith_app.
    + rewrite !has_char_app, stem_no_sep. reflexivity.
    + discriminate.
Qed.

End DiscoveryFacts.

(* ===================================================================== *)
(** * Test runner selector: the results of [evaluate] *)
(* ===================================================================== *)

Module TestClaims.
Import PyStr Re PyVal Exn Pathlib Sys TestEval MemFS Observe Aux Examples.
Import StrFacts SelectorFacts DiscoveryFacts.

Ltac run_eval :=
  cbv beta iota zeta delta
    [evaluate _find_test_file _candidate_test_paths first_existing choose_runner
     TestEval._run bind ret raise do_exists do_resolve do_read_text do_run try_except].

Section Evaluate.
Context {W : Type} {os : OS W}.
Variable self : UnitTestEvaluationAgent.

(** The command of the pytest runner for a test file. *)
Let pytest_cmd (tf : string) : list string := [sys_executable self; "-m"; "pytest"; tf].

(** C10.  When the scanned path does not exist, [evaluate] returns runner
    none, passed false, an empty test file and exit code 2, after nothing but
    the resolution of the path and the existence test.  When the scanned file
    exists and neither candidate test file does, it returns runner none,
    passed false, an empty test file and exit code 3.  When a candidate
    exists and the test subprocess runs into its timeout, it returns passed
    false and exit code 124 with the output captured so far.  The three codes
    differ. *)
Theorem C10_exit_codes (p : string) (w : W) :
  let scanned := resolve p w in
  let tests_root := resolve (joinpath (repo_root self) (tests_dir self)) w in
  (path_exists scanned w = false ->
   evaluate self p w =
     (w, [EResolve p; EExists scanned],
      Return {| scanned_file := scanned; test_file := ""; runner := "none";
                passed := false; exit_code := 2; stdout := ""; stderr := "";
                notes := "Scanned file does not exist." |})) /\
  (path_exists scanned w = true ->
   List.find (fun c => path_exists c w) (candidates tests_root scanned) = None ->
   exists trace res,
     evaluate self p w = (w, trace, Return res) /\
     runner res = "none"%string /\ passed res = false /\
     test_file res = ""%string /\ exit_code res = 3 /\
     existsb (fun e => match e with ERun _ => true | _ => false end) trace = false) /\
  (forall tf text w' out err,
     path_exists scanned w = true ->
     List.find (fun c => path_exists c w) (candidates tests_root scanned) = Some tf ->
     read_text Replace tf w = Return text ->
     subprocess_run (test_process self (pytest_cmd tf)) w
       = (w', Raise (TimeoutExpired out err)) ->
     exists trace res,
       evaluate self p w = (w', trace, Return res) /\
       runner res = "pytest"%string /\ passed res = false /\
       test_file res = tf /\ exit_code res = 124 /\
       stdout res = opt_text out /\ stderr res = opt_text err) /\
  (2 <> 3 /\ 2 <> 124 /\ 3 <> 124).
Proof.
  intros scanned tests_root.
  split; [|split; [|split]].
  - intros Hmissing. run_eval. fold scanned. now rewrite Hmissing.
  - intros Hthere Hnone. run_eval. fold scanned. rewrite Hthere. cbn [negb].
    fold tests_root. unfold candidates, List.find in Hnone.
    destruct (path_exists (joinpath tests_root (stem scanned ++ "_test.py")) w);
      [discriminate|].
    destruct (path_exists (joinpath tests_root ("test_" ++ stem scanned ++ ".py")) w);
      [discriminate|].
    eexists _, _. split; [reflexivity|]. repeat split.
  - intros tf text w' out err Hthere Hfound Hread Hrun.
    assert (Hpy : _looks_like_pytest_test text tf = true).
    { apply candidates_look_like_pytest with tests_root scanned.
      now apply find_some in Hfound as [Hin _]. }
    run_eval. fold scanned. rewrite Hthere. cbn [negb].
    fold tests_root. unfold candidates, List.find in Hfound.
    set (c1 := joinpath tests_root (stem scanned ++ "_test.py")) in *.
    set (c2 := joinpath tests_root ("test_" ++ stem scanned ++ ".py")) in *.
    destruct (path_exists c1 w).
    + assert (E : tf = c1) by congruence. subst tf. rewrite Hread, Hpy.
      fold (pytest_cmd c1). fold (test_process self (pytest_cmd c1)).
      rewrite Hrun. eexists _, _. split; [reflexivity|]. repeat split.
    + destruct (path_exists c2 w); [|discriminate].
      assert (E : tf = c2) by congruence. subst tf. rewrite Hread, Hpy.
      fold (pytest_cmd c2). fold (test_process self (pytest_cmd c2)).
      rewrite Hrun. eexists _, _. split; [reflexivity|]. repeat split.
  - repeat split; discriminate.
Qed.

(** The decision of [evaluate] names the runner [select_runner] gives; it
    raises nothing, and only the walk for the module name can fail to end. *)
Lemma choose_runner_selects (text tf : string) (w : W) :
  exists trace o,
    choose_runner self text tf w = (w, trace, o) /\
    (o = Diverge \/ exists cmd, o = Return (select_runner text tf, cmd)) /\
    (_looks_like_pytest_test text tf = true ->
     trace = [] /\ o = Return ("pytest"%string, pytest_cmd tf)) /\
    (_looks_like_pytest_test text tf = false ->
     _looks_like_relative_import_test text = false ->
     trace = [] /\ o = Return ("python-file"%string, [sys_executable self; tf])).
Proof.
  unfold choose_runner, select_runner.
  destruct (_looks_like_pytest_test text tf).
  - eexists _, _. split; [reflexivity|]. split; [right; now eexists|].
    split; [now split | discriminate].
  - destruct (_looks_like_relative_import_test text).
    + cbv beta iota zeta delta [bind ret].
      assert (Hwalk : forall fuel cur parts, exists t r,
                 walk_up self fuel cur parts w = (w, t, r) /\
                 (r = Diverge \/ exists x, r = Return x)).
      { induction fuel as [|fuel IH]; intros cur parts; cbn [walk_up];
          cbv beta iota zeta delta [bind ret diverge do_exists];
          destruct (String.eqb cur (repo_root self));
          try (eexists _, _; split; [reflexivity | right; now eexists]);
          destruct (path_exists (joinpath cur "__init__.py") w);
          try (eexists _, _; split; [reflexivity | right; now eexists]).
        - eexists _, _. split; [reflexivity | now left].
        - destruct (IH (parent cur) (name cur :: parts)) as (t & r & E & Hr).
          rewrite E. eexists _, _. split; [reflexivity | exact Hr]. }
      unfold _module_name_for_file. cbv beta iota zeta delta [bind ret do_exists].
      destruct (Hwalk (String.length tf) (parent tf) [stem tf]) as (t & r & E & Hr).
      rewrite E. destruct Hr as [->|[[cur parts] ->]].
      * eexists _, _. split; [reflexivity|]. split; [now left|]. split; discriminate.
      * destruct (String.eqb cur (repo_root self)).
        -- eexists _, _. split; [reflexivity|]. split; [right; now eexists|].
           split; discriminate.
        -- eexists _, _. split; [reflexivity|]. split; [right; now eexists|].
           split; discriminate.
    + eexists _, _. split; [reflexivity|]. split; [right; now eexists|].
      split; [discriminate | now split].
Qed.

(** Whatever the text of a discovered test file is, [evaluate] runs it under
    pytest: a result of [evaluate] names the runner none or the runner
    pytest, never python-module or python-file. *)
Lemma evaluate_runner_is_pytest (p : string) (w w' : W) trace res :
  evaluate self p w = (w', trace, Return res) ->
  runner res = "none"%string \/ runner res = "pytest"%string.
Proof.
  run_eval.
  destruct (path_exists (resolve p w) w); cbn [negb]; [|intros [= _ _ <-]; now left].
  set (tests_root := resolve (joinpath (repo_root self) (tests_dir self)) w).
  set (c1 := joinpath tests_root (stem (resolve p w) ++ "_test.py")).
  set (c2 := joinpath tests_root ("test_" ++ stem (resolve p w) ++ ".py")).
  assert (H1 : forall text, _looks_like_pytest_test text c1 = true).
  { intros text. apply candidates_look_like_pytest with tests_root (resolve p w).
    now left. }
  assert (H2 : forall text, _looks_like_pytest_test text c2 = true).
  { intros text. apply candidates_look_like_pytest with tests_root (resolve p w).
    right. now left. }
  destruct (path_exists c1 w).
  - destruct (read_text Replace c1 w) as [text|e|]; [|intros E; discriminate E..].
    rewrite H1.
    destruct (subprocess_run _ w) as [w2 [cp|e|]]; [| |intros E; discriminate E].
    + intros [= _ _ <-]. now right.
    + destruct e; try (intros E; discriminate E). intros [= _ _ <-]. now right.
  - destruct (path_exists c2 w); [|intros [= _ _ <-]; now left].
    destruct (read_text Replace c2 w) as [text|e|]; [|intros E; discriminate E..].
    rewrite H2.
    destruct (subprocess_run _ w) as [w2 [cp|e|]]; [| |intros E; discriminate E].
    + intros [= _ _ <-]. now right.
    + destruct e; try (intros E; discriminate E). intros [= _ _ <-]. now right.
Qed.

(** C7, amended.  For a test file given by its path and its text, the
    runner is chosen by the pytest check first: the text contains "import
    pytest", or a line of it starts, after blanks, with def, blanks and test,
    or the name of the file starts with test_ or ends with _test.py.  So a
    text with a line [def test_addition] selects pytest, whether or not it
    has relative imports.  A file that fails the whole pytest check, the test
    of its name included, selects python-module when a line of its text
    starts with from, one or two dots and an import, as "from .. import
    target" does, and python-file otherwise.  The decision of [evaluate]
    names exactly that runner. *)
Theorem C7_runner_selection (text tf pre indent post : string) (w : W) :
  (_looks_like_pytest_test text tf =
     contains "import pytest" text || search true def_test_re text
     || startswith (name tf) "test_" || endswith (name tf) "_test.py") /\
  (ends_line pre -> all_chars isspace indent = true ->
   text = pre ++ indent ++ "def test_addition" ++ post ->
   select_runner text tf = "pytest"%string) /\
  (_looks_like_pytest_test text tf = true -> select_runner text tf = "pytest"%string) /\
  (_looks_like_pytest_test text tf = false ->
   _looks_like_relative_import_test text = true ->
   select_runner text tf = "python-module"%string) /\
  (_looks_like_pytest_test text tf = false ->
   _looks_like_relative_import_test text = false ->
   select_runner text tf = "python-file"%string) /\
  (ends_line pre -> text = pre ++ "from .. import target" ++ post ->
   _looks_like_relative_import_test text = true) /\
  (exists trace o,
     choose_runner self text tf w = (w, trace, o) /\
     (o = Diverge \/ exists cmd, o = Return (select_runner text tf, cmd))).
Proof.
  split; [|split; [|split; [|split; [|split; [|split]]]]].
  - unfold _looks_like_pytest_test.
    destruct (contains "import pytest" text); [reflexivity|].
    now destruct (search true def_test_re text).
  - intros Hpre Hindent ->. unfold select_runner, _looks_like_pytest_test.
    destruct (contains "import pytest" _); [reflexivity|].
    change (pre ++ indent ++ "def test_addition" ++ post)
      with (pre ++ indent ++ "def" ++ " " ++ "test" ++ ("_addition" ++ post)).
    now rewrite def_test_found.
  - unfold select_runner. now intros ->.
  - unfold select_runner. now intros -> ->.
  - unfold select_runner. now intros -> ->.
  - intros Hpre ->. unfold _looks_like_relative_import_test.
    change (pre ++ "from .. import target" ++ post)
      with (pre ++ "from .. import " ++ ("target" ++ post)).
    now apply relative_import_found.
  - destruct (choose_runner_selects text tf w) as (trace & o & E & Ho & _).
    now exists trace, o.
Qed.

End Evaluate.

(** The run of [evaluate] on the sample repository, whose test is a driver
    script with a relative import. *)
Lemma driver_run :
  evaluate tester program repo =
    (repo,
     [EResolve program; EExists program; EResolve "/repo/python_testcases";
      EExists driver_test; ERead driver_test;
      ERun (test_process tester ["/usr/bin/python3"; "-m"; "pytest"; driver_test])],
     Return {| scanned_file := program; test_file := driver_test; runner := "pytest";
               passed := true; exit_code := 0; stdout := ""; stderr := "";
               notes := "OK" |}).
Proof. vm_compute. reflexivity. Qed.

(** Counterexample to C7 as stated: the test file bitcount_test.py found for
    bitcount.py has a relative import and neither "import pytest" nor a line
    with "def test" in its text, and [evaluate] runs it under pytest, not as
    a module; and a discovered file with neither marker nor relative import
    selects pytest too, not the plain file runner. *)
Lemma C7_counterexample :
  _looks_like_relative_import_test driver_text = true /\
  contains "import pytest" driver_text = false /\
  search true def_test_re driver_text = false /\
  (exists w' trace res,
     evaluate tester program repo = (w', trace, Return res) /\
     test_file res = driver_test /\
     runner res = "pytest"%string /\ runner res <> "python-module"%string) /\
  _looks_like_relative_import_test "print(1)" = false /\
  select_runner "print(1)" driver_test = "pytest"%string /\
  select_runner "print(1)" driver_test <> "python-file"%string.
Proof.
  split; [reflexivity|]. split; [reflexivity|]. split; [reflexivity|].
  split.
  - eexists _, _, _. split; [exact driver_run|].
    split; [reflexivity|]. split; [reflexivity | discriminate].
  - split; [reflexivity|]. split; [reflexivity | vm_compute; discriminate].
Qed.

(** C7 at work: under a name the pytest check does not accept, the driver
    script selects the module runner and a plain script the file runner; a
    text with [def test_addition] selects pytest under any name. *)
Lemma C7_witness :
  select_runner driver_text "/repo/python_testcases/driver.py" = "python-module"%string /\
  select_runner "print(1)" "/repo/python_testcases/driver.py" = "python-file"%string /\
  select_runner ("import target" ++ nl ++ "def test_addition():" ++ nl ++ "    pass")
                "/repo/python_testcases/driver.py" = "pytest"%string /\
  _looks_like_relative_import_test ("from .. import target" ++ nl) = true.
Proof.
  assert (N1 : _looks_like_pytest_test driver_text "/repo/python_testcases/driver.py" = false)
    by (vm_compute; reflexivity).
  assert (R1 : _looks_like_relative_import_test driver_text = true)
    by (vm_compute; reflexivity).
  assert (N2 : _looks_like_pytest_test "print(1)" "/repo/python_testcases/driver.py" = false)
    by (vm_compute; reflexivity).
  assert (R2 : _looks_like_relative_import_test "print(1)" = false)
    by (vm_compute; reflexivity).
  assert (L : ends_line ("import target" ++ nl)) by (right; now exists "import target"%string).
  assert (L0 : ends_line "") by now left.
  destruct (C7_runner_selection (os := mem_os) tester driver_text
              "/repo/python_testcases/driver.py" "" "" "" repo)
    as (_ & _ & _ & Hmod & _).
  destruct (C7_runner_selection (os := mem_os) tester "print(1)"
              "/repo/python_testcases/driver.py" "" "" "" repo)
    as (_ & _ & _ & _ & Hfile & _).
  destruct (C7_runner_selection (os := mem_os) tester
              ("import target" ++ nl ++ "def test_addition():" ++ nl ++ "    pass")
              "/repo/python_testcases/driver.py"
              ("import target" ++ nl) "" ("():" ++ nl ++ "    pass") repo)
    as (_ & Hdef & _).
  destruct (C7_runner_selection (os := mem_os) tester ("from .. import target" ++ nl)
              "/repo/python_testcases/driver.py" "" "" nl repo)
    as (_ & _ & _ & _ & _ & Hrel & _).
  split; [exact (Hmod N1 R1)|].
  split; [exact (Hfile N2 R2)|].
  split; [exact (Hdef L eq_refl eq_refl) | exact (Hrel L0 eq_refl)].
Defined.

(** C10 at work: a scanned path that does not exist, the repository without
    tests, and a test that runs into the timeout. *)
Lemma C10_witness :
  (exists res,
     evaluate tester "/repo/python_programs/missing.py" repo
       = (repo, [EResolve "/repo/python_programs/missing.py";
                 EExists "/repo/python_programs/missing.py"], Return res) /\
     runner res = "none"%string /\ exit_code res = 2) /\
  (exists trace res,
     evaluate tester program repo_without_tests = (repo_without_tests, trace, Return res) /\
     runner res = "none"%string /\ exit_code res = 3) /\
  (exists trace res,
     evaluate tester program repo_hanging = (repo_hanging, trace, Return res) /\
     passed res = false /\ exit_code res = 124).
Proof.
  assert (A1 : path_exists (resolve "/repo/python_programs/missing.py" repo) repo = false)
    by (vm_compute; reflexivity).
  assert (B1 : path_exists (resolve program repo_without_tests) repo_without_tests = true)
    by (vm_compute; reflexivity).
  assert (B2 : List.find (fun c => path_exists c repo_without_tests)
                 (candidates
                    (resolve (joinpath (TestEval.repo_root tester) (tests_dir tester))
                       repo_without_tests)
                    (resolve program repo_without_tests)) = None)
    by (vm_compute; reflexivity).
  assert (C1 : path_exists (resolve program repo_hanging) repo_hanging = true)
    by (vm_compute; reflexivity).
  assert (C2 : List.find (fun c => path_exists c repo_hanging)
                 (candidates
                    (resolve (joinpath (TestEval.repo_root tester) (tests_dir tester))
                       repo_hanging)
                    (resolve program repo_hanging)) = Some driver_test)
    by (vm_compute; reflexivity).
  assert (C3 : read_text Replace driver_test repo_hanging = Return driver_text)
    by (vm_compute; reflexivity).
  destruct (C10_exit_codes (os := mem_os) tester "/repo/python_programs/missing.py" repo)
    as (Ha & _).
  destruct (C10_exit_codes (os := mem_os) tester program repo_without_tests)
    as (_ & Hb & _).
  destruct (C10_exit_codes (os := mem_os) tester program repo_hanging)
    as (_ & _ & Hc & _).
  split; [|split].
  - eexists. split; [exact (Ha A1)|]. split; reflexivity.
  - destruct (Hb B1 B2) as (trace & res & E & Hr & _ & _ & Hx & _).
    exists trace, res. split; [exact E|]. split; assumption.
  - destruct (Hc driver_test driver_text repo_hanging (Some "collecting"%string) None
                C1 C2 C3 eq_refl)
      as (trace & res & E & _ & Hp & _ & Hx & _).
    exists trace, res. split; [exact E|]. split; assumption.
Defined.

End TestClaims.

(* ===================================================================== *)
(** * Fix applicator: every run, and the runs the claims leave out *)
(* ===================================================================== *)

Module ApplicatorFacts.
Import PyStr Recoverer PyVal PyJson Exn Pathlib Sys Sha256 FixBug MemFS Observe Aux Examples.
Import StrFacts PathFacts FixBugClaims Effects Samples.

Lemma with_suffix_returns p b :
  with_suffix p (suffix p ++ ".bak") = Return b -> b = (p ++ ".bak")%string.
Proof.
  intros H. destruct (name p) as [|c n] eqn:E.
  - unfold with_suffix in H. rewrite E in H. cbn [nonempty negb] in H.
    destruct (_ || _); discriminate H.
  - rewrite with_suffix_bak in H by (rewrite E; discriminate). now injection H as <-.
Qed.

Lemma truthy_str_nonempty s : truthy (VStr s) = true -> s <> ""%string.
Proof. now destruct s. Qed.

Section AnyRun.
Context {W : Type} {os : OS W}.
Variable loads : string -> option pyval.
Variable json_error : string -> string.
Variable self : BugFixAgent.

(** [fix_bug] before the proposed body is known: the run ends early, with
    the state it started from, no copy or write, and an error or skipped
    result when it returns; or a body has been proposed. *)
Lemma fix_bug_early (bug_report : pydict) (dry_run : bool) (w : W) :
  (exists t r,
     fix_bug loads json_error self bug_report dry_run w = (w, t, r) /\
     existsb is_mutation t = false /\
     (List.length (service_calls t) <= 1)%nat /\
     forall res, r = Return res ->
       get res "status" = VStr "error" \/ get res "status" = VStr "skipped") \/
  exists target original_code text fix_plan code,
    get bug_report "file_path" = VStr target /\ target <> ""%string /\
    path_exists target w = true /\
    read_text Ignore target w = Return original_code /\
    truthy (get_default bug_report "has_bug" (VBool false)) = true /\
    client self (request_for self bug_report original_code) = Reply text /\
    loads (_clean_json text) = Some fix_plan /\
    proposed_code fix_plan = Some code.
Proof.
  run_fix.
  destruct (truthy (get bug_report "file_path")) eqn:Ht; cbn [negb].
  2:{ left. eexists _, _. split; [reflexivity|]. split; [reflexivity|].
      split; [cbn; lia|]. intros res [= <-]; now left. }
  destruct (get bug_report "file_path") as [| | | |target| |] eqn:Hp;
    try (left; eexists _, _; split; [reflexivity|]; split; [reflexivity|];
         split; [cbn; lia|]; intros res E; discriminate E).
  pose proof (truthy_str_nonempty _ Ht) as Hn.
  destruct (path_exists target w) eqn:He; cbn [negb].
  2:{ left. eexists _, _. split; [reflexivity|]. split; [reflexivity|].
      split; [cbn; lia|]. intros res [= <-]; now left. }
  destruct (read_text Ignore target w) as [original_code|e|] eqn:Hr.
  2,3: left; eexists _, _; split; [reflexivity|]; split; [reflexivity|];
       split; [cbn; lia|]; intros res E; discriminate E.
  destruct (truthy (get_default bug_report "has_bug" (VBool false))) eqn:Hb; cbn [negb].
  2:{ left. eexists _, _. split; [reflexivity|]. split; [reflexivity|].
      split; [cbn; lia|]. intros res [= <-]. now right. }
  fold (request_for self bug_report original_code).
  destruct (client self (request_for self bug_report original_code)) as [text|msg] eqn:Hc.
  2:{ left. eexists _, _. split; [reflexivity|]. split; [reflexivity|].
      split; [cbn; lia|]. intros res [= <-]; now left. }
  destruct (loads (_clean_json text)) as [fix_plan|] eqn:Hl.
  2:{ left. eexists _, _. split; [reflexivity|]. split; [reflexivity|].
      split; [cbn; lia|]. intros res [= <-]; now left. }
  destruct (proposed_code fix_plan) as [code|] eqn:Hcode.
  { right. now exists target, original_code, text, fix_plan, code. }
  left. unfold proposed_code in Hcode.
  destruct (or_else fix_plan (VDict [])) as [| | | | | |plan];
    try (eexists _, _; split; [reflexivity|]; split; [reflexivity|];
         split; [cbn; lia|]; intros res E; discriminate E).
  destruct (or_else (get_default plan "fixed_code" (VStr "")) (VStr ""));
    try discriminate Hcode;
    (eexists _, _; split; [reflexivity|]; split; [reflexivity|];
     split; [cbn; lia|]; intros res E; discriminate E).
Qed.

(** The status of a result [fix_bug] returns. *)
Lemma fix_bug_status (bug_report : pydict) (dry_run : bool) (w w' : W)
    (trace : list event) (res : pydict) :
  fix_bug loads json_error self bug_report dry_run w = (w', trace, Return res) ->
  exists s, get res "status" = VStr s /\ In s fix_statuses.
Proof.
  intros Hrun.
  destruct (fix_bug_early bug_report dry_run w)
    as [(t & r0 & E & _ & _ & Hst)|
        (target & original_code & text & fix_plan & code &
         Hp & Hn & He & Hr & Hb & Hc & Hl & Hcode)].
  { rewrite E in Hrun. injection Hrun as _ _ ->.
    destruct (Hst res eq_refl) as [Hs|Hs]; eexists; (split; [exact Hs|]); cbn; tauto. }
  pose proof (fix_bug_reaches_body loads json_error self bug_report target original_code w
                Hp Hn He Hr text code fix_plan Hb Hc Hl Hcode dry_run) as Hbody.
  cbv zeta in Hbody. rewrite Hbody in Hrun. clear Hbody.
  destruct (negb (nonempty (strip (_strip_code_fences code)))).
  { injection Hrun as _ _ <-. eexists. split; [reflexivity|]. cbn. tauto. }
  destruct (String.eqb (_sha256 (_strip_code_fences code)) (_sha256 original_code)).
  { injection Hrun as _ _ <-. eexists. split; [reflexivity|]. cbn. tauto. }
  destruct dry_run.
  { injection Hrun as _ _ <-. eexists. split; [reflexivity|]. cbn. tauto. }
  destruct (with_suffix target (suffix target ++ ".bak")) as [backup|e|];
    [|discriminate Hrun..].
  destruct (copyfile target backup w) as [w1 [[]|e|]]; [|discriminate Hrun..].
  destruct (write_text target (_strip_code_fences code) w1) as [w2 [[]|e|]];
    [|discriminate Hrun..].
  destruct (read_text Ignore target w2) as [on_disk|e|]; [|discriminate Hrun..].
  destruct (String.eqb (_sha256 on_disk) (_sha256 original_code)).
  - destruct (copyfile backup target w2) as [w3 [[]|e|]]; [|discriminate Hrun..].
    injection Hrun as _ _ <-. eexists. split; [reflexivity|]. cbn. tauto.
  - injection Hrun as _ _ <-. eexists. split; [reflexivity|]. cbn. tauto.
Qed.

(** X1.  Whatever the report, the reply of the service and the
    behaviour of the file system are, a run of [fix_bug] calls the service at
    most once; its copies and writes are an initial part of: the copy of the
    target to target.bak, the write of the target, the copy of the backup
    over the target; with [dry_run] there is none; a run without copy or
    write leaves the state it started from; and a result it returns has one
    of seven statuses, which is write_failed or patched whenever a file was
    touched. *)
Theorem fix_bug_effect_discipline (bug_report : pydict) (dry_run : bool) (w w' : W)
    (trace : list event) (r : outcome pydict) :
  fix_bug loads json_error self bug_report dry_run w = (w', trace, r) ->
  (List.length (service_calls trace) <= 1)%nat /\
  (dry_run = true -> mutations trace = []) /\
  (mutations trace = [] -> w' = w) /\
  (mutations trace = [] \/
   exists target code rest,
     get bug_report "file_path" = VStr target /\
     fix_mutations target code = (mutations trace ++ rest)%list) /\
  (forall res, r = Return res ->
     exists s, get res "status" = VStr s /\ In s fix_statuses /\
               (mutations trace <> [] -> s = "write_failed"%string \/ s = "patched"%string)).
Proof.
  intros Hrun.
  assert (Hquiet : forall t,
             (forall res, r = Return res -> exists s, get res "status" = VStr s /\ In s fix_statuses) ->
             (w', trace) = (w, t) -> existsb is_mutation t = false ->
             (List.length (service_calls t) <= 1)%nat ->
             (List.length (service_calls trace) <= 1)%nat /\
             (dry_run = true -> mutations trace = []) /\
             (mutations trace = [] -> w' = w) /\
             (mutations trace = [] \/
              exists target code rest,
                get bug_report "file_path" = VStr target /\
                fix_mutations target code = (mutations trace ++ rest)%list) /\
             (forall res, r = Return res ->
                exists s, get res "status" = VStr s /\ In s fix_statuses /\
                          (mutations trace <> [] -> s = "write_failed"%string \/ s = "patched"%string))).
  { intros t Hs [= -> ->] Hm Hc.
    assert (Hnil : mutations t = []).
    { unfold mutations. clear - Hm. induction t as [|e t IH]; [reflexivity|].
      cbn in *. destruct (is_mutation e); [discriminate|]. now apply IH. }
    split; [exact Hc|]. split; [now intros _|]. split; [now intros _|].
    split; [now left|]. intros res Hres. destruct (Hs res Hres) as (s & E & Hin).
    exists s. split; [exact E|]. split; [exact Hin|]. intros Hne. now contradiction Hne. }
  destruct (fix_bug_early bug_report dry_run w)
    as [(t & r0 & E & Hm & Hc0 & Hst)|
        (target & original_code & text & fix_plan & code &
         Hp & Hn & He & Hr & Hb & Hc & Hl & Hcode)].
  { rewrite E in Hrun. injection Hrun as <- <- <-.
    apply (Hquiet t); try assumption; [|reflexivity].
    intros res Hres. destruct (Hst res Hres) as [Hs|Hs].
    - exists "error". split; [exact Hs|]. now left.
    - exists "skipped". split; [exact Hs|]. right. now left. }
  pose proof (fix_bug_reaches_body loads json_error self bug_report target original_code w
                Hp Hn He Hr text code fix_plan Hb Hc Hl Hcode dry_run) as Hbody.
  cbv zeta in Hbody. rewrite Hbody in Hrun. clear Hbody.
  set (asked := [EExists target; ERead target;
                 ECreate (request_for self bug_report original_code)]) in *.
  assert (Hasked : existsb is_mutation asked = false) by reflexivity.
  assert (Hcalls : (List.length (service_calls asked) <= 1)%nat) by (cbn; lia).
  destruct (negb (nonempty (strip (_strip_code_fences code)))).
  { apply (Hquiet asked); try assumption; [|now injection Hrun as <- <- _].
    intros res ->. injection Hrun as _ _ <-. exists "no_fixed_code".
    split; [reflexivity|]. cbn. tauto. }
  destruct (String.eqb (_sha256 (_strip_code_fences code)) (_sha256 original_code)).
  { apply (Hquiet asked); try assumption; [|now injection Hrun as <- <- _].
    intros res ->. injection Hrun as _ _ <-. exists "no_change".
    split; [reflexivity|]. cbn. tauto. }
  destruct dry_run.
  { apply (Hquiet asked); try assumption; [|now injection Hrun as <- <- _].
    intros res ->. injection Hrun as _ _ <-. exists "dry_run".
    split; [reflexivity|]. cbn. tauto. }
  destruct (with_suffix target (suffix target ++ ".bak")) as [backup|e|] eqn:Hsfx.
  2,3: apply (Hquiet asked); try assumption;
       [intros res ->; discriminate Hrun | now injection Hrun as <- <- _].
  apply with_suffix_returns in Hsfx. subst backup.
  set (fixed_code := _strip_code_fences code) in *.
  assert (Hloud : forall t rest,
             trace = (asked ++ t)%list ->
             t <> [] ->
             fix_mutations target fixed_code = (filter is_mutation t ++ rest)%list ->
             (forall res, r = Return res ->
                exists s, get res "status" = VStr s /\
                          (s = "write_failed"%string \/ s = "patched"%string)) ->
             filter is_mutation t <> [] ->
             (List.length (service_calls t) = 0)%nat ->
             (List.length (service_calls trace) <= 1)%nat /\
             (false = true -> mutations trace = []) /\
             (mutations trace = [] -> w' = w) /\
             (mutations trace = [] \/
              exists target code rest,
                get bug_report "file_path" = VStr target /\
                fix_mutations target code = (mutations trace ++ rest)%list) /\
             (forall res, r = Return res ->
                exists s, get res "status" = VStr s /\ In s fix_statuses /\
                          (mutations trace <> [] -> s = "write_failed"%string \/ s = "patched"%string))).
  { intros t rest -> Ht Hfm Hs Hm Hc0.
    assert (Em : mutations (asked ++ t) = filter is_mutation t) by reflexivity.
    split. { unfold service_calls in *. rewrite filter_app, length_app, Hc0. cbn. lia. }
    split; [discriminate|]. rewrite Em.
    split; [intros E; now contradiction Hm|].
    split. { right. exists target, fixed_code, rest. now split. }
    intros res Hres. destruct (Hs res Hres) as (s & E & Hor). exists s.
    split; [exact E|]. split; [|now intros _].
    destruct Hor as [->| ->]; cbn; tauto. }
  destruct (copyfile target (target ++ ".bak") w) as [w1 [[]|e|]].
  2,3: injection Hrun as <- <- <-;
       apply (Hloud [ECopy target (target ++ ".bak")] [EWrite target fixed_code; ECopy (target ++ ".bak") target]);
       try reflexivity; try discriminate.
  destruct (write_text target fixed_code w1) as [w2 [[]|e|]].
  2,3: injection Hrun as <- <- <-;
       apply (Hloud [ECopy target (target ++ ".bak"); EWrite target fixed_code]
                    [ECopy (target ++ ".bak") target]);
       try reflexivity; try discriminate.
  destruct (read_text Ignore target w2) as [on_disk|e|].
  2,3: injection Hrun as <- <- <-;
       apply (Hloud [ECopy target (target ++ ".bak"); EWrite target fixed_code; ERead target]
                    [ECopy (target ++ ".bak") target]);
       try reflexivity; try discriminate.
  destruct (String.eqb (_sha256 on_disk) (_sha256 original_code)).
  - destruct (copyfile (target ++ ".bak") target w2) as [w3 r3].
    injection Hrun as <- <- <-.
    apply (Hloud [ECopy target (target ++ ".bak"); EWrite target fixed_code; ERead target;
                  ECopy (target ++ ".bak") target] []);
      try reflexivity; try discriminate.
    intros res Hres. destruct r3 as [[]|e|]; try discriminate Hres.
    injection Hres as <-. exists "write_failed". split; [reflexivity | now left].
  - injection Hrun as <- <- <-.
    apply (Hloud [ECopy target (target ++ ".bak"); EWrite target fixed_code; ERead target]
                 [ECopy (target ++ ".bak") target]);
      try reflexivity; try discriminate.
    intros res [= <-]. exists "patched". split; [reflexivity | now right].
Qed.


(** X2.  A report whose "file_path" is falsy (missing, None, an
    empty text) gets the error result without any effect; a path that is a
    text but names no existing file gets the error result after the
    existence test alone; a truthy path that is no text makes [Path] raise
    TypeError before any effect.  In all three cases the state is the one the
    call started from. *)
Theorem unusable_path_is_reported (bug_report : pydict) (dry_run : bool) (w : W) :
  (truthy (get bug_report "file_path") = false ->
   fix_bug loads json_error self bug_report dry_run w =
     (w, [], Return [("status", VStr "error");
                     ("error", VStr "bug_report missing file_path");
                     ("bug_report", VDict bug_report)])) /\
  (forall target,
     get bug_report "file_path" = VStr target -> target <> ""%string ->
     path_exists target w = false ->
     fix_bug loads json_error self bug_report dry_run w =
       (w, [EExists target],
        Return [("status", VStr "error");
                ("error", VStr ("file_path does not exist: " ++ target));
                ("bug_report", VDict bug_report)])) /\
  (truthy (get bug_report "file_path") = true ->
   (forall s, get bug_report "file_path" <> VStr s) ->
   fix_bug loads json_error self bug_report dry_run w = (w, [], Raise TypeError)).
Proof.
  split; [|split].
  - intros Ht. run_fix. now rewrite Ht.
  - intros target Hp Hn He. run_fix. rewrite Hp, (truthy_path _ Hn). cbn [negb].
    now rewrite He.
  - intros Ht Hs. run_fix. rewrite Ht. cbn [negb].
    destruct (get bug_report "file_path") as [| | | |s| |]; try reflexivity.
    now contradiction (Hs s).
Qed.

End AnyRun.

Section OnAReadableFile.
Context {W : Type} {os : OS W}.
Variable loads : string -> option pyval.
Variable json_error : string -> string.
Variable self : BugFixAgent.
Variable bug_report : pydict.
Variables target original_code : string.
Variable w : W.

(** The report names a file that exists and can be read, and says that it
    has a bug. *)
Hypothesis Hpath : get bug_report "file_path" = VStr target.
Hypothesis Hname : target <> ""%string.
Hypothesis Hexists : path_exists target w = true.
Hypothesis Hread : read_text Ignore target w = Return original_code.
Hypothesis Hbug : truthy (get_default bug_report "has_bug" (VBool false)) = true.

Let asked : list event :=
  [EExists target; ERead target; ECreate (request_for self bug_report original_code)].

(** X3.  When the call of the service fails, [fix_bug] returns the
    error result with the text of the exception; when the reply cannot be
    decoded, even after cleaning, it returns the error result with the
    decoder's message and the reply as it came, uncleaned.  In both cases the
    service call is the last effect and the state is the one the call started
    from; the result has no fix plan. *)
Theorem service_failure_is_reported (dry_run : bool) (resp : reply) :
  client self (request_for self bug_report original_code) = resp ->
  (forall text, resp = Reply text -> loads (_clean_json text) = None) ->
  exists result,
    fix_bug loads json_error self bug_report dry_run w = (w, asked, Return result) /\
    get result "status" = VStr "error" /\
    get result "file_path" = VStr target /\
    lookup "fix_plan" result = None /\
    match resp with
    | Failure message =>
        get result "error" = VStr ("OpenAI API call failed: " ++ message) /\
        lookup "raw_response_text" result = None
    | Reply text =>
        get result "error" =
          VStr ("Could not parse JSON from model: " ++ json_error (_clean_json text)) /\
        get result "raw_response_text" = VStr text
    end.
Proof.
  intros Hresp Hbad. run_fix. rewrite Hpath, (truthy_path _ Hname). cbn [negb].
  rewrite Hexists. cbn [negb]. rewrite Hread, Hbug. cbn [negb].
  fold (request_for self bug_report original_code). rewrite Hresp.
  destruct resp as [text|message].
  - rewrite (Hbad text eq_refl). eexists. split; [reflexivity|]. now repeat split.
  - eexists. split; [reflexivity|]. now repeat split.
Qed.

(** X4.  When the reply decodes to a value from which no body can
    be read -- a truthy value that is no dict, such as a JSON array, or a
    dict whose "fixed_code" is truthy and no text -- [fix_bug] raises
    AttributeError: the expression that reads the body stands outside the
    [try].  Nothing has been copied or written by then. *)
Theorem malformed_plan_raises (dry_run : bool) (text : string) (fix_plan : pyval) :
  client self (request_for self bug_report original_code) = Reply text ->
  loads (_clean_json text) = Some fix_plan ->
  proposed_code fix_plan = None ->
  fix_bug loads json_error self bug_report dry_run w = (w, asked, Raise AttributeError) /\
  ((truthy fix_plan = true /\ is_dict fix_plan = false) \/
   exists plan, fix_plan = VDict plan /\
                truthy (get_default plan "fixed_code" (VStr "")) = true /\
                forall s, get_default plan "fixed_code" (VStr "") <> VStr s).
Proof.
  intros Hreply Hplan Hcode. split.
  - run_fix. rewrite Hpath, (truthy_path _ Hname). cbn [negb].
    rewrite Hexists. cbn [negb]. rewrite Hread, Hbug. cbn [negb].
    fold (request_for self bug_report original_code). rewrite Hreply, Hplan.
    unfold proposed_code in Hcode.
    destruct (or_else fix_plan (VDict [])) as [| | | | | |plan]; try reflexivity.
    destruct (or_else (get_default plan "fixed_code" (VStr "")) (VStr ""));
      try reflexivity; discriminate Hcode.
  - unfold proposed_code, or_else in Hcode.
    destruct (truthy fix_plan) eqn:Ht.
    + destruct fix_plan as [| | | | | |plan]; try (left; now split).
      right. exists plan. split; [reflexivity|].
      destruct (truthy (get_default plan "fixed_code" (VStr ""))) eqn:Hc; [|discriminate Hcode].
      split; [reflexivity|]. intros s E. rewrite E in Hcode. discriminate Hcode.
    + cbn in Hcode. discriminate Hcode.
Qed.

(** X5.  When the proposed body has another fingerprint, the copy to
    the backup and the write return, and the content read back differs in
    fingerprint from the original, [fix_bug] returns the patched result: the
    backup path is the path with .bak behind it, before_hash is the
    fingerprint of the original content and after_hash the fingerprint of
    what was read back from disk, not of the body that was proposed.  The
    re-read is the last effect, and on a file system that keeps its laws the
    backup holds the bytes the file had before the call. *)
Theorem patch_is_backed_up `{!FileSystemLaws W}
    (text code : string) (fix_plan : pyval) (w1 w2 : W) (on_disk : string) :
  client self (request_for self bug_report original_code) = Reply text ->
  loads (_clean_json text) = Some fix_plan ->
  proposed_code fix_plan = Some code ->
  name target <> ""%string ->
  strip (_strip_code_fences code) <> ""%string ->
  _sha256 (_strip_code_fences code) <> _sha256 original_code ->
  copyfile target (target ++ ".bak") w = (w1, Return tt) ->
  write_text target (_strip_code_fences code) w1 = (w2, Return tt) ->
  read_text Ignore target w2 = Return on_disk ->
  _sha256 on_disk <> _sha256 original_code ->
  fix_bug loads json_error self bug_report false w =
    (w2,
     (asked ++ [ECopy target (target ++ ".bak");
                EWrite target (_strip_code_fences code);
                ERead target])%list,
     Return [("status", VStr "patched"); ("file_path", VStr target);
             ("backup_path", VStr (target ++ ".bak"));
             ("before_hash", VStr (_sha256 original_code));
             ("after_hash", VStr (_sha256 on_disk));
             ("fix_plan", fix_plan)]) /\
  file_bytes (target ++ ".bak") w2 = file_bytes target w.
Proof.
  intros Hreply Hplan Hcode Hn Hne Hdiff Hc1 Hw Hr Hchanged.
  assert (Hbak : (target ++ ".bak")%string <> target) by (apply append_neq_self; discriminate).
  split.
  - pose proof (fix_bug_reaches_body loads json_error self bug_report target original_code w
                  Hpath Hname Hexists Hread text code fix_plan Hbug Hreply Hplan Hcode false)
      as Hbody.
    cbv zeta in Hbody. rewrite Hbody. clear Hbody.
    destruct (strip (_strip_code_fences code)); [now contradiction Hne|].
    cbn [nonempty negb].
    apply String.eqb_neq in Hdiff. rewrite Hdiff.
    rewrite (with_suffix_bak _ Hn), Hc1, Hw, Hr.
    apply String.eqb_neq in Hchanged. now rewrite Hchanged.
  - rewrite (write_text_frame _ _ _ _ _ (target ++ ".bak")%string Hw Hbak).
    now apply copyfile_dst.
Qed.

End OnAReadableFile.

(** The general properties at work on the sample repository: the service
    proposes a changed file, which is backed up and written. *)
Lemma fix_bug_effect_discipline_witness :
  exists w' rest,
    fix_bug json_loads no_message (fixer reply_changed) buggy_report false repo =
      (w',
       [EExists program; ERead program;
        ECreate (request_for (fixer reply_changed) buggy_report program_text);
        ECopy program (program ++ ".bak"); EWrite program body_changed; ERead program],
       Return [("status", VStr "patched"); ("file_path", VStr program);
               ("backup_path", VStr (program ++ ".bak"));
               ("before_hash", VStr (_sha256 program_text));
               ("after_hash", VStr (_sha256 body_changed));
               ("fix_plan", plan_of body_changed)]) /\
    fix_mutations program body_changed =
      ([ECopy program (program ++ ".bak"); EWrite program body_changed] ++ rest)%list.
Proof.
  pose (run := fix_bug (os := mem_os) json_loads no_message (fixer reply_changed)
                 buggy_report false repo).
  assert (E : run =
              (fst (fst run),
               [EExists program; ERead program;
                ECreate (request_for (fixer reply_changed) buggy_report program_text);
                ECopy program (program ++ ".bak"); EWrite program body_changed;
                ERead program],
               Return [("status", VStr "patched"); ("file_path", VStr program);
                       ("backup_path", VStr (program ++ ".bak"));
                       ("before_hash", VStr (_sha256 program_text));
                       ("after_hash", VStr (_sha256 body_changed));
                       ("fix_plan", plan_of body_changed)]))
    by (vm_compute; reflexivity).
  destruct (fix_bug_effect_discipline (os := mem_os) json_loads no_message
              (fixer reply_changed) buggy_report false repo _ _ _ E)
    as (_ & _ & _ & [Hm|(t & c & rest & Hp & Hm)] & _).
  - discriminate Hm.
  - injection Hp as <-. exists (fst (fst run)), rest. split; [exact E|].
    cbn in Hm. injection Hm as _ Hrest. rewrite <- Hrest. reflexivity.
Defined.

Lemma unusable_path_is_reported_witness :
  fix_bug json_loads no_message (fixer reply_changed)
    [("file", VStr "bitcount.py"); ("has_bug", VBool true)] false repo =
    (repo, [], Return [("status", VStr "error");
                       ("error", VStr "bug_report missing file_path");
                       ("bug_report",
                        VDict [("file", VStr "bitcount.py"); ("has_bug", VBool true)])]) /\
  fix_bug json_loads no_message (fixer reply_changed)
    [("file_path", VStr "/repo/python_programs/gcd.py"); ("has_bug", VBool true)] false repo =
    (repo, [EExists "/repo/python_programs/gcd.py"],
     Return [("status", VStr "error");
             ("error", VStr "file_path does not exist: /repo/python_programs/gcd.py");
             ("bug_report",
              VDict [("file_path", VStr "/repo/python_programs/gcd.py");
                     ("has_bug", VBool true)])]).
Proof.
  split.
  - apply (unusable_path_is_reported (os := mem_os)). reflexivity.
  - apply (proj1 (proj2 (unusable_path_is_reported (os := mem_os) json_loads no_message
                           (fixer reply_changed) _ false repo))
             "/repo/python_programs/gcd.py");
      [reflexivity | discriminate | reflexivity].
Defined.


Lemma service_failure_is_reported_witness :
  (exists result,
     fix_bug json_loads no_message fixer_offline buggy_report false repo =
       (repo,
        [EExists program; ERead program;
         ECreate (request_for fixer_offline buggy_report program_text)],
        Return result) /\
     get result "error" = VStr "OpenAI API call failed: Connection error.") /\
  (exists result,
     fix_bug json_loads no_message (fixer reply_prose) buggy_report false repo =
       (repo,
        [EExists program; ERead program;
         ECreate (request_for (fixer reply_prose) buggy_report program_text)],
        Return result) /\
     get result "error" = VStr "Could not parse JSON from model: Expecting value" /\
     get result "raw_response_text" = VStr reply_prose).
Proof.
  assert (Hname : program <> ""%string) by discriminate.
  assert (Hbad : forall text, Reply reply_prose = Reply text ->
                              json_loads (_clean_json text) = None)
    by (intros text [= <-]; vm_compute; reflexivity).
  split.
  - destruct (service_failure_is_reported (os := mem_os) json_loads no_message fixer_offline
                buggy_report program program_text repo
                eq_refl Hname eq_refl eq_refl eq_refl false
                (Failure "Connection error.") eq_refl)
      as (result & E & _ & _ & _ & Herr & _).
    + intros text E. discriminate E.
    + exists result. split; [exact E | exact Herr].
  - destruct (service_failure_is_reported (os := mem_os) json_loads no_message
                (fixer reply_prose) buggy_report program program_text repo
                eq_refl Hname eq_refl eq_refl eq_refl false
                (Reply reply_prose) eq_refl Hbad)
      as (result & E & _ & _ & _ & Herr & Hraw).
    exists result. split; [exact E|]. split; [exact Herr | exact Hraw].
Defined.

Lemma malformed_plan_raises_witness :
  fix_bug json_loads no_message (fixer reply_array) buggy_report false repo =
    (repo,
     [EExists program; ERead program;
      ECreate (request_for (fixer reply_array) buggy_report program_text)],
     Raise AttributeError).
Proof.
  assert (Hname : program <> ""%string) by discriminate.
  assert (Hplan : json_loads (_clean_json reply_array) =
                  Some (VList [VStr "fixed_code"; VStr "x = 1"]))
    by (vm_compute; reflexivity).
  exact (proj1 (malformed_plan_raises (os := mem_os) json_loads no_message (fixer reply_array)
                  buggy_report program program_text repo
                  eq_refl Hname eq_refl eq_refl eq_refl false reply_array
                  (VList [VStr "fixed_code"; VStr "x = 1"]) eq_refl Hplan eq_refl)).
Defined.

Lemma patch_is_backed_up_witness :
  exists w',
    fix_bug json_loads no_message (fixer reply_changed) buggy_report false repo =
      (w',
       [EExists program; ERead program;
        ECreate (request_for (fixer reply_changed) buggy_report program_text);
        ECopy program (program ++ ".bak"); EWrite program body_changed; ERead program],
       Return [("status", VStr "patched"); ("file_path", VStr program);
               ("backup_path", VStr (program ++ ".bak"));
               ("before_hash", VStr (_sha256 program_text));
               ("after_hash", VStr (_sha256 body_changed));
               ("fix_plan", plan_of body_changed)]) /\
    files w' (program ++ ".bak") = Some program_text /\
    files w' program = Some body_changed.
Proof.
  assert (Hname : program <> ""%string) by discriminate.
  assert (Hplan : json_loads (_clean_json reply_changed) = Some (plan_of body_changed))
    by (vm_compute; reflexivity).
  assert (Hn : name program <> ""%string) by (vm_compute; discriminate).
  assert (Hfix : _strip_code_fences body_changed = body_changed) by (vm_compute; reflexivity).
  assert (Hne : strip (_strip_code_fences body_changed) <> ""%string)
    by (vm_compute; discriminate).
  assert (Hdiff : _sha256 (_strip_code_fences body_changed) <> _sha256 program_text)
    by (vm_compute; discriminate).
  assert (Hchanged : _sha256 body_changed <> _sha256 program_text)
    by (vm_compute; discriminate).
  pose (w1 := fst (copyfile (OS := mem_os) program (program ++ ".bak") repo)).
  pose (w2 := fst (write_text (OS := mem_os) program (_strip_code_fences body_changed) w1)).
  assert (Hr : read_text (OS := mem_os) Ignore program w2 = Return body_changed)
    by (vm_compute; reflexivity).
  destruct (patch_is_backed_up (os := mem_os) json_loads no_message (fixer reply_changed)
              buggy_report program program_text repo
              eq_refl Hname eq_refl eq_refl eq_refl
              reply_changed body_changed (plan_of body_changed) w1 w2 body_changed
              eq_refl Hplan eq_refl Hn Hne Hdiff eq_refl eq_refl Hr Hchanged)
    as (E & Hb).
  rewrite Hfix in E. exists w2. split; [exact E|].
  split; [exact Hb | vm_compute; reflexivity].
Defined.

End ApplicatorFacts.

(* ===================================================================== *)
(** * Fence stripping of a proposed body *)
(* ===================================================================== *)

Module FenceFacts.
Import PyStr Re Recoverer Aux Observe StrFacts ReFacts RecovererFacts GitClaims SelectorFacts DiscoveryFacts Fences.

Lemma rstrip_keeps_nonspace d : isspace d = false -> forall a,
  rstrip (a ++ String d "") = a ++ String d "".
Proof.
  intros Hd. induction a as [|c a IH]; cbn [append rstrip].
  - now rewrite Hd.
  - rewrite IH. now destruct a.
Qed.

Lemma lstrip_blank_app w y : all_chars isspace w = true -> lstrip (w ++ y) = lstrip y.
Proof.
  induction w as [|c w IH]; cbn [all_chars append]; [reflexivity|].
  intros H. apply andb_true_iff in H as [Hc Hw]. cbn [lstrip]. rewrite Hc. now apply IH.
Qed.

Lemma lstrip_head s c r : lstrip s = String c r -> isspace c = false.
Proof.
  induction s as [|a s IH]; cbn [lstrip]; [discriminate|].
  destruct (isspace a) eqn:Ha; [exact IH|]. now intros [= <- _].
Qed.

Lemma lstrip_idempotent s : lstrip (lstrip s) = lstrip s.
Proof.
  destruct (lstrip s) as [|c r] eqn:E; [reflexivity|].
  cbn [lstrip]. now rewrite (lstrip_head _ _ _ E).
Qed.

Lemma rstrip_nil_blank s : rstrip s = ""%string -> all_chars isspace s = true.
Proof.
  induction s as [|c s IH]; cbn [rstrip all_chars]; [reflexivity|].
  destruct (rstrip s); [|discriminate].
  destruct (isspace c); [intros _; now apply IH | discriminate].
Qed.

Lemma blank_rstrip s : all_chars isspace s = true -> rstrip s = ""%string.
Proof.
  induction s as [|c s IH]; cbn [rstrip all_chars]; [reflexivity|].
  intros H. apply andb_true_iff in H as [Hc Hs]. now rewrite (IH Hs), Hc.
Qed.

Lemma blank_lstrip s : all_chars isspace s = true -> lstrip s = ""%string.
Proof.
  induction s as [|c s IH]; cbn [lstrip all_chars]; [reflexivity|].
  intros H. apply andb_true_iff in H as [Hc Hs]. now rewrite Hc, (IH Hs).
Qed.

(** A text is blank exactly when [strip] leaves nothing of it. *)
Lemma strip_nil_iff s : strip s = ""%string <-> all_chars isspace s = true.
Proof.
  unfold strip. split.
  - intros H. apply rstrip_nil_blank in H.
    destruct (lstrip_splits s) as (m & E & Hm). rewrite E, all_chars_app, Hm. exact H.
  - intros H. now rewrite (blank_lstrip _ H).
Qed.

(** A greedy repetition stops where its class ends, when the rest of the
    pattern matches there. *)
Lemma greedy_stops p k r : forall a prev s,
  all_chars p a = true ->
  k (prev_after prev a) s = Some r ->
  match s with String d _ => p d = false | EmptyString => True end ->
  greedy p k prev (a ++ s) = Some r.
Proof.
  induction a as [|c a IH]; intros prev s Ha Hk Hs.
  - cbn [append prev_after] in *. destruct s as [|d s]; cbn [greedy]; [exact Hk|].
    now rewrite Hs.
  - cbn [all_chars] in Ha. apply andb_true_iff in Ha as [Hc Ha].
    cbn [append greedy]. rewrite Hc. now rewrite (IH (Some c) s Ha Hk Hs).
Qed.

(** [\s*\n] on a run of blanks that is followed by another character. *)
Lemma greedy_blank_newline c rest : isspace c = false -> forall W prev,
  all_chars isspace W = true ->
  greedy isspace (match_here false [One (ch LF)]) prev (W ++ String c rest) =
  match behind_last_newline W with
  | Some w2 => Some (w2 ++ String c rest)
  | None => None
  end.
Proof.
  intros Hc.
  assert (Hlf : ch LF c = false).
  { unfold ch. destruct (Ascii.eqb_spec LF c) as [<-|]; [discriminate Hc | reflexivity]. }
  induction W as [|a W IH]; intros prev HW.
  - cbn [append greedy behind_last_newline]. rewrite Hc. cbn [match_here]. now rewrite Hlf.
  - cbn [all_chars] in HW. apply andb_true_iff in HW as [Ha HW].
    cbn [append greedy behind_last_newline]. rewrite Ha, (IH (Some a) HW).
    destruct (behind_last_newline W) as [w2|]; [reflexivity|].
    cbn [match_here]. now destruct (ch LF a).
Qed.

Lemma behind_last_newline_suffix W : forall w2,
  behind_last_newline W = Some w2 ->
  all_chars isspace W = true -> all_chars isspace w2 = true.
Proof.
  induction W as [|a W IH]; intros w2; cbn [behind_last_newline all_chars]; [discriminate|].
  intros H HW. apply andb_true_iff in HW as [Ha HW].
  destruct (behind_last_newline W) as [r|].
  - injection H as <-. now apply IH.
  - destruct (ch LF a); [|discriminate]. now injection H as <-.
Qed.

Lemma behind_last_newline_end W : behind_last_newline (W ++ nl) = Some ""%string.
Proof.
  induction W as [|a W IH]; [reflexivity|].
  cbn [append behind_last_newline]. now rewrite IH.
Qed.

Lemma behind_last_newline_start W : exists w2, behind_last_newline (nl ++ W) = Some w2.
Proof.
  cbn [nl append behind_last_newline].
  destruct (behind_last_newline W) as [r|]; [now exists r | now exists W].
Qed.

(** The opening fence with a language tag of letters, blanks up to a
    newline, and a text that starts with a character that is no blank. *)
Lemma fence_open_match lang W w2 c rest :
  all_chars is_alpha lang = true ->
  all_chars isspace W = true -> isspace c = false ->
  behind_last_newline W = Some w2 ->
  sub_empty false fence_open ("```" ++ lang ++ W ++ String c rest) = w2 ++ String c rest.
Proof.
  intros Hlang HW Hc Hw2. unfold fence_open. rewrite sub_empty_bol. fold fence_open.
  assert (Hm : match_here false fence_open None ("```" ++ lang ++ W ++ String c rest)
               = Some (w2 ++ String c rest)).
  { unfold fence_open. cbn [append match_here at_bol ch]. rewrite !Ascii.eqb_refl.
    destruct W as [|a W']; [discriminate Hw2|].
    apply greedy_stops.
    - exact Hlang.
    - cbn [match_here]. rewrite (greedy_blank_newline c rest Hc _ _ HW). now rewrite Hw2.
    - cbn [append]. cbn [all_chars] in HW. apply andb_true_iff in HW as [Ha _].
      clear - Ha. unfold isspace, is_alpha in *.
      destruct (N_of_ascii a) as [|p]; [discriminate Ha|].
      destruct ((65 <=? N.pos p)%N && (N.pos p <=? 90)%N) eqn:E1.
      + apply andb_true_iff in E1 as [H1 H2]. apply N.leb_le in H1, H2.
        exfalso. revert Ha. 
        repeat match goal with
               | |- context [(?x <=? ?y)%N] => destruct (N.leb_spec x y)
               | |- context [(?x =? ?y)%N] => destruct (N.eqb_spec x y)
               end; cbn; try discriminate; lia.
      + destruct ((97 <=? N.pos p)%N && (N.pos p <=? 122)%N) eqn:E2; [|reflexivity].
        apply andb_true_iff in E2 as [H1 H2]. apply N.leb_le in H1, H2.
        exfalso. revert Ha.
        repeat match goal with
               | |- context [(?x <=? ?y)%N] => destruct (N.leb_spec x y)
               | |- context [(?x =? ?y)%N] => destruct (N.eqb_spec x y)
               end; cbn; try discriminate; lia. }
  rewrite Hm.
  assert (Hsplit : exists m, ("```" ++ lang ++ W ++ String c rest)%string = m ++ (w2 ++ String c rest)).
  { destruct (match_here_splits (fun _ => true) false fence_open) with
      (prev := @None ascii) (s := ("```" ++ lang ++ W ++ String c rest)%string)
      (r := (w2 ++ String c rest)%string) as (m & E & _); [|exact Hm|now exists m].
    unfold fence_open. repeat constructor. }
  destruct Hsplit as (m & E). rewrite E at 2. rewrite E at 1.
  rewrite length_append.
  replace (String.length m + String.length (w2 ++ String c rest) - String.length (w2 ++ String c rest))%nat
    with (String.length m) by lia.
  apply drop_app.
Qed.

(** What the closing-fence pattern matches: a newline and three backticks
    at the end of the text, or before a newline that ends it. *)
Lemma fence_close_matches prev s r :
  match_here false fence_close prev s = Some r ->
  s = (nl ++ "```")%string \/ s = (nl ++ "```" ++ nl)%string.
Proof.
  unfold fence_close. cbn [match_here].
  destruct s as [|a1 s]; [discriminate|].
  destruct (ch LF a1) eqn:E1; [|discriminate].
  destruct s as [|a2 s]; [discriminate|].
  destruct (ch backtick a2) eqn:E2; [|discriminate].
  destruct s as [|a3 s]; [discriminate|].
  destruct (ch backtick a3) eqn:E3; [|discriminate].
  destruct s as [|a4 s]; [discriminate|].
  destruct (ch backtick a4) eqn:E4; [|discriminate].
  destruct (at_eol false s) eqn:E5; [|discriminate].
  intros _. unfold ch in *. apply Ascii.eqb_eq in E1, E2, E3, E4. subst.
  destruct s as [|a5 s]; [now left|].
  simpl in E5. apply andb_true_iff in E5 as [E5 E6].
  apply Ascii.eqb_eq in E5. subst a5. destruct s; [now right | discriminate E6].
Qed.

(** A closing fence at the very end of a text is what the second
    substitution removes, and nothing else. *)
Lemma sub_close_at_end : forall x prev,
  sub_from false fence_close 0 prev (x ++ nl ++ "```") = x.
Proof.
  induction x as [|a x IH]; intros prev; [reflexivity|].
  cbn [append sub_from].
  destruct (match_here false fence_close prev (String a (x ++ nl ++ "```"))) as [r|] eqn:Hm.
  - exfalso. apply fence_close_matches in Hm as [E|E].
    + apply (f_equal String.length) in E. cbn [String.length] in E.
      rewrite length_append in E. simpl in E. lia.
    + destruct x as [|b x].
      * discriminate E.
      * apply (f_equal String.length) in E. cbn [String.length append] in E.
        rewrite length_append in E. simpl in E. lia.
  - now rewrite IH.
Qed.

Lemma strip_outer c d m :
  isspace c = false -> isspace d = false ->
  strip (String c (m ++ String d "")) = String c (m ++ String d "").
Proof.
  intros Hc Hd. unfold strip. cbn [lstrip]. rewrite Hc.
  change (String c (m ++ String d "")) with (String c m ++ String d "").
  now apply rstrip_keeps_nonspace.
Qed.

Lemma fence_text_stripped lang x :
  strip ("```" ++ lang ++ x ++ "```") = ("```" ++ lang ++ x ++ "```")%string.
Proof.
  assert (E : ("```" ++ lang ++ x ++ "```")%string
              = String "`" (("``" ++ lang ++ x ++ "``") ++ String "`" "")).
  { cbn [append]. do 3 f_equal. rewrite !append_assoc. reflexivity. }
  rewrite E. now apply strip_outer.
Qed.

(** X6.  A body with something other than blanks in it, put
    between a fence line with a language tag of letters and a closing fence,
    comes back from [_strip_code_fences] as the body without its leading and
    trailing blanks.  And whatever the text is, the result of
    [_strip_code_fences] has no leading or trailing blanks, so the test
    [fixed_code.strip()] of [fix_bug] is a test of the result itself. *)
Theorem strip_code_fences_fenced (lang body : string) :
  all_chars is_alpha lang = true ->
  strip body <> ""%string ->
  _strip_code_fences ("```" ++ lang ++ nl ++ body ++ nl ++ "```") = strip body /\
  forall text, strip (_strip_code_fences text) = _strip_code_fences text.
Proof.
  intros Hlang Hbody. split.
  - unfold _strip_code_fences.
    replace ("```" ++ lang ++ nl ++ body ++ nl ++ "```")%string
      with ("```" ++ lang ++ (nl ++ body ++ nl) ++ "```")%string
      by (now rewrite !append_assoc).
    rewrite fence_text_stripped. unfold unfence.
    rewrite (startswith_app "```").
    destruct (lstrip_splits body) as (ws & E & Hws).
    destruct (lstrip body) as [|c rest] eqn:Hl.
    { contradiction Hbody. unfold strip. now rewrite Hl. }
    pose proof (lstrip_head _ _ _ Hl) as Hc.
    destruct (behind_last_newline_start ws) as (w2 & Hw2).
    assert (HW : all_chars isspace (nl ++ ws) = true) by (cbn [nl append all_chars]; exact Hws).
    replace ("```" ++ lang ++ (nl ++ body ++ nl) ++ "```")%string
      with ("```" ++ lang ++ (nl ++ ws) ++ String c (rest ++ nl ++ "```"))%string.
    2:{ rewrite E. cbn [append]. rewrite !append_assoc. reflexivity. }
    rewrite (fence_open_match lang (nl ++ ws) w2 c _ Hlang HW Hc Hw2).
    unfold sub_empty.
    replace (w2 ++ String c (rest ++ nl ++ "```"))%string
      with ((w2 ++ String c rest) ++ nl ++ "```")%string
      by (rewrite append_assoc; reflexivity).
    rewrite sub_close_at_end.
    unfold strip at 1. rewrite lstrip_blank_app.
    2:{ apply (behind_last_newline_suffix _ _ Hw2 HW). }
    unfold strip. rewrite <- Hl, lstrip_idempotent. reflexivity.
  - intros text. unfold _strip_code_fences, unfence.
    destruct (startswith (strip text) "```"); apply strip_idempotent.
Qed.

(** The two substitutions on a fence around blanks: the three backticks of
    the closing line are left. *)
Lemma unfence_blank_body (lang body : string) :
  all_chars is_alpha lang = true ->
  all_chars isspace body = true ->
  unfence ("```" ++ lang ++ (nl ++ body ++ nl) ++ "```") = "```"%string.
Proof.
  intros Hlang Hbody. unfold unfence. rewrite (startswith_app "```").
  assert (HW : all_chars isspace ((nl ++ body) ++ nl) = true).
  { rewrite all_chars_app. cbn [nl append all_chars]. now rewrite Hbody. }
  replace ("```" ++ lang ++ (nl ++ body ++ nl) ++ "```")%string
    with ("```" ++ lang ++ ((nl ++ body) ++ nl) ++ String "`" "``")%string
    by (now rewrite !append_assoc).
  rewrite (fence_open_match lang ((nl ++ body) ++ nl) "" "`" "``" Hlang HW eq_refl
             (behind_last_newline_end _)).
  reflexivity.
Qed.

(** X7.  A body of blanks only (none at all included) between
    the same fences does not come back empty: the opening-fence pattern
    takes the blanks and the newline before the closing fence with it, the
    closing-fence pattern then finds no newline to start at, and the result
    is the three backticks of the closing fence. *)
Theorem strip_code_fences_blank_body (lang body : string) :
  all_chars is_alpha lang = true ->
  all_chars isspace body = true ->
  _strip_code_fences ("```" ++ lang ++ nl ++ body ++ nl ++ "```") = "```"%string.
Proof.
  intros Hlang Hbody. unfold _strip_code_fences.
  replace ("```" ++ lang ++ nl ++ body ++ nl ++ "```")%string
    with ("```" ++ lang ++ (nl ++ body ++ nl) ++ "```")%string
    by (now rewrite !append_assoc).
  rewrite fence_text_stripped. now apply unfence_blank_body.
Qed.

End FenceFacts.

(* ===================================================================== *)
(** * Which bodies come back empty from fence stripping *)
(* ===================================================================== *)

Module BlankBodyFacts.
Import PyStr Re Recoverer Aux Observe Blanks.
Import StrFacts ReFacts RecovererFacts GitClaims Fences FenceFacts.

(** [rstrip] leaves no blanks at the end. *)
Lemma rstrip_no_blank_tail : forall u a c w,
  rstrip u = a ++ String c w -> all_chars isspace (String c w) = false.
Proof.
  induction u as [|d u IH]; intros a c w; cbn [rstrip].
  - now destruct a.
  - destruct (rstrip u) as [|e r] eqn:Hr.
    + destruct (isspace d) eqn:Hd; [now destruct a|].
      destruct a as [|d' a]; cbn [append].
      * intros [= <- <-]. cbn [all_chars]. now rewrite Hd.
      * intros [= _ E]. now destruct a.
    + destruct a as [|d' a]; cbn [append].
      * intros [= <- <-].
        pose proof (IH ""%string e r eq_refl) as Hr'. cbn [all_chars] in *.
        rewrite Hr'. apply andb_false_r.
      * intros [= _ E]. now apply (IH a).
Qed.

(** [s.strip()] is trimmed. *)
Lemma strip_trimmed s : trimmed (strip s).
Proof. intros a c w E. exact (rstrip_no_blank_tail _ _ _ _ E). Qed.

Lemma trimmed_suffix m t : trimmed (m ++ t) -> trimmed t.
Proof. intros H a c w ->. apply (H (m ++ a) c w). now rewrite append_assoc. Qed.

Lemma trimmed_not_blank t : trimmed t -> t <> ""%string -> all_chars isspace t = false.
Proof. intros H Hne. destruct t as [|c w]; [now contradiction Hne|]. now apply (H ""%string). Qed.

(** A repetition hands the rest of the pattern a text behind some of the
    characters it may take. *)
Lemma greedy_inv p k : forall s prev r,
  greedy p k prev s = Some r ->
  exists a s' prev', s = a ++ s' /\ k prev' s' = Some r.
Proof.
  induction s as [|c s IH]; intros prev r; cbn [greedy].
  - intros H. now exists ""%string, ""%string, prev.
  - destruct (p c).
    + destruct (greedy p k (Some c) s) as [r'|] eqn:Hg.
      * intros [= <-]. destruct (IH _ _ Hg) as (a & s' & prev' & -> & Hk).
        now exists (String c a), s', prev'.
      * intros H. now exists ""%string, (String c s), prev.
    + intros H. now exists ""%string, (String c s), prev.
Qed.

(** [\s*\n] finds a newline behind blanks whenever there is one. *)
Lemma greedy_newline_some r' : forall w prev,
  all_chars isspace w = true ->
  greedy isspace (match_here false [One (ch LF)]) prev (w ++ nl ++ r') <> None.
Proof.
  induction w as [|a w IH]; intros prev Hw.
  - cbn [append nl greedy]. change (isspace LF) with true. cbn iota.
    destruct (greedy isspace (match_here false [One (ch LF)]) (Some LF) r'); [discriminate|].
    cbn [match_here]. unfold ch. rewrite Ascii.eqb_refl. discriminate.
  - cbn [all_chars] in Hw. apply andb_true_iff in Hw as [Ha Hw].
    cbn [append greedy]. rewrite Ha.
    specialize (IH (Some a) Hw).
    now destruct (greedy isspace (match_here false [One (ch LF)]) (Some a) (w ++ nl ++ r')).
Qed.

(** ... and stops behind the last newline of the run of blanks: what it
    leaves does not go on with blanks and a newline. *)
Lemma greedy_newline_inv : forall s prev r,
  greedy isspace (match_here false [One (ch LF)]) prev s = Some r ->
  (exists W, s = W ++ nl ++ r) /\
  (forall w r', all_chars isspace w = true -> r <> w ++ nl ++ r').
Proof.
  assert (Hk : forall prev c s r,
             match_here false [One (ch LF)] prev (String c s) = Some r -> c = LF /\ r = s).
  { intros prev c s r. cbn [match_here]. unfold ch.
    destruct (Ascii.eqb_spec LF c) as [<-|]; [|discriminate]. now intros [= <-]. }
  induction s as [|c s IH]; intros prev r; cbn [greedy].
  - discriminate.
  - destruct (isspace c) eqn:Hc.
    + destruct (greedy isspace (match_here false [One (ch LF)]) (Some c) s) as [r0|] eqn:Hg.
      * intros [= <-]. destruct (IH _ _ Hg) as ((W & ->) & Hno).
        split; [now exists (String c W) | exact Hno].
      * intros H. apply Hk in H as [-> ->]. split; [now exists ""%string|].
        intros w r' Hw E. rewrite E in Hg. now apply (greedy_newline_some r' w (Some LF)).
    + intros H. apply Hk in H as [-> _]. discriminate Hc.
Qed.

(** What the opening-fence pattern leaves when it matches. *)
Lemma fence_open_inv t r :
  match_here false fence_open None t = Some r ->
  (exists m, t = m ++ nl ++ r) /\
  (forall w r', all_chars isspace w = true -> r <> w ++ nl ++ r').
Proof.
  unfold fence_open. cbn [match_here at_bol].
  destruct t as [|a1 t]; [discriminate|]. destruct (ch backtick a1); [|discriminate].
  destruct t as [|a2 t]; [discriminate|]. destruct (ch backtick a2); [|discriminate].
  destruct t as [|a3 t]; [discriminate|]. destruct (ch backtick a3); [|discriminate].
  intros H. apply greedy_inv in H as (a & s' & prev' & -> & H).
  cbn [match_here] in H. apply greedy_newline_inv in H as ((W & ->) & Hno).
  split; [|exact Hno].
  exists (String a1 (String a2 (String a3 (a ++ W)))). cbn [append].
  now rewrite !append_assoc.
Qed.

(** The second substitution leaves the text alone or removes the closing
    fence at its end. *)
Lemma sub_close_cases : forall s prev,
  sub_from false fence_close 0 prev s = s \/
  (exists x, s = x ++ nl ++ "```" /\ sub_from false fence_close 0 prev s = x) \/
  (exists x, s = x ++ nl ++ "```" ++ nl /\ sub_from false fence_close 0 prev s = x ++ nl).
Proof.
  induction s as [|a s IH]; intros prev; [now left|].
  assert (H : match_here false fence_close prev (String a s) = None \/
              String a s = nl ++ "```" \/ String a s = nl ++ "```" ++ nl).
  { destruct (match_here false fence_close prev (String a s)) as [r|] eqn:Hm; [|now left].
    right. exact (fence_close_matches _ _ _ Hm). }
  destruct H as [Hm|[E|E]].
  - cbn [sub_from]. rewrite Hm.
    destruct (IH (Some a)) as [E|[(x & E1 & E2)|(x & E1 & E2)]].
    + left. now rewrite E.
    + right. left. exists (String a x). cbn [append]. now rewrite E1 at 1; rewrite E2.
    + right. right. exists (String a x). cbn [append]. now rewrite E1 at 1; rewrite E2.
  - right. left. exists ""%string. rewrite E. split; reflexivity.
  - right. right. exists ""%string. rewrite E. split; reflexivity.
Qed.

(** A text that starts with three backticks and ends in no blank is never
    left blank by the two substitutions. *)
Lemma unfence_fenced_not_blank t :
  startswith t "```" = true -> trimmed t -> strip (unfence t) <> ""%string.
Proof.
  intros Hst Htr.
  assert (Hfirst : exists rest, t = String "`" rest).
  { clear Htr. unfold startswith in Hst. destruct t as [|c rest]; [discriminate Hst|].
    cbn [prefix] in Hst.
    destruct (ascii_dec "`" c) as [<-|]; [now exists rest | discriminate Hst]. }
  unfold unfence. rewrite Hst. rewrite strip_idempotent.
  rewrite strip_nil_iff.
  set (t1 := sub_empty false fence_open t).
  assert (H1 : trimmed t1 /\ t1 <> ""%string /\
               forall w r', all_chars isspace w = true -> t1 <> w ++ nl ++ r').
  { subst t1. unfold fence_open. rewrite sub_empty_bol. fold fence_open.
    destruct (match_here false fence_open None t) as [r|] eqn:Hm.
    - destruct (fence_open_inv _ _ Hm) as ((m & E) & Hno).
      assert (Hd : drop (String.length t - String.length r) t = r).
      { rewrite E, <- append_assoc, length_append.
        replace (String.length (m ++ nl) + String.length r - String.length r)%nat
          with (String.length (m ++ nl)) by lia.
        apply drop_app. }
      rewrite Hd. split; [|split; [|exact Hno]].
      + apply (trimmed_suffix (m ++ nl)). now rewrite append_assoc, <- E.
      + intros ->. rewrite append_nil_r in E.
        assert (Hb : all_chars isspace nl = false) by (apply (Htr m); exact E).
        discriminate Hb.
    - destruct Hfirst as (rest & ->). split; [exact Htr|]. split; [discriminate|].
      intros w r' Hw E. destruct w as [|c w]; [discriminate E|].
      cbn [append] in E. injection E as <- _. discriminate Hw. }
  destruct H1 as (Htr1 & Hne1 & Hno1).
  unfold sub_empty.
  destruct (sub_close_cases t1 None) as [E|[(x & E1 & E2)|(x & E1 & E2)]].
  - rewrite E. rewrite (trimmed_not_blank _ Htr1 Hne1). discriminate.
  - rewrite E2. intros Hx. now apply (Hno1 x "```" Hx).
  - assert (Hb : all_chars isspace nl = false).
    { apply (Htr1 (x ++ nl ++ "```")). rewrite E1. now rewrite !append_assoc. }
    discriminate Hb.
Qed.

(** The fence-stripped body is empty exactly for a body that is blank as it
    stands: a body that starts with a fence never comes back empty. *)
Lemma strip_code_fences_blank_iff (code : string) :
  strip (_strip_code_fences code) = ""%string <-> strip code = ""%string.
Proof.
  unfold _strip_code_fences. split.
  - destruct (startswith (strip code) "```") eqn:Hst.
    + intros H. exfalso. revert H. apply unfence_fenced_not_blank; [exact Hst|].
      apply strip_trimmed.
    + unfold unfence. rewrite Hst. now rewrite strip_idempotent.
  - intros ->. reflexivity.
Qed.

End BlankBodyFacts.

(* ===================================================================== *)
(** * Fenced bodies in the fix applicator; prose around an object *)
(* ===================================================================== *)

Module FencedBodyFacts.
Import PyStr Re Recoverer PyVal PyJson Exn Pathlib Sys Sha256 FixBug Normalise MemFS.
Import Observe Aux Examples Samples FenceSamples.
Import StrFacts ReFacts RecovererFacts RecoveryClaims PathFacts FixBugClaims.
Import ApplicatorFacts FenceFacts Effects.

Lemma strip_code_fences_fenced_witness :
  _strip_code_fences ("```python" ++ nl ++ nl ++ "  x = 1" ++ nl ++ "y = 2  " ++ nl ++ nl ++ "```")
    = ("x = 1" ++ nl ++ "y = 2")%string.
Proof.
  assert (Hlang : all_chars is_alpha "python" = true) by reflexivity.
  assert (Hbody : strip (nl ++ "  x = 1" ++ nl ++ "y = 2  " ++ nl) <> ""%string)
    by (vm_compute; discriminate).
  exact (proj1 (strip_code_fences_fenced "python" (nl ++ "  x = 1" ++ nl ++ "y = 2  " ++ nl)
                  Hlang Hbody)).
Defined.

Lemma strip_code_fences_blank_body_witness :
  _strip_code_fences ("```python" ++ nl ++ nl ++ "```") = "```"%string /\
  _strip_code_fences ("```" ++ nl ++ "   " ++ nl ++ "```") = "```"%string.
Proof.
  split.
  - exact (strip_code_fences_blank_body "python" "" eq_refl eq_refl).
  - exact (strip_code_fences_blank_body "" "   " eq_refl eq_refl).
Defined.

Section BlankBody.
Context {W : Type} {os : OS W}.
Variable loads : string -> option pyval.
Variable json_error : string -> string.
Variable self : BugFixAgent.
Variable bug_report : pydict.
Variables target original_code : string.
Variable w : W.

Hypothesis Hpath : get bug_report "file_path" = VStr target.
Hypothesis Hname : target <> ""%string.
Hypothesis Hexists : path_exists target w = true.
Hypothesis Hread : read_text Ignore target w = Return original_code.
Hypothesis Hbug : truthy (get_default bug_report "has_bug" (VBool false)) = true.

(** X8.  A plan whose body is a code fence around nothing but
    blanks is not taken for a plan without body: [fix_bug] does not return
    no_fixed_code, it backs the file up and writes three backticks into it
    (unless the file holds three backticks already).  *)
Theorem blank_fenced_body_is_written (text lang body : string) (fix_plan : pyval) :
  client self (request_for self bug_report original_code) = Reply text ->
  loads (_clean_json text) = Some fix_plan ->
  proposed_code fix_plan = Some ("```" ++ lang ++ nl ++ body ++ nl ++ "```")%string ->
  all_chars is_alpha lang = true ->
  all_chars isspace body = true ->
  name target <> ""%string ->
  _sha256 "```" <> _sha256 original_code ->
  exists w' rest r,
    fix_bug loads json_error self bug_report false w =
      (w',
       ([EExists target; ERead target; ECreate (request_for self bug_report original_code);
         ECopy target (target ++ ".bak")] ++ rest)%list, r) /\
    (forall w1, copyfile target (target ++ ".bak") w = (w1, Return tt) ->
                exists rest', rest = EWrite target "```" :: rest') /\
    (forall res, r = Return res -> get res "status" <> VStr "no_fixed_code").
Proof.
  intros Hreply Hplan Hcode Hlang Hblank Hn Hdiff.
  assert (Hfull : negb (nonempty (strip "```")) = false) by reflexivity.
  pose proof (fix_bug_reaches_body loads json_error self bug_report target original_code w
                Hpath Hname Hexists Hread text _ fix_plan Hbug Hreply Hplan Hcode false)
    as Hbody.
  cbv zeta in Hbody.
  assert (Hticks : _strip_code_fences ("```" ++ lang ++ nl ++ body ++ nl ++ "```") = "```"%string).
  { unfold _strip_code_fences.
    replace ("```" ++ lang ++ nl ++ body ++ nl ++ "```")%string
      with ("```" ++ lang ++ (nl ++ body ++ nl) ++ "```")%string
      by (now rewrite !append_assoc).
    rewrite fence_text_stripped. now apply unfence_blank_body. }
  rewrite Hticks in Hbody.
  apply String.eqb_neq in Hdiff.
  rewrite Hfull, Hdiff, (with_suffix_bak _ Hn) in Hbody. rewrite Hbody. clear Hbody.
  destruct (copyfile target (target ++ ".bak") w) as [w1 [[]|e|]].
  2,3: eexists _, [], _; split; [reflexivity|]; split;
       [intros w0 E; discriminate E | intros res E; discriminate E].
  destruct (write_text target "```" w1) as [w2 [[]|e|]].
  2,3: eexists _, [_], _; split; [reflexivity|]; split;
       [intros w0 _; now eexists | intros res E; discriminate E].
  destruct (read_text Ignore target w2) as [on_disk|e|].
  2,3: eexists _, [_; _], _; split; [reflexivity|]; split;
       [intros w0 _; now eexists | intros res E; discriminate E].
  destruct (String.eqb (_sha256 on_disk) (_sha256 original_code)).
  - destruct (copyfile (target ++ ".bak") target w2) as [w3 [[]|e|]];
      eexists _, [_; _; _], _; (split; [reflexivity|]); (split; [intros w0 _; now eexists|]);
      intros res E; try discriminate E; injection E as <-; discriminate.
  - eexists _, [_; _], _. split; [reflexivity|]. split; [intros w0 _; now eexists|].
    intros res [= <-]. discriminate.
Qed.

End BlankBody.

Lemma blank_fenced_body_is_written_witness :
  exists w',
    fix_bug json_loads no_message (fixer reply_fenced_blank) buggy_report false repo =
      (w',
       [EExists program; ERead program;
        ECreate (request_for (fixer reply_fenced_blank) buggy_report program_text);
        ECopy program (program ++ ".bak"); EWrite program "```"; ERead program],
       Return [("status", VStr "patched"); ("file_path", VStr program);
               ("backup_path", VStr (program ++ ".bak"));
               ("before_hash", VStr (_sha256 program_text));
               ("after_hash", VStr (_sha256 "```"));
               ("fix_plan", plan_of body_fenced_blank)]) /\
    files w' program = Some "```"%string.
Proof.
  assert (Hname : program <> ""%string) by discriminate.
  assert (Hplan : json_loads (_clean_json reply_fenced_blank) = Some (plan_of body_fenced_blank))
    by (vm_compute; reflexivity).
  assert (Hn : name program <> ""%string) by (vm_compute; discriminate).
  assert (Hdiff : _sha256 "```" <> _sha256 program_text) by (vm_compute; discriminate).
  destruct (blank_fenced_body_is_written (os := mem_os) json_loads no_message
              (fixer reply_fenced_blank) buggy_report program program_text repo
              eq_refl Hname eq_refl eq_refl eq_refl
              reply_fenced_blank "python" "" (plan_of body_fenced_blank)
              eq_refl Hplan eq_refl eq_refl eq_refl Hn Hdiff)
    as (w' & rest & r & E & _ & _).
  assert (Erun : snd (fix_bug (os := mem_os) json_loads no_message (fixer reply_fenced_blank)
                        buggy_report false repo)
                 = Return [("status", VStr "patched"); ("file_path", VStr program);
                           ("backup_path", VStr (program ++ ".bak"));
                           ("before_hash", VStr (_sha256 program_text));
                           ("after_hash", VStr (_sha256 "```"));
                           ("fix_plan", plan_of body_fenced_blank)])
    by (vm_compute; reflexivity).
  assert (Etrace : snd (fst (fix_bug (os := mem_os) json_loads no_message
                               (fixer reply_fenced_blank) buggy_report false repo))
                   = [EExists program; ERead program;
                      ECreate (request_for (fixer reply_fenced_blank) buggy_report program_text);
                      ECopy program (program ++ ".bak"); EWrite program "```"; ERead program])
    by (vm_compute; reflexivity).
  assert (Efile : files (fst (fst (fix_bug (os := mem_os) json_loads no_message
                                     (fixer reply_fenced_blank) buggy_report false repo)))
                    program = Some "```"%string)
    by (vm_compute; reflexivity).
  rewrite E in Erun, Etrace, Efile. cbn [fst snd] in Erun, Etrace, Efile.
  exists w'. rewrite E, Etrace, Erun. split; [reflexivity | exact Efile].
Defined.

(** X9.  An object text with prose on both sides -- before
    it anything without an opening brace, behind it anything without a
    closing brace, fences included -- is cut out by every copy of the
    recoverer: the candidate handed to the decoder is the object text, and
    [extract_json_from_text] returns what the decoder makes of it.  An array
    around one object is such prose: the object inside is what is
    recovered. *)
Theorem object_between_prose (decode : string -> option pyval) (pre mid post : string) :
  has_char "{" pre = false ->
  has_char "}" post = false ->
  let text := (pre ++ object_text mid ++ post)%string in
  _clean_json text = object_text mid /\
  _extract_json text = object_text mid /\
  _extract_json_from_text text = object_text mid /\
  extract_json_from_text decode text =
    match decode (object_text mid) with
    | Some v => v
    | None => VNone
    end.
Proof.
  intros Hpre Hpost text.
  assert (Hs : sandwich mid text) by (exists pre, post; now repeat split).
  pose proof (candidate_sandwich _ _ Hs) as Hc.
  unfold _clean_json, _extract_json, _extract_json_from_text, extract_json_from_text.
  rewrite Hc. repeat split.
  destruct text as [|c t] eqn:E; [|reflexivity].
  destruct pre; discriminate E.
Qed.

Lemma object_between_prose_witness :
  _clean_json reply_with_prose = payload /\
  extract_json_from_text json_loads reply_with_prose = VDict [("hasBug", VBool true)] /\
  _extract_json reply_wrapped = payload /\
  json_loads reply_wrapped = Some (VList [VDict [("hasBug", VBool true)]]).
Proof.
  destruct (object_between_prose json_loads "Here is the report: " (js "'hasBug': true")
              " I hope this helps." eq_refl eq_refl) as (H1 & _ & _ & H2).
  destruct (object_between_prose json_loads "[" (js "'hasBug': true") "]" eq_refl eq_refl)
    as (_ & H3 & _).
  split; [exact H1|]. split; [exact H2|]. split; [exact H3 | vm_compute; reflexivity].
Defined.

End FencedBodyFacts.

(* ===================================================================== *)
(** * Test evaluation: every run *)
(* ===================================================================== *)

Module EvaluatorFacts.
Import PyStr Re PyVal Exn Pathlib Sys TestEval MemFS Observe Aux Examples.
Import StrFacts SelectorFacts DiscoveryFacts TestClaims Effects.

Section Evaluate.
Context {W : Type} {os : OS W}.
Variable self : UnitTestEvaluationAgent.

Let pytest_cmd (tf : string) : list string := [sys_executable self; "-m"; "pytest"; tf].

(** Every run of [evaluate], spelled out: the four ways it can go. *)
Lemma evaluate_cases (p : string) (w : W) :
  let scanned := resolve p w in
  let tests_root := resolve (joinpath (repo_root self) (tests_dir self)) w in
  let c1 := joinpath tests_root (stem scanned ++ "_test.py") in
  let c2 := joinpath tests_root ("test_" ++ stem scanned ++ ".py") in
  (path_exists scanned w = false /\
   evaluate self p w =
     (w, [EResolve p; EExists scanned],
      Return {| scanned_file := scanned; test_file := ""; runner := "none";
                passed := false; exit_code := 2; stdout := ""; stderr := "";
                notes := "Scanned file does not exist." |})) \/
  (path_exists scanned w = true /\ path_exists c1 w = false /\ path_exists c2 w = false /\
   evaluate self p w =
     (w, [EResolve p; EExists scanned;
          EResolve (joinpath (repo_root self) (tests_dir self)); EExists c1; EExists c2;
          EResolve (joinpath (repo_root self) (tests_dir self))],
      Return {| scanned_file := scanned; test_file := ""; runner := "none";
                passed := false; exit_code := 3; stdout := ""; stderr := "";
                notes := "Unit test not found in " ++ tests_dir self ++ ". Tried: "
                         ++ repr_list [c1; c2] |})) \/
  exists tf found,
    path_exists scanned w = true /\
    List.find (fun c => path_exists c w) (candidates tests_root scanned) = Some tf /\
    path_exists tf w = true /\ In tf (candidates tests_root scanned) /\
    found = ([EResolve p; EExists scanned;
              EResolve (joinpath (repo_root self) (tests_dir self))]
             ++ (if path_exists c1 w then [EExists c1] else [EExists c1; EExists c2])
             ++ [ERead tf])%list /\
    match read_text Replace tf w with
    | Return text =>
        let '(w', r) := subprocess_run (test_process self (pytest_cmd tf)) w in
        evaluate self p w =
          (w', (found ++ [ERun (test_process self (pytest_cmd tf))])%list,
           match r with
           | Return cp =>
               Return {| scanned_file := scanned; test_file := tf; runner := "pytest";
                         passed := returncode cp =? 0; exit_code := returncode cp;
                         stdout := Sys.stdout cp; stderr := Sys.stderr cp;
                         notes := if returncode cp =? 0 then "OK"
                                  else "Failed (exit=" ++ str_int (returncode cp)
                                       ++ "). Command: " ++ join_space (pytest_cmd tf) |}
           | Raise (TimeoutExpired out err) =>
               Return {| scanned_file := scanned; test_file := tf; runner := "pytest";
                         passed := false; exit_code := 124;
                         stdout := opt_text out; stderr := opt_text err;
                         notes := "Timed out after " ++ str_int (timeout_seconds self)
                                  ++ "s running: " ++ join_space (pytest_cmd tf) |}
           | Raise e => Raise e
           | Diverge => Diverge
           end)
    | Raise e => evaluate self p w = (w, found, Raise e)
    | Diverge => evaluate self p w = (w, found, Diverge)
    end.
Proof.
  intros scanned tests_root c1 c2. run_eval. fold scanned.
  destruct (path_exists scanned w) eqn:Hs; cbn [negb]; [|left; now split].
  right. fold tests_root. fold c1. fold c2.
  assert (H1 : forall text, _looks_like_pytest_test text c1 = true).
  { intros text. apply candidates_look_like_pytest with tests_root scanned. now left. }
  assert (H2 : forall text, _looks_like_pytest_test text c2 = true).
  { intros text. apply candidates_look_like_pytest with tests_root scanned.
    right. now left. }
  unfold candidates, List.find. fold c1. fold c2.
  destruct (path_exists c1 w) eqn:E1.
  - right. exists c1. eexists. split; [reflexivity|]. split; [reflexivity|].
    split; [exact E1|]. split; [now left|]. split; [reflexivity|].
    destruct (read_text Replace c1 w) as [text|e|]; [|reflexivity..].
    rewrite H1. fold (pytest_cmd c1). fold (test_process self (pytest_cmd c1)).
    destruct (subprocess_run (test_process self (pytest_cmd c1)) w) as [w' [cp|e|]];
      [reflexivity| |reflexivity].
    now destruct e.
  - destruct (path_exists c2 w) eqn:E2; [|left; now repeat split].
    right. exists c2. eexists. split; [reflexivity|]. split; [reflexivity|].
    split; [exact E2|]. split; [right; now left|]. split; [reflexivity|].
    destruct (read_text Replace c2 w) as [text|e|]; [|reflexivity..].
    rewrite H2. fold (pytest_cmd c2). fold (test_process self (pytest_cmd c2)).
    destruct (subprocess_run (test_process self (pytest_cmd c2)) w) as [w' [cp|e|]];
      [reflexivity| |reflexivity].
    now destruct e.
Qed.


(** X10.  Every result [evaluate] returns satisfies: passed
    holds exactly when the exit code is 0, and exactly when the notes are
    "OK"; scanned_file is the resolved path; the runner is none, with an
    empty test_file, exit code 2 or 3 and the state untouched, or it is
    pytest with test_file one of the two candidate paths.  The runners
    python-module and python-file never occur in a result. *)
Theorem evaluate_result_invariants (p : string) (w w' : W) (trace : list event)
    (res : UnitTestEvalResult) :
  evaluate self p w = (w', trace, Return res) ->
  let scanned := resolve p w in
  let tests_root := resolve (joinpath (repo_root self) (tests_dir self)) w in
  passed res = (exit_code res =? 0) /\
  (passed res = true <-> notes res = "OK"%string) /\
  scanned_file res = scanned /\
  ((runner res = "none"%string /\ test_file res = ""%string /\
    (exit_code res = 2 \/ exit_code res = 3) /\ w' = w) \/
   (runner res = "pytest"%string /\ In (test_file res) (candidates tests_root scanned) /\
    path_exists (test_file res) w = true)).
Proof.
  intros Hrun scanned tests_root.
  destruct (evaluate_cases p w) as [[_ E]|[(_ & _ & _ & E)|(tf & found & _ & _ & Hex & Hin & _ & E)]].
  - rewrite E in Hrun. injection Hrun as <- _ <-. cbn.
    split; [reflexivity|]. split; [split; discriminate|]. split; [reflexivity|].
    left. repeat split. now left.
  - rewrite E in Hrun. injection Hrun as <- _ <-. cbn.
    split; [reflexivity|]. split; [split; discriminate|]. split; [reflexivity|].
    left. repeat split. now right.
  - destruct (read_text Replace tf w) as [text|e|];
      [|rewrite E in Hrun; discriminate Hrun..].
    destruct (subprocess_run (test_process self (pytest_cmd tf)) w) as [w2 [cp|e|]];
      rewrite E in Hrun; [| |discriminate Hrun].
    + injection Hrun as _ _ <-. cbn. split; [reflexivity|].
      split; [|split; [reflexivity | right; now repeat split]].
      destruct (returncode cp =? 0); split; try reflexivity; discriminate.
    + destruct e; try discriminate Hrun. injection Hrun as _ _ <-. cbn.
      split; [reflexivity|]. split; [split; discriminate|].
      split; [reflexivity | right; now repeat split].
Qed.

(** X11.  However a run of [evaluate] ends, it copies and
    writes no file and calls no service.  It starts at most one subprocess,
    as its last effect: pytest on a candidate test file that exists, from the
    repository root, with the root as PYTHONPATH and the agent's timeout; a
    run without subprocess leaves the state it started from. *)
Theorem evaluate_effects (p : string) (w w' : W) (trace : list event)
    (r : outcome UnitTestEvalResult) :
  evaluate self p w = (w', trace, r) ->
  let scanned := resolve p w in
  let tests_root := resolve (joinpath (repo_root self) (tests_dir self)) w in
  mutations trace = [] /\ service_calls trace = [] /\
  ((subprocesses trace = [] /\ w' = w) \/
   exists tf before,
     In tf (candidates tests_root scanned) /\ path_exists tf w = true /\
     trace = (before ++ [ERun {| cmd := [sys_executable self; "-m"; "pytest"; tf];
                                 cwd := repo_root self;
                                 pythonpath := Some (repo_root self);
                                 timeout := Some (timeout_seconds self) |}])%list /\
     subprocesses before = []).
Proof.
  intros Hrun scanned tests_root.
  destruct (evaluate_cases p w) as [[_ E]|[(_ & _ & _ & E)|(tf & found & _ & _ & Hex & Hin & Hf & E)]].
  - rewrite E in Hrun. injection Hrun as <- <- _. repeat split. now left.
  - rewrite E in Hrun. injection Hrun as <- <- _. repeat split. now left.
  - assert (Hquiet : mutations found = [] /\ service_calls found = [] /\
                     subprocesses found = []).
    { subst found.
      match goal with |- context [if ?b then _ else _] => destruct b end;
        now repeat split. }
    destruct Hquiet as (Hm & Hc & Hp).
    destruct (read_text Replace tf w) as [text|e|].
    2,3: rewrite E in Hrun; injection Hrun as <- <- _; repeat split; try assumption;
         left; now split.
    destruct (subprocess_run (test_process self (pytest_cmd tf)) w) as [w2 r2].
    rewrite E in Hrun. injection Hrun as _ <- _.
    unfold mutations, service_calls in *. rewrite !filter_app, Hm, Hc.
    split; [reflexivity|]. split; [reflexivity|].
    right. exists tf, found. split; [exact Hin|]. split; [exact Hex|].
    split; [reflexivity | exact Hp].
Qed.

(** X12.  When the scanned file exists, [tf] is the first
    candidate path that exists (the suffix style file comes first) and its
    text can be read, the test runs under pytest whatever that text is.  If
    the subprocess returns, the result copies its exit code and its output,
    passed is the test exit code = 0, and the notes are "OK" or name the exit
    code and the command; the state is the one the subprocess left.  If
    starting the subprocess raises anything but TimeoutExpired, [evaluate]
    raises it too. *)
Theorem evaluate_completed (p tf text : string) (w w' : W)
    (r : outcome completed) :
  let scanned := resolve p w in
  let tests_root := resolve (joinpath (repo_root self) (tests_dir self)) w in
  let cmd := [sys_executable self; "-m"; "pytest"; tf] in
  path_exists scanned w = true ->
  List.find (fun c => path_exists c w) (candidates tests_root scanned) = Some tf ->
  read_text Replace tf w = Return text ->
  subprocess_run (test_process self cmd) w = (w', r) ->
  exists trace,
    (forall cp, r = Return cp ->
       evaluate self p w =
         (w', trace,
          Return {| scanned_file := scanned; test_file := tf; runner := "pytest";
                    passed := returncode cp =? 0; exit_code := returncode cp;
                    stdout := Sys.stdout cp; stderr := Sys.stderr cp;
                    notes := if returncode cp =? 0 then "OK"
                             else "Failed (exit=" ++ str_int (returncode cp)
                                  ++ "). Command: " ++ join_space cmd |})) /\
    (forall e, r = Raise e ->
       (forall out err, e <> TimeoutExpired out err) ->
       evaluate self p w = (w', trace, Raise e)) /\
    subprocesses trace = [ERun (test_process self cmd)].
Proof.
  intros scanned tests_root cmd Hs Hfind Hread Hsub.
  destruct (evaluate_cases p w)
    as [[Hs' _]|[(_ & E1 & E2 & _)|(tf' & found & _ & Hfind' & _ & _ & Hf & E)]].
  - fold scanned in Hs'. congruence.
  - exfalso. unfold candidates, List.find in Hfind. fold scanned tests_root in E1, E2.
    rewrite E1, E2 in Hfind.
    discriminate Hfind.
  - fold scanned tests_root in Hfind'. rewrite Hfind in Hfind'. injection Hfind' as <-.
    rewrite Hread in E. change (pytest_cmd tf) with cmd in E. rewrite Hsub in E.
    exists (found ++ [ERun (test_process self cmd)])%list.
    split; [|split].
    + intros cp ->. exact E.
    + intros e -> Hnot. rewrite E. destruct e as [| | | | | |out err]; try reflexivity.
      now contradiction (Hnot out err).
    + subst found. unfold subprocesses.
      match goal with |- context [if ?b then _ else _] => destruct b end; reflexivity.
Qed.

End Evaluate.

(** The sample repository: the driver script of bitcount.py runs under
    pytest and exits with 0. *)
Lemma evaluate_result_invariants_witness :
  exists res,
    evaluate tester program repo =
      (repo,
       [EResolve program; EExists program; EResolve "/repo/python_testcases";
        EExists driver_test; ERead driver_test;
        ERun (test_process tester ["/usr/bin/python3"; "-m"; "pytest"; driver_test])],
       Return res) /\
    passed res = (exit_code res =? 0) /\
    (runner res = "none"%string \/ runner res = "pytest"%string).
Proof.
  pose proof driver_run as E.
  destruct (evaluate_result_invariants (os := mem_os) tester program repo _ _ _ E)
    as (Hp & _ & _ & Hr).
  eexists. split; [exact E|]. split; [exact Hp|].
  destruct Hr as [(Hr & _)|(Hr & _)]; [now left | now right].
Defined.

Lemma evaluate_effects_witness :
  exists w' trace r,
    evaluate tester program repo_hanging = (w', trace, r) /\
    mutations trace = [] /\ service_calls trace = [] /\
    (List.length (subprocesses trace) <= 1)%nat.
Proof.
  destruct (evaluate (os := mem_os) tester program repo_hanging) as [[w' trace] r] eqn:E.
  destruct (evaluate_effects (os := mem_os) tester program repo_hanging w' trace r E)
    as (Hm & Hc & Hs).
  exists w', trace, r. split; [reflexivity|]. split; [exact Hm|]. split; [exact Hc|].
  destruct Hs as [[-> _]|(tf & before & _ & _ & -> & Hb)].
  - cbn. lia.
  - unfold subprocesses in *. rewrite filter_app, Hb. cbn. lia.
Defined.

Lemma evaluate_completed_witness :
  exists trace,
    evaluate tester program
      {| files := files repo; processes := exits_with 1 |} =
      ({| files := files repo; processes := exits_with 1 |}, trace,
       Return {| scanned_file := program; test_file := driver_test; runner := "pytest";
                 passed := false; exit_code := 1; stdout := ""; stderr := "";
                 notes := "Failed (exit=1). Command: /usr/bin/python3 -m pytest "
                          ++ driver_test |}).
Proof.
  pose (failing := {| files := files repo; processes := exits_with 1 |}).
  assert (Hs : path_exists (resolve program failing) failing = true)
    by (vm_compute; reflexivity).
  assert (Hf : List.find (fun c => path_exists c failing)
                 (candidates
                    (resolve (joinpath (TestEval.repo_root tester) (tests_dir tester)) failing)
                    (resolve program failing)) = Some driver_test)
    by (vm_compute; reflexivity).
  assert (Hr : read_text Replace driver_test failing = Return driver_text)
    by (vm_compute; reflexivity).
  destruct (evaluate_completed (os := mem_os) tester program driver_test driver_text
              failing failing
              (Return {| returncode := 1; Sys.stdout := ""; Sys.stderr := "" |})
              Hs Hf Hr eq_refl)
    as (trace & Hcp & _).
  exists trace. exact (Hcp _ eq_refl).
Defined.

End EvaluatorFacts.

(* ===================================================================== *)
(** * Traces of composed computations *)
(* ===================================================================== *)

Module MonadFacts.
Import Exn Sys Effects.

Section Traces.
Context {W : Type} {os : OS W}.

Lemma traces_ret {A} P (a : A) : traces P (ret a).
Proof. intros w w' t r [= _ <- _]. constructor. Qed.

Lemma traces_raise {A} P e : traces P (raise (A := A) e).
Proof. intros w w' t r [= _ <- _]. constructor. Qed.

Lemma traces_lift {A} P (o : outcome A) : traces P (lift o).
Proof. intros w w' t r [= _ <- _]. constructor. Qed.

Lemma traces_bind {A B} P (m : M W A) (k : A -> M W B) :
  traces P m -> (forall a, traces P (k a)) -> traces P (bind m k).
Proof.
  intros Hm Hk w w' t r. unfold bind.
  destruct (m w) as [[w1 t1] [a|e|]] eqn:E.
  - destruct (k a w1) as [[w2 t2] r2] eqn:E2. intros [= _ <- _].
    apply Forall_app. split; [now apply (Hm _ _ _ _ E) | now apply (Hk _ _ _ _ _ E2)].
  - intros [= _ <- _]. now apply (Hm _ _ _ _ E).
  - intros [= _ <- _]. now apply (Hm _ _ _ _ E).
Qed.

Lemma traces_try {A} P (m : M W A) (h : exn -> M W A) :
  traces P m -> (forall e, traces P (h e)) -> traces P (try_except m h).
Proof.
  intros Hm Hh w w' t r. unfold try_except.
  destruct (m w) as [[w1 t1] [a|e|]] eqn:E.
  - intros [= _ <- _]. now apply (Hm _ _ _ _ E).
  - destruct (h e w1) as [[w2 t2] r2] eqn:E2. intros [= _ <- _].
    apply Forall_app. split; [now apply (Hm _ _ _ _ E) | now apply (Hh _ _ _ _ _ E2)].
  - intros [= _ <- _]. now apply (Hm _ _ _ _ E).
Qed.

(** A [bind] that returns has run both parts to their return. *)
Lemma bind_returns {A B} (m : M W A) (k : A -> M W B) w w' t b :
  bind m k w = (w', t, Return b) ->
  exists w1 t1 a t2,
    m w = (w1, t1, Return a) /\ k a w1 = (w', t2, Return b) /\ t = (t1 ++ t2)%list.
Proof.
  unfold bind. destruct (m w) as [[w1 t1] [a|e|]]; try discriminate.
  destruct (k a w1) as [[w2 t2] r] eqn:E. intros [= <- <- ->].
  now exists w1, t1, a, t2.
Qed.

Lemma ret_returns {A} (a b : A) (w w' : W) t :
  ret a w = (w', t, Return b) -> w' = w /\ t = [] /\ b = a.
Proof. now intros [= <- <- <-]. Qed.

Lemma traces_weaken {A} (P Q : event -> Prop) (m : M W A) :
  (forall e, P e -> Q e) -> traces P m -> traces Q m.
Proof.
  intros HPQ Hm w w' t r E. apply Forall_impl with P; [exact HPQ | now apply (Hm _ _ _ _ E)].
Qed.

Lemma traces_exists P p : P (EExists p) -> traces P (do_exists p).
Proof. intros H w w' t r [= _ <- _]. now repeat constructor. Qed.

Lemma traces_resolve P p : P (EResolve p) -> traces P (do_resolve p).
Proof. intros H w w' t r [= _ <- _]. now repeat constructor. Qed.

Lemma traces_read P errors p : P (ERead p) -> traces P (do_read_text errors p).
Proof. intros H w w' t r [= _ <- _]. now repeat constructor. Qed.

Lemma traces_run P pr : P (ERun pr) -> traces P (do_run pr).
Proof.
  intros H w w' t r. unfold do_run. destruct (subprocess_run pr w).
  intros [= _ <- _]. now repeat constructor.
Qed.

End Traces.
End MonadFacts.

(* ===================================================================== *)
(** * Version-control publisher: branches and staging *)
(* ===================================================================== *)

Module GitFacts.
Import PyStr PyVal Exn Sys GitPush MemFS Observe Aux Examples.
Import StrFacts GitFlow MonadFacts Effects GitSamples.

Lemma split_char_nonempty sep s : split_char sep s <> [].
Proof.
  destruct s as [|c s]; cbn [split_char]; [discriminate|].
  destruct (Ascii.eqb c sep); [discriminate|]. now destruct (split_char sep s).
Qed.

(** The last piece of a split holds no separator. *)
Lemma last_split_no_sep sep s :
  has_char sep (last (split_char sep s) "") = false.
Proof.
  induction s as [|c s IH]; cbn [split_char]; [reflexivity|].
  destruct (Ascii.eqb_spec c sep) as [->|Hne].
  - pose proof (split_char_nonempty sep s) as Hn.
    destruct (split_char sep s) as [|h t]; [now contradiction Hn|]. exact IH.
  - destruct (split_char sep s) as [|h t] eqn:E; [now contradiction (split_char_nonempty sep s)|].
    destruct t as [|h' t'].
    + cbn [last] in *. cbn [has_char]. rewrite IH.
      destruct (Ascii.eqb_spec sep c) as [->|_]; [now contradiction Hne | reflexivity].
    + exact IH.
Qed.

Lemma split_char_app sep a b :
  split_char sep (a ++ String sep b) = (split_char sep a ++ split_char sep b)%list.
Proof.
  induction a as [|c a IH]; cbn [append split_char].
  - now rewrite Ascii.eqb_refl.
  - rewrite IH. destruct (Ascii.eqb c sep); [reflexivity|].
    pose proof (split_char_nonempty sep a) as Hn.
    now destruct (split_char sep a).
Qed.

Lemma split_char_free sep x : has_char sep x = false -> split_char sep x = [x].
Proof.
  induction x as [|c x IH]; [reflexivity|]. cbn [has_char split_char].
  intros H. apply orb_false_iff in H as [Hc Hx].
  rewrite Ascii.eqb_sym, Hc, (IH Hx). reflexivity.
Qed.

(** The last piece of a split is the text behind the last separator. *)
Lemma last_split_app sep a b :
  has_char sep b = false ->
  last (split_char sep (a ++ String sep b)) "" = b.
Proof.
  intros Hb. rewrite split_char_app, (split_char_free _ _ Hb). apply last_last.
Qed.


Ltac run_flow :=
  cbv beta iota zeta delta
    [_detect_base_branch create_branch stage_files push GitPush._run
     bind ret raise try_except do_run].

Section Agent.
Context {W : Type} {os : OS W}.
Variable self : GitPushAgent.

Lemma git_step_weaken verbs verbs' e :
  incl verbs verbs' -> git_step self verbs e -> git_step self verbs' e.
Proof. intros Hi (cmd & verb & E & Hv & Hin). exists cmd, verb. auto. Qed.

Lemma traces_git_run verbs cmd verb rest :
  cmd = ("git" :: verb :: rest)%list -> In verb verbs ->
  traces (git_step self verbs) (GitPush._run self cmd).
Proof.
  intros -> Hin. unfold GitPush._run. apply traces_bind.
  - apply traces_run. exists ("git" :: verb :: rest)%list, verb. now repeat split.
  - intros p. destruct (negb (returncode p =? 0)); [apply traces_raise | apply traces_ret].
Qed.

Lemma traces_detect :
  traces (git_step self ["symbolic-ref"; "rev-parse"]) (_detect_base_branch self).
Proof.
  unfold _detect_base_branch.
  apply traces_try; [|intros e; apply traces_try; [|intros e'; apply traces_try]].
  - apply traces_bind; [|intros; apply traces_ret].
    eapply traces_git_run; [reflexivity | now left].
  - apply traces_bind; [|intros; apply traces_ret].
    eapply traces_git_run; [reflexivity | right; now left].
  - apply traces_bind; [|intros; apply traces_ret].
    eapply traces_git_run; [reflexivity | right; now left].
  - intros; apply traces_ret.
Qed.

Lemma traces_create_branch branch_name base_branch :
  traces (git_step self ["symbolic-ref"; "rev-parse"; "checkout"])
         (create_branch self branch_name base_branch).
Proof.
  unfold create_branch. apply traces_bind.
  - destruct base_branch; [apply traces_ret|].
    apply traces_weaken with (git_step self ["symbolic-ref"; "rev-parse"]); [|apply traces_detect].
    intros e. apply git_step_weaken. intros x [<-|[<-|[]]]; cbn; tauto.
  - intros [b|]; [|apply traces_ret].
    apply traces_bind.
    + eapply traces_git_run; [reflexivity | cbn; tauto].
    + intros _. apply traces_try.
      * apply traces_bind; [|intros; apply traces_ret].
        eapply traces_git_run; [reflexivity | cbn; tauto].
      * intros e. destruct e; try apply traces_raise.
        apply traces_bind; [|intros; apply traces_ret].
        eapply traces_git_run; [reflexivity | cbn; tauto].
Qed.

(** X13.  [_detect_base_branch] raises nothing of what its
    subprocesses raise: it ends with a branch name or with its own
    RuntimeError, after one to three git subprocesses, the RuntimeError only
    after all three.  A name it returns holds no slash.  When
    [git symbolic-ref] exits with 0, its output decides without another
    subprocess, and the name is what stands behind the last slash of the
    stripped output: for refs/remotes/origin/feature/x that is x. *)
Theorem detect_base_branch_contract (w : W) :
  (exists w' trace r,
     _detect_base_branch self w = (w', trace, r) /\
     (forall e, r <> Raise e) /\
     (forall b, r = Return (Done b) -> has_char "/" b = false) /\
     (1 <= List.length trace <= 3)%nat /\
     (r = Return NoBaseBranch ->
      trace = [ERun (git_process self symbolic_ref_cmd);
               ERun (git_process self (rev_parse_cmd "main"));
               ERun (git_process self (rev_parse_cmd "master"))])) /\
  (forall w1 cp head b,
     subprocess_run (git_process self symbolic_ref_cmd) w = (w1, Return cp) ->
     returncode cp = 0 ->
     strip (stdout cp) = (head ++ String "/" b)%string -> has_char "/" b = false ->
     _detect_base_branch self w =
       (w1, [ERun (git_process self symbolic_ref_cmd)], Return (Done b))).
Proof.
  split.
  - run_flow. fold (git_process self symbolic_ref_cmd).
    fold (git_process self (rev_parse_cmd "main")).
    fold (git_process self (rev_parse_cmd "master")).
    assert (Hfree : forall b, has_char "/" (last (split_char "/" b) "") = false)
      by (intros b; apply last_split_no_sep).
    destruct (subprocess_run (git_process self symbolic_ref_cmd) w) as [w1 [cp1|e1|]].
    + destruct (returncode cp1 =? 0); cbn [negb].
      * eexists _, _, _. split; [reflexivity|]. split; [discriminate|].
        split; [intros b [= <-]; apply Hfree|]. split; [cbn; lia | discriminate].
      * destruct (subprocess_run (git_process self (rev_parse_cmd "main")) w1)
          as [w2 [cp2|e2|]].
        -- destruct (returncode cp2 =? 0); cbn [negb].
           ++ eexists _, _, _. split; [reflexivity|]. split; [discriminate|].
              split; [now intros b [= <-]|]. split; [cbn; lia | discriminate].
           ++ destruct (subprocess_run (git_process self (rev_parse_cmd "master")) w2)
                as [w3 [cp3|e3|]].
              ** destruct (returncode cp3 =? 0); cbn [negb];
                   eexists _, _, _; (split; [reflexivity|]); (split; [discriminate|]);
                   (split; [now intros b [= <-]|]); (split; [cbn; lia|]);
                   first [discriminate | reflexivity].
              ** eexists _, _, _. split; [reflexivity|]. split; [discriminate|].
                 split; [discriminate|]. split; [cbn; lia | reflexivity].
              ** eexists _, _, _. split; [reflexivity|]. split; [discriminate|].
                 split; [discriminate|]. split; [cbn; lia | discriminate].
        -- destruct (subprocess_run (git_process self (rev_parse_cmd "master")) w2)
             as [w3 [cp3|e3|]].
           ++ destruct (returncode cp3 =? 0); cbn [negb];
                eexists _, _, _; (split; [reflexivity|]); (split; [discriminate|]);
                (split; [now intros b [= <-]|]); (split; [cbn; lia|]);
                first [discriminate | reflexivity].
           ++ eexists _, _, _. split; [reflexivity|]. split; [discriminate|].
              split; [discriminate|]. split; [cbn; lia | reflexivity].
           ++ eexists _, _, _. split; [reflexivity|]. split; [discriminate|].
              split; [discriminate|]. split; [cbn; lia | discriminate].
        -- eexists _, _, _. split; [reflexivity|]. split; [discriminate|].
           split; [discriminate|]. split; [cbn; lia | discriminate].
    + destruct (subprocess_run (git_process self (rev_parse_cmd "main")) w1)
        as [w2 [cp2|e2|]].
      * destruct (returncode cp2 =? 0); cbn [negb].
        -- eexists _, _, _. split; [reflexivity|]. split; [discriminate|].
           split; [now intros b [= <-]|]. split; [cbn; lia | discriminate].
        -- destruct (subprocess_run (git_process self (rev_parse_cmd "master")) w2)
             as [w3 [cp3|e3|]].
           ++ destruct (returncode cp3 =? 0); cbn [negb];
                eexists _, _, _; (split; [reflexivity|]); (split; [discriminate|]);
                (split; [now intros b [= <-]|]); (split; [cbn; lia|]);
                first [discriminate | reflexivity].
           ++ eexists _, _, _. split; [reflexivity|]. split; [discriminate|].
              split; [discriminate|]. split; [cbn; lia | reflexivity].
           ++ eexists _, _, _. split; [reflexivity|]. split; [discriminate|].
              split; [discriminate|]. split; [cbn; lia | discriminate].
      * destruct (subprocess_run (git_process self (rev_parse_cmd "master")) w2)
          as [w3 [cp3|e3|]].
        -- destruct (returncode cp3 =? 0); cbn [negb];
             eexists _, _, _; (split; [reflexivity|]); (split; [discriminate|]);
             (split; [now intros b [= <-]|]); (split; [cbn; lia|]);
             first [discriminate | reflexivity].
        -- eexists _, _, _. split; [reflexivity|]. split; [discriminate|].
           split; [discriminate|]. split; [cbn; lia | reflexivity].
        -- eexists _, _, _. split; [reflexivity|]. split; [discriminate|].
           split; [discriminate|]. split; [cbn; lia | discriminate].
      * eexists _, _, _. split; [reflexivity|]. split; [discriminate|].
        split; [discriminate|]. split; [cbn; lia | discriminate].
    + eexists _, _, _. split; [reflexivity|]. split; [discriminate|].
      split; [discriminate|]. split; [cbn; lia | discriminate].
  - intros w1 cp head b Hrun Hzero Hout Hb. run_flow.
    fold (git_process self symbolic_ref_cmd). rewrite Hrun, Hzero. cbn [Z.eqb negb].
    rewrite Hout, (last_split_app _ _ _ Hb). reflexivity.
Qed.


(** X14.  [create_branch] with a given base checks the base out
    and then tries [git checkout -b]; when that exits with 0 it is done after
    two subprocesses.  When it exits with another code, the branch is checked
    out without -b, and the outcome of that third subprocess is the outcome of
    the call: a second call for a branch that exists returns normally when
    the plain checkout succeeds.  An exception other than CalledProcessError
    from the second subprocess leaves the call without a third. *)
Theorem create_branch_contract (branch base : string) (w w1 w2 : W)
    (cp1 : completed) (r2 : outcome completed) :
  subprocess_run (git_process self (checkout_cmd base)) w = (w1, Return cp1) ->
  returncode cp1 = 0 ->
  subprocess_run (git_process self (checkout_new_cmd branch)) w1 = (w2, r2) ->
  let first_two := [ERun (git_process self (checkout_cmd base));
                    ERun (git_process self (checkout_new_cmd branch))] in
  match r2 with
  | Return cp2 =>
      if returncode cp2 =? 0 then
        create_branch self branch (Some base) w = (w2, first_two, Return (Done tt))
      else
        let '(w3, r3) := subprocess_run (git_process self (checkout_cmd branch)) w2 in
        create_branch self branch (Some base) w =
          (w3, (first_two ++ [ERun (git_process self (checkout_cmd branch))])%list,
           match r3 with
           | Return cp3 =>
               if returncode cp3 =? 0 then Return (Done tt)
               else Raise (CalledProcessError (returncode cp3) (checkout_cmd branch)
                             (stdout cp3) (stderr cp3))
           | Raise e => Raise e
           | Diverge => Diverge
           end)
  | Raise (CalledProcessError _ _ _ _) =>
      exists w3 r3,
        create_branch self branch (Some base) w =
          (w3, (first_two ++ [ERun (git_process self (checkout_cmd branch))])%list, r3)
  | Raise e => create_branch self branch (Some base) w = (w2, first_two, Raise e)
  | Diverge => create_branch self branch (Some base) w = (w2, first_two, Diverge)
  end.
Proof.
  intros H1 Hz H2 first_two. subst first_two. run_flow.
  fold (git_process self (checkout_cmd base)).
  fold (git_process self (checkout_new_cmd branch)).
  fold (git_process self (checkout_cmd branch)).
  rewrite H1, Hz. cbn [Z.eqb negb]. rewrite H2.
  destruct r2 as [cp2|e|].
  - destruct (returncode cp2 =? 0); cbn [negb]; [reflexivity|].
    destruct (subprocess_run (git_process self (checkout_cmd branch)) w2) as [w3 [cp3|e3|]];
      try reflexivity.
    now destruct (returncode cp3 =? 0).
  - destruct e; try reflexivity.
    destruct (subprocess_run (git_process self (checkout_cmd branch)) w2) as [w3 [cp3|e3|]].
    + destruct (returncode cp3 =? 0); cbn [negb]; eexists _, _; reflexivity.
    + eexists _, _; reflexivity.
    + eexists _, _; reflexivity.
  - reflexivity.
Qed.

(** X15.  [stage_files] with an empty list raises ValueError
    before any subprocess.  With files it starts one subprocess,
    [git add --] and the files in their order, and returns exactly when that
    exits with 0; any other exit code is raised as CalledProcessError with the
    code, the command and the output. *)
Theorem stage_files_contract (files : list string) (w : W) :
  (files = [] -> stage_files self files w = (w, [], Raise ValueError)) /\
  (files <> [] ->
   let '(w', r) := subprocess_run (git_process self (add_cmd files)) w in
   stage_files self files w =
     (w', [ERun (git_process self (add_cmd files))],
      match r with
      | Return cp =>
          if returncode cp =? 0 then Return tt
          else Raise (CalledProcessError (returncode cp) (add_cmd files)
                        (stdout cp) (stderr cp))
      | Raise e => Raise e
      | Diverge => Diverge
      end)).
Proof.
  split.
  - now intros ->.
  - intros Hne. destruct files as [|f files]; [now contradiction Hne|].
    run_flow. fold (add_cmd (f :: files)). fold (git_process self (add_cmd (f :: files))).
    destruct (subprocess_run (git_process self (add_cmd (f :: files))) w) as [w' [cp|e|]];
      try reflexivity.
    now destruct (returncode cp =? 0).
Qed.

End Agent.

Lemma detect_base_branch_contract_witness :
  _detect_base_branch publisher clone_feature =
    (clone_feature, [ERun (git_process publisher symbolic_ref_cmd)], Return (Done "x")) /\
  _detect_base_branch publisher clone_bare =
    (clone_bare,
     [ERun (git_process publisher symbolic_ref_cmd);
      ERun (git_process publisher (rev_parse_cmd "main"));
      ERun (git_process publisher (rev_parse_cmd "master"))],
     Return NoBaseBranch).
Proof.
  split.
  - apply (proj2 (detect_base_branch_contract (os := mem_os) publisher clone_feature)
             clone_feature
             {| returncode := 0; stdout := "refs/remotes/origin/feature/x" ++ nl;
                stderr := "" |}
             "refs/remotes/origin/feature" "x");
      [reflexivity | reflexivity | vm_compute; reflexivity | reflexivity].
  - destruct (proj1 (detect_base_branch_contract (os := mem_os) publisher clone_bare))
      as (w' & trace & r & E & _ & _ & _ & Hthree).
    assert (Er : r = Return NoBaseBranch).
    { assert (E' : snd (_detect_base_branch (os := mem_os) publisher clone_bare)
                   = Return NoBaseBranch) by (vm_compute; reflexivity).
      rewrite E in E'. exact E'. }
    assert (Ew : w' = clone_bare).
    { assert (E' : fst (fst (_detect_base_branch (os := mem_os) publisher clone_bare))
                   = clone_bare) by reflexivity.
      rewrite E in E'. exact E'. }
    rewrite E, Ew, Er, (Hthree Er). reflexivity.
Defined.

Lemma create_branch_contract_witness :
  create_branch publisher "masque/auto-fix-python_programs" (Some "main")
    (clone_with_branch "masque/auto-fix-python_programs") =
    (clone_with_branch "masque/auto-fix-python_programs",
     [ERun (git_process publisher (checkout_cmd "main"));
      ERun (git_process publisher (checkout_new_cmd "masque/auto-fix-python_programs"));
      ERun (git_process publisher (checkout_cmd "masque/auto-fix-python_programs"))],
     Return (Done tt)).
Proof.
  pose (branch := "masque/auto-fix-python_programs").
  exact (create_branch_contract (os := mem_os) publisher branch "main"
           (clone_with_branch branch) (clone_with_branch branch) (clone_with_branch branch)
           {| returncode := 0; stdout := ""; stderr := "" |}
           (Return {| returncode := 128; stdout := ""; stderr := "" |})
           eq_refl eq_refl eq_refl).
Defined.

Lemma stage_files_contract_witness :
  stage_files publisher [] one_staged = (one_staged, [], Raise ValueError) /\
  stage_files publisher ["python_programs/bitcount.py"] one_staged =
    (one_staged,
     [ERun (git_process publisher ["git"; "add"; "--"; "python_programs/bitcount.py"])],
     Return tt).
Proof.
  split.
  - exact (proj1 (stage_files_contract (os := mem_os) publisher [] one_staged) eq_refl).
  - assert (Hne : ["python_programs/bitcount.py"] <> @nil string) by discriminate.
    exact (proj2 (stage_files_contract (os := mem_os) publisher
                    ["python_programs/bitcount.py"] one_staged) Hne).
Defined.

End GitFacts.

(* ===================================================================== *)
(** * Supervisor *)
(* ===================================================================== *)

Module SupervisorFacts.
Import PyStr Recoverer PyVal PyJson Exn Sys FixBug Fuser Supervisor Examples ReviewSamples.
Import FuserFacts.


Section Review.
Variable loads : string -> option pyval.
Variable json_error : string -> string.
Variable self : SupervisorAgent.
Variable bug_report : pydict.

Let request : review_request :=
  {| rr_model := model self; rr_file := get bug_report "file";
     rr_file_path := get bug_report "file_path";
     rr_code_excerpt := get_default bug_report "code_excerpt" (VStr "");
     rr_has_bug := get bug_report "has_bug";
     rr_bug_summary := get_default bug_report "bug_summary" (VStr "");
     rr_bug_details := get_default bug_report "bug_details" (VList []) |}.


(** X17.  When the reply decodes, [review_report] returns
    the decoded value as it is, without looking at it.  The runner reads a
    review that is no dict, or a falsy one, as no signal at all: its verdict
    is then the detector's has_bug under [_as_bool]. *)
Theorem review_is_not_validated (text : string) (review : pyval) :
  client self request = Reply text ->
  loads (_extract_json text) = Some review ->
  review_report loads json_error self bug_report = review /\
  (is_dict review = false \/ truthy review = false ->
   bug_exists (or_else review (VDict [])) bug_report =
     _as_bool (get_default bug_report "has_bug" (VBool false))).
Proof.
  intros Hresp Hdec. split.
  - unfold review_report. fold request. now rewrite Hresp, Hdec.
  - intros [Hd|Hf].
    + unfold or_else. destruct (truthy review).
      * now apply bug_exists_without_review.
      * reflexivity.
    + unfold or_else. rewrite Hf. reflexivity.
Qed.

End Review.


Lemma review_is_not_validated_witness :
  review_report json_loads no_message (supervisor reply_flat_list) buggy_report =
    VList [VStr "confirmed_bug"; VBool true] /\
  bug_exists (VList [VStr "confirmed_bug"; VBool true])
             [("file", VStr "bitcount.py"); ("has_bug", VBool false)] = false.
Proof.
  assert (Hdec : json_loads (_extract_json reply_flat_list)
                 = Some (VList [VStr "confirmed_bug"; VBool true]))
    by (vm_compute; reflexivity).
  split.
  - exact (proj1 (review_is_not_validated json_loads no_message
                    (supervisor reply_flat_list) buggy_report
                    reply_flat_list _ eq_refl Hdec)).
  - exact (proj2 (review_is_not_validated json_loads no_message
                    (supervisor reply_flat_list)
                    [("file", VStr "bitcount.py"); ("has_bug", VBool false)]
                    reply_flat_list _ eq_refl Hdec) (or_introl eq_refl)).
Defined.

End SupervisorFacts.

(* ===================================================================== *)
(** * Bug detector *)
(* ===================================================================== *)

Module DetectorFacts.
Import PyStr Recoverer PyVal PyJson Exn Pathlib Sys FixBug Normalise Detector MemFS Aux.
Import Examples ReviewSamples StrFacts PathFacts NormaliseClaims.

Lemma lookup_app_single k' k v (d : pydict) :
  lookup k' (d ++ [(k, v)])%list =
  match lookup k' d with
  | Some x => Some x
  | None => if String.eqb k' k then Some v else None
  end.
Proof.
  induction d as [|[k0 v0] d IH]; cbn [app lookup]; [reflexivity|].
  now destruct (String.eqb k' k0).
Qed.

(** [setdefault] keeps what is there and fills what is missing. *)
Lemma lookup_setdefault k' k v (d : pydict) :
  lookup k' (setdefault k v d) =
  match lookup k' d with
  | Some x => Some x
  | None => if String.eqb k' k then Some v else None
  end.
Proof.
  unfold setdefault. destruct (lookup k d) as [x|] eqn:E.
  - destruct (lookup k' d) eqn:E'; [reflexivity|].
    destruct (String.eqb_spec k' k) as [->|_]; [congruence | reflexivity].
  - apply lookup_app_single.
Qed.

Lemma setdefault_extends k v (d : pydict) : exists extra, setdefault k v d = (d ++ extra)%list.
Proof.
  unfold setdefault. destruct (lookup k d).
  - exists []. now rewrite app_nil_r.
  - now eexists.
Qed.

Lemma normalize_shape_lookup code file_path report k :
  lookup k (normalize_shape code file_path report) =
  match lookup k report with
  | Some v => Some v
  | None => default_for code file_path k
  end.
Proof.
  unfold normalize_shape, default_for. rewrite !lookup_setdefault.
  destruct (lookup k report); [reflexivity|].
  destruct (String.eqb k "code_excerpt"); [reflexivity|].
  destruct (String.eqb k "file"); [reflexivity|].
  destruct (String.eqb k "file_path"); [reflexivity|].
  destruct (String.eqb k "has_bug"); [reflexivity|].
  destruct (String.eqb k "bug_summary"); reflexivity.
Qed.

Lemma normalize_shape_extends code file_path report :
  exists extra, normalize_shape code file_path report = (report ++ extra)%list.
Proof.
  unfold normalize_shape.
  destruct (setdefault_extends "code_excerpt" (VStr (slice code 0 1000)) report) as [e1 ->].
  destruct (setdefault_extends "file" (VStr (name file_path)) (report ++ e1)%list) as [e2 ->].
  destruct (setdefault_extends "file_path" (VStr file_path) ((report ++ e1) ++ e2)%list)
    as [e3 ->].
  destruct (setdefault_extends "has_bug" (VBool false) (((report ++ e1) ++ e2) ++ e3)%list)
    as [e4 ->].
  destruct (setdefault_extends "bug_summary" (VStr "")
              ((((report ++ e1) ++ e2) ++ e3) ++ e4)%list) as [e5 ->].
  destruct (setdefault_extends "bug_details" (VList [])
              (((((report ++ e1) ++ e2) ++ e3) ++ e4) ++ e5)%list) as [e6 ->].
  exists (e1 ++ e2 ++ e3 ++ e4 ++ e5 ++ e6)%list. now rewrite <- !app_assoc.
Qed.

Section Analyze.
Context {W : Type} {os : OS W}.
Variable loads : string -> option pyval.
Variable json_error : string -> string.
Variable self : BugDetectionAgent.
Variable file_path : string.
Variable code : string.
Variable w : W.

Hypothesis Hread : read_text Ignore file_path w = Return code.

Let request : detect_request :=
  {| dr_model := model self; dr_code := code_for_model code;
     dr_file := name file_path; dr_file_path := file_path |}.

(** X18.  When the reply decodes to a dict, [analyze_file]
    returns that dict with defaults behind it for the keys it lacks among
    code_excerpt (the first 1000 characters of the file), file, file_path,
    has_bug (false), bug_summary and bug_details: the six keys are always
    there, and a value the reply gave, a null included, is never replaced.
    The read of the file is the only effect. *)
Theorem analyze_file_fills_defaults (text : string) (reply_dict : pydict) :
  client self request = Reply text ->
  loads text = Some (VDict reply_dict) ->
  exists report extra,
    analyze_file loads json_error self file_path w = (w, [ERead file_path], Return report) /\
    report = (reply_dict ++ extra)%list /\
    (forall k, lookup k report =
               match lookup k reply_dict with
               | Some v => Some v
               | None => default_for code file_path k
               end) /\
    (forall k, In k ["code_excerpt"; "file"; "file_path"; "has_bug"; "bug_summary";
                     "bug_details"] -> lookup k report <> None).
Proof.
  intros Hreply Hdec.
  destruct (normalize_shape_extends code file_path reply_dict) as [extra Hext].
  exists (normalize_shape code file_path reply_dict), extra.
  split; [|split; [exact Hext|split]].
  - unfold analyze_file, bind, do_read_text, ret. rewrite Hread. fold request.
    now rewrite Hreply, Hdec.
  - intros k. apply normalize_shape_lookup.
  - intros k Hin. rewrite normalize_shape_lookup.
    destruct (lookup k reply_dict); [discriminate|].
    cbn [In] in Hin.
    destruct Hin as [<-|[<-|[<-|[<-|[<-|[<-|[]]]]]]]; discriminate.
Qed.

(** X19.  When the call of the service fails, or the reply
    does not decode as it stands (the detector does not clean it), the
    report says has_bug false and carries the error text; the reply text is
    kept under raw_response_text in the second case only; the excerpt, the
    file name and the path are filled in as for any report. *)
Theorem analyze_file_failures (resp : reply) :
  client self request = resp ->
  (forall text, resp = Reply text -> loads text = None) ->
  exists report,
    analyze_file loads json_error self file_path w = (w, [ERead file_path], Return report) /\
    get report "has_bug" = VBool false /\
    get report "file" = VStr (name file_path) /\
    get report "file_path" = VStr file_path /\
    get report "code_excerpt" = VStr (slice code 0 1000) /\
    match resp with
    | Failure message =>
        get report "error" = VStr ("OpenAI API call failed: " ++ message) /\
        lookup "raw_response_text" report = None
    | Reply text =>
        get report "error" = VStr ("Could not parse JSON from model: " ++ json_error text) /\
        get report "raw_response_text" = VStr text
    end.
Proof.
  intros Hresp Hbad.
  unfold analyze_file, bind, do_read_text, ret. rewrite Hread. fold request. rewrite Hresp.
  destruct resp as [text|message].
  - rewrite (Hbad text eq_refl). eexists. split; [reflexivity|]. now repeat split.
  - eexists. split; [reflexivity|]. now repeat split.
Qed.

(** X20.  When the reply decodes to something that is no
    dict, a JSON array for one, [analyze_file] raises AttributeError at the
    first [setdefault], after the read of the file: it does not always
    return a dict. *)
Theorem analyze_file_rejects_non_dict (text : string) (v : pyval) :
  client self request = Reply text ->
  loads text = Some v ->
  is_dict v = false ->
  analyze_file loads json_error self file_path w = (w, [ERead file_path], Raise AttributeError).
Proof.
  intros Hreply Hdec Hv.
  unfold analyze_file, bind, do_read_text, ret, raise. rewrite Hread. fold request.
  rewrite Hreply, Hdec. now destruct v.
Qed.

(** X21.  The detector decodes the reply as it stands, so a
    reply inside a code fence is a parse failure for it.  The runner's
    normalisation of the ledger entry then recovers the record from the raw
    text, and, the file not being empty, gives it the detector's excerpt when
    it has none of its own. *)
Theorem fenced_report_is_recovered (text : string) (recovered : pydict) :
  client self request = Reply text ->
  text <> ""%string ->
  loads text = None ->
  loads (_extract_json_from_text text) = Some (VDict recovered) ->
  code <> ""%string ->
  lookup "code_excerpt" recovered = None ->
  exists report,
    analyze_file loads json_error self file_path w = (w, [ERead file_path], Return report) /\
    truthy (get report "error") = true /\
    forall entry,
      get entry "bug_report" = VDict report ->
      _normalize_bug_report loads entry =
        Return (VDict (setitem "code_excerpt" (VStr (slice code 0 1000)) recovered)).
Proof.
  intros Hreply Hne Hraw Hrec Hcode Habs.
  set (report := normalize_shape code file_path
                   (fallback_report file_path ++
                    [("error", VStr ("Could not parse JSON from model: " ++ json_error text));
                     ("raw_response_text", VStr text)])%list).
  assert (E : analyze_file loads json_error self file_path w
              = (w, [ERead file_path], Return report)).
  { unfold analyze_file, bind, do_read_text, ret. rewrite Hread. fold request.
    now rewrite Hreply, Hraw. }
  assert (Hex : get report "code_excerpt" = VStr (slice code 0 1000)) by reflexivity.
  assert (Herr : get report "error"
                 = VStr ("Could not parse JSON from model: " ++ json_error text))
    by reflexivity.
  assert (Htext : get report "raw_response_text" = VStr text) by reflexivity.
  clearbody report.
  exists report. split; [exact E|].
  assert (Hterr : truthy (get report "error") = true) by now rewrite Herr.
  split; [exact Hterr|]. intros entry Hentry.
  assert (Hor : or_else (get entry "bug_report") (VDict []) = VDict report).
  { rewrite Hentry. unfold or_else. now destruct report. }
  assert (Htr : truthy (get report "raw_response_text") = true).
  { rewrite Htext. destruct text; [now contradiction Hne | reflexivity]. }
  assert (Hexc : truthy (get report "code_excerpt") = true).
  { rewrite Hex. cbn [truthy]. unfold slice.
    destruct code as [|c rest]; [now contradiction Hcode|]. 
    cbn [String.length]. unfold slice_bound. cbn [Z.ltb Z.compare].
    rewrite Z.min_l by lia.
    replace (Z.to_nat 0) with 0%nat by reflexivity.
    destruct (Z.to_nat (Z.min 1000 (Z.of_nat (S (String.length rest))) - 0)) eqn:En; [lia|].
    reflexivity. }
  unfold _normalize_bug_report. rewrite Hor, Hterr, Htr, Htext, Hrec.
  destruct (carry_excerpt_spec report recovered) as (Hset & _).
  rewrite (Hset Hexc Habs), Hex. reflexivity.
Qed.

End Analyze.

Lemma substring_prefix_twice : forall s n m,
  (n <= m)%nat -> substring 0 n (substring 0 m s) = substring 0 n s.
Proof.
  induction s as [|c s IH]; intros n m Hnm.
  - destruct m; destruct n; reflexivity.
  - destruct n as [|n]; [now destruct m|].
    destruct m as [|m]; [lia|]. cbn [substring]. f_equal. apply IH. lia.
Qed.

Lemma substring_prefix_length : forall s m,
  String.length (substring 0 m s) = Nat.min m (String.length s).
Proof.
  induction s as [|c s IH]; intros m.
  - now destruct m.
  - destruct m as [|m]; [reflexivity|]. cbn [substring String.length]. now rewrite IH.
Qed.

Lemma slice_from_start s hi :
  0 <= hi -> slice s 0 hi = substring 0 (Nat.min (Z.to_nat hi) (String.length s)) s.
Proof.
  intros Hhi. unfold slice, slice_bound.
  destruct (Z.ltb_spec hi 0) as [|_]; [lia|]. cbn [Z.ltb Z.compare].
  rewrite Z.min_l by lia. rewrite Z.sub_0_r. cbn [Z.to_nat]. f_equal. lia.
Qed.

(** The excerpt of a text is the excerpt of its first 8000 characters. *)
Lemma excerpt_of_truncated code :
  slice (slice code 0 MAX_CHARS) 0 1000 = slice code 0 1000.
Proof.
  unfold MAX_CHARS. rewrite !slice_from_start by lia.
  rewrite substring_prefix_length. rewrite substring_prefix_twice by lia.
  f_equal. lia.
Qed.

(** X22.  Of a file longer than 8000 characters the
    service is shown the first 8000 and a marker line, and the excerpt is
    taken from the first 1000: two files that are both longer than that and
    agree on their first 8000 characters get the same outcome of
    [analyze_file], whatever the service is. *)
Theorem analyze_file_sees_a_prefix {W : Type} {os : OS W}
    (loads : string -> option pyval) (json_error : string -> string)
    (self : BugDetectionAgent) (file_path code1 code2 : string) (w1 w2 : W) :
  read_text Ignore file_path w1 = Return code1 ->
  read_text Ignore file_path w2 = Return code2 ->
  len code1 > MAX_CHARS -> len code2 > MAX_CHARS ->
  slice code1 0 MAX_CHARS = slice code2 0 MAX_CHARS ->
  snd (analyze_file loads json_error self file_path w1) =
  snd (analyze_file loads json_error self file_path w2) /\
  code_for_model code1 =
    (slice code1 0 MAX_CHARS ++ nl ++ nl ++ "# [Truncated for analysis]" ++ nl)%string.
Proof.
  intros H1 H2 L1 L2 Hsame.
  assert (Hc : forall c, len c > MAX_CHARS ->
                         code_for_model c =
                         (slice c 0 MAX_CHARS ++ nl ++ nl ++ "# [Truncated for analysis]" ++ nl)%string).
  { intros c Hc. unfold code_for_model.
    destruct (Z.gtb_spec (len c) MAX_CHARS) as [_|]; [reflexivity | lia]. }
  split; [|now apply Hc].
  unfold analyze_file, normalize_shape, bind, do_read_text, ret, raise. rewrite H1, H2.
  rewrite (Hc _ L1), (Hc _ L2), Hsame.
  rewrite <- (excerpt_of_truncated code1), <- (excerpt_of_truncated code2), Hsame.
  destruct (client self _) as [text|message].
  - destruct (loads text) as [[| | | | | |d]|]; reflexivity.
  - reflexivity.
Qed.

Lemma analyze_file_fills_defaults_witness :
  analyze_file json_loads no_message (detector reply_partial) program repo =
    (repo, [ERead program],
     Return [("has_bug", VNone); ("bug_summary", VStr "off by one");
             ("code_excerpt", VStr program_text); ("file", VStr "bitcount.py");
             ("file_path", VStr program); ("bug_details", VList [])]).
Proof.
  assert (Hdec : json_loads reply_partial =
                 Some (VDict [("has_bug", VNone); ("bug_summary", VStr "off by one")]))
    by (vm_compute; reflexivity).
  destruct (analyze_file_fills_defaults (os := mem_os) json_loads no_message
              (detector reply_partial) program program_text repo eq_refl
              reply_partial _ eq_refl Hdec)
    as (report & extra & E & Hrep & _).
  rewrite E. f_equal. f_equal.
  assert (E' : snd (analyze_file (os := mem_os) json_loads no_message
                      (detector reply_partial) program repo)
               = Return [("has_bug", VNone); ("bug_summary", VStr "off by one");
                         ("code_excerpt", VStr program_text); ("file", VStr "bitcount.py");
                         ("file_path", VStr program); ("bug_details", VList [])])
    by (vm_compute; reflexivity).
  rewrite E in E'. now injection E' as ->.
Defined.

Lemma analyze_file_failures_witness :
  exists report,
    analyze_file json_loads no_message (detector reply_fenced_report) program repo =
      (repo, [ERead program], Return report) /\
    get report "has_bug" = VBool false /\
    get report "error" = VStr "Could not parse JSON from model: Expecting value" /\
    get report "raw_response_text" = VStr reply_fenced_report.
Proof.
  assert (Hbad : forall text, Reply reply_fenced_report = Reply text -> json_loads text = None)
    by (intros text [= <-]; vm_compute; reflexivity).
  destruct (analyze_file_failures (os := mem_os) json_loads no_message
              (detector reply_fenced_report) program program_text repo eq_refl
              (Reply reply_fenced_report) eq_refl Hbad)
    as (report & E & Hb & _ & _ & _ & Herr & Hraw).
  exists report. now repeat split.
Defined.

Lemma analyze_file_rejects_non_dict_witness :
  analyze_file json_loads no_message (detector reply_list) program repo =
    (repo, [ERead program], Raise AttributeError).
Proof.
  assert (Hdec : json_loads reply_list = Some (VList [VDict [("has_bug", VBool true)]]))
    by (vm_compute; reflexivity).
  exact (analyze_file_rejects_non_dict (os := mem_os) json_loads no_message
           (detector reply_list) program program_text repo eq_refl
           reply_list _ eq_refl Hdec eq_refl).
Defined.

Lemma fenced_report_is_recovered_witness :
  exists report,
    analyze_file json_loads no_message (detector reply_fenced_report) program repo =
      (repo, [ERead program], Return report) /\
    _normalize_bug_report json_loads
      [("bug_report", VDict report); ("supervisor_review", VDict [])] =
      Return (VDict [("file", VStr "bitcount.py"); ("has_bug", VBool true);
                     ("code_excerpt", VStr program_text)]).
Proof.
  assert (Hne : reply_fenced_report <> ""%string) by discriminate.
  assert (Hraw : json_loads reply_fenced_report = None) by (vm_compute; reflexivity).
  assert (Hrec : json_loads (_extract_json_from_text reply_fenced_report) =
                 Some (VDict [("file", VStr "bitcount.py"); ("has_bug", VBool true)]))
    by (vm_compute; reflexivity).
  assert (Hcode : program_text <> ""%string) by discriminate.
  destruct (fenced_report_is_recovered (os := mem_os) json_loads no_message
              (detector reply_fenced_report) program program_text repo eq_refl
              reply_fenced_report
              [("file", VStr "bitcount.py"); ("has_bug", VBool true)]
              eq_refl Hne Hraw Hrec Hcode eq_refl)
    as (report & E & _ & Hnorm).
  exists report. split; [exact E|].
  exact (Hnorm [("bug_report", VDict report); ("supervisor_review", VDict [])] eq_refl).
Defined.


Lemma analyze_file_sees_a_prefix_witness :
  snd (analyze_file json_loads no_message detector_echo program (long_repo "x = 1")) =
  snd (analyze_file json_loads no_message detector_echo program (long_repo "y = 2; z = 3")).
Proof.
  assert (H1 : read_text (OS := mem_os) Ignore program (long_repo "x = 1")
               = Return (fill (20 * 20 * 20) "a" "x = 1"))
    by (vm_compute; reflexivity).
  assert (H2 : read_text (OS := mem_os) Ignore program (long_repo "y = 2; z = 3")
               = Return (fill (20 * 20 * 20) "a" "y = 2; z = 3"))
    by (vm_compute; reflexivity).
  assert (L1 : len (fill (20 * 20 * 20) "a" "x = 1") > MAX_CHARS)
    by (vm_compute; reflexivity).
  assert (L2 : len (fill (20 * 20 * 20) "a" "y = 2; z = 3") > MAX_CHARS)
    by (vm_compute; reflexivity).
  assert (Hsame : slice (fill (20 * 20 * 20) "a" "x = 1") 0 MAX_CHARS
                  = slice (fill (20 * 20 * 20) "a" "y = 2; z = 3") 0 MAX_CHARS)
    by (vm_compute; reflexivity).
  exact (proj1 (analyze_file_sees_a_prefix (os := mem_os) json_loads no_message
                  detector_echo program _ _ _ _ H1 H2 L1 L2 Hsame)).
Defined.

End DetectorFacts.

(* ===================================================================== *)
(** * Pipeline orchestrator *)
(* ===================================================================== *)

Module RunnerFacts.
Import PyStr Recoverer PyVal PyJson Exn Pathlib Sys FixBug Fuser Normalise TestEval.
Import MemFS Observe Aux Examples Samples ReviewSamples GitSamples RunnerSamples LedgerSamples.
Import StrFacts PathFacts NormaliseClaims FixBugClaims ApplicatorFacts EvaluatorFacts.
Import GitFlow MonadFacts GitFacts Effects Runner.

Ltac run_entry :=
  cbv beta iota zeta delta
    [process_entry _to_abs_path _repo_relpath bind ret raise lift do_resolve].

Lemma get_setitem_eq k v d : get (setitem k v d) k = v.
Proof. unfold get, get_default. now rewrite lookup_setitem_eq. Qed.

Lemma get_setitem_ne k k' v d : k' <> k -> get (setitem k v d) k' = get d k'.
Proof. intros H. unfold get, get_default. now rewrite lookup_setitem_ne. Qed.

Lemma get_default_setitem_ne k k' v d x :
  k' <> k -> get_default (setitem k v d) k' x = get_default d k' x.
Proof. intros H. unfold get_default. now rewrite lookup_setitem_ne. Qed.

Lemma or_else_dict d : or_else (VDict d) (VDict []) = VDict d.
Proof. unfold or_else. now destruct d. Qed.

(** Of the statuses [fix_bug] returns, [main] takes only patched for an
    applied fix. *)
Lemma applied_fix_status s :
  In s fix_statuses ->
  existsb (String.eqb (lower s)) applied_statuses = true -> s = "patched"%string.
Proof.
  intros [<-|[<-|[<-|[<-|[<-|[<-|[<-|[]]]]]]]]; try discriminate. reflexivity.
Qed.

Section Entry.
Context {W : Type} {os : OS W}.
Variable loads : string -> option pyval.
Variable json_error : string -> string.
Variable py_str : pyval -> string.
Variable apply_fixes : bool.
Variable fix_agent : BugFixAgent.
Variable test_agent : UnitTestEvaluationAgent.
Variables target_dir ROOT_DIR : string.

Let step := process_entry loads json_error py_str apply_fixes fix_agent test_agent
              target_dir ROOT_DIR.

(** A run of the loop body that returns, spelled out. *)
Lemma process_entry_returns (entry : pydict) (t : tally) (w w' : W)
    (trace : list event) (entry' : pydict) (t' : tally) :
  step entry t w = (w', trace, Return (entry', t')) ->
  exists bug_report,
    _normalize_bug_report loads entry = Return (VDict bug_report) /\
    let review := or_else (get entry "supervisor_review") (VDict []) in
    let scanned_file := or_else (get bug_report "file") (get bug_report "file_path") in
    let scanned_abs := abs_path target_dir (py_str scanned_file) w in
    let do_fix := apply_fixes && bug_exists review bug_report in
    ((truthy scanned_file = false /\
      entry' = setitem "unit_test_evaluation" (VDict test_skipped_no_path)
                 (setitem "fix_result" (VDict fix_skipped_no_path) entry) /\
      t' = t /\ trace = [] /\ w' = w) \/
     (truthy scanned_file = true /\
      exists fix_result t_fix w1 res t_test status,
        (if do_fix then
           fix_bug loads json_error fix_agent
             (setitem "file" (VStr scanned_abs) bug_report) false w
             = (w1, t_fix, Return fix_result)
         else fix_result = fix_skipped_no_bug /\ t_fix = [] /\ w1 = w) /\
        evaluate test_agent scanned_abs w1 = (w', t_test, Return res) /\
        or_else (get fix_result "status") (VStr "") = VStr status /\
        let eligible := existsb (String.eqb (lower status)) applied_statuses && passed res in
        let rel := match relative_to (resolve scanned_abs w') ROOT_DIR with
                   | Some r => r
                   | None => resolve scanned_abs w'
                   end in
        entry' = setitem "unit_test_evaluation" (VDict (test_record res))
                   (setitem "fix_result" (VDict fix_result) entry) /\
        t' = {| fixes_attempted := if do_fix then fixes_attempted t + 1
                                   else fixes_attempted t;
                tests_run := tests_run t + 1;
                tests_passed := if passed res then tests_passed t + 1 else tests_passed t;
                passed_fixed_files := if eligible then (passed_fixed_files t ++ [rel])%list
                                      else passed_fixed_files t |} /\
        trace = ((if startswith (py_str scanned_file) "/" then []
                  else [EResolve (joinpath target_dir (py_str scanned_file))])
                 ++ t_fix ++ t_test
                 ++ (if eligible then [EResolve scanned_abs] else []))%list)).
Proof.
  subst step. unfold process_entry. intros H.
  apply bind_returns in H as (w0 & t0 & normalised & t1 & Hn & H & ->).
  unfold lift in Hn. injection Hn as <- <- Hn.
  destruct normalised as [| | | | | |bug_report]; try discriminate H.
  exists bug_report. split; [exact Hn|]. cbv zeta.
  set (review := or_else (get entry "supervisor_review") (VDict [])) in *.
  set (scanned_file := or_else (get bug_report "file") (get bug_report "file_path")) in *.
  destruct (truthy scanned_file) eqn:Hsf; cbn [negb] in H.
  2:{ left. apply ret_returns in H as (-> & -> & [= -> ->]). now repeat split. }
  right. split; [reflexivity|].
  apply bind_returns in H as (w1 & t_abs & scanned_abs & t2 & Habs & H & ->).
  assert (Ea : w1 = w /\ scanned_abs = abs_path target_dir (py_str scanned_file) w /\
               t_abs = if startswith (py_str scanned_file) "/" then []
                       else [EResolve (joinpath target_dir (py_str scanned_file))]).
  { unfold _to_abs_path, abs_path in *.
    destruct (startswith (py_str scanned_file) "/").
    - apply ret_returns in Habs as (-> & -> & ->). now repeat split.
    - unfold do_resolve in Habs. injection Habs as <- <- <-. now repeat split. }
  destruct Ea as (-> & Eabs & ->). clear Habs.
  apply bind_returns in H as (w1 & t_fix & fixed & t3 & Hfix & H & ->).
  destruct fixed as [fix_result attempted].
  apply bind_returns in H as (w2 & t_test & res & t4 & Heval & H & ->).
  rewrite get_setitem_eq, or_else_dict in H.
  destruct (or_else (get fix_result "status") (VStr "")) as [| | | |status| |] eqn:Hst;
    try discriminate H.
  apply bind_returns in H as (w3 & t_rel & files & t5 & Hrel & H & ->).
  apply ret_returns in H as (-> & -> & [= -> ->]).
  exists fix_result, t_fix, w1, res, t_test, status.
  assert (Erel : w3 = w2 /\
                 (files, t_rel) =
                 if existsb (String.eqb (lower status)) applied_statuses && passed res
                 then ((passed_fixed_files t ++
                        [match relative_to (resolve scanned_abs w2) ROOT_DIR with
                         | Some r => r
                         | None => resolve scanned_abs w2
                         end])%list, [EResolve scanned_abs])
                 else (passed_fixed_files t, [])).
  { destruct (existsb (String.eqb (lower status)) applied_statuses && passed res).
    - apply bind_returns in Hrel as (w4 & t6 & rel & t7 & Hr & Hrel & ->).
      apply ret_returns in Hrel as (-> & -> & ->).
      unfold _repo_relpath in Hr.
      apply bind_returns in Hr as (w5 & t8 & p & t9 & Hp & Hr & ->).
      apply ret_returns in Hr as (-> & -> & ->).
      unfold do_resolve in Hp. injection Hp as <- <- <-. now split.
    - apply ret_returns in Hrel as (-> & -> & ->). now split. }
  destruct Erel as (-> & Erel).
  assert (Efix : (if apply_fixes && bug_exists review bug_report
                  then fix_bug loads json_error fix_agent
                         (setitem "file" (VStr scanned_abs) bug_report) false w
                       = (w1, t_fix, Return fix_result)
                  else fix_result = fix_skipped_no_bug /\ t_fix = [] /\ w1 = w) /\
                 attempted = if apply_fixes && bug_exists review bug_report
                             then fixes_attempted t + 1 else fixes_attempted t).
  { destruct (apply_fixes && bug_exists review bug_report).
    - apply bind_returns in Hfix as (w4 & t6 & fr & t7 & Hf & Hfix & ->).
      apply ret_returns in Hfix as (-> & -> & [= <- <-]).
      rewrite app_nil_r. now split.
    - apply ret_returns in Hfix as (-> & -> & [= <- <-]). now repeat split. }
  destruct Efix as (Efix & ->). subst scanned_abs.
  split; [exact Efix|]. split; [exact Heval|]. split; [exact Hst|]. cbv zeta.
  split; [reflexivity|].
  destruct (existsb (String.eqb (lower status)) applied_statuses && passed res);
    injection Erel as -> ->; split; try reflexivity.
Qed.


Lemma quiet_filters trace :
  Forall quiet trace -> mutations trace = [] /\ service_calls trace = [].
Proof.
  induction 1 as [|e l [Hm Hc] _ [IHm IHc]]; [now split|].
  unfold mutations, service_calls in *. cbn [filter]. now rewrite Hm, Hc.
Qed.

Lemma traces_evaluate_quiet p : traces quiet (evaluate test_agent p).
Proof.
  intros w w' t r Hrun.
  destruct (evaluate_cases test_agent p w)
    as [[_ E]|[(_ & _ & _ & E)|(tf & found & _ & _ & _ & _ & Hf & E)]].
  - rewrite E in Hrun. injection Hrun as _ <- _. repeat constructor.
  - rewrite E in Hrun. injection Hrun as _ <- _. repeat constructor.
  - assert (Hq : Forall quiet found).
    { subst found.
      match goal with |- context [if ?b then _ else _] => destruct b end;
        repeat constructor. }
    destruct (read_text Replace tf w) as [text|e|].
    2,3: rewrite E in Hrun; injection Hrun as _ <- _; exact Hq.
    destruct (subprocess_run _ w) as [w2 r2].
    rewrite E in Hrun. injection Hrun as _ <- _.
    apply Forall_app. split; [exact Hq | repeat constructor].
Qed.

(** X23.  A run of the loop body of phase 2 that returns
    either found no file path in the report, marked the fix and the test as
    skipped and did nothing else; or it ran the unit test, whether a fix was
    attempted or not, stored its seven fields under "unit_test_evaluation",
    and counted it.  A fix is counted as attempted only with the user's
    consent.  The list of files to publish grows by at most one path, and
    only when consent was given, [fix_bug] returned the status patched and
    the test passed. *)
Theorem entry_is_tested_and_counted (entry : pydict) (t : tally) (w w' : W)
    (trace : list event) (entry' : pydict) (t' : tally) :
  step entry t w = (w', trace, Return (entry', t')) ->
  (get entry' "fix_result" = VDict fix_skipped_no_path /\
   get entry' "unit_test_evaluation" = VDict test_skipped_no_path /\
   t' = t /\ trace = [] /\ w' = w) \/
  exists fix_result res,
    get entry' "fix_result" = VDict fix_result /\
    get entry' "unit_test_evaluation" = VDict (test_record res) /\
    tests_run t' = tests_run t + 1 /\
    tests_passed t' = (if passed res then tests_passed t + 1 else tests_passed t) /\
    (fixes_attempted t' = fixes_attempted t \/
     (apply_fixes = true /\ fixes_attempted t' = fixes_attempted t + 1)) /\
    (passed_fixed_files t' = passed_fixed_files t \/
     exists rel,
       passed_fixed_files t' = (passed_fixed_files t ++ [rel])%list /\
       apply_fixes = true /\
       get fix_result "status" = VStr "patched" /\
       passed res = true).
Proof.
  intros Hrun.
  destruct (process_entry_returns _ _ _ _ _ _ _ Hrun) as (bug_report & _ & Hcases).
  cbv zeta in Hcases.
  destruct Hcases as [(_ & -> & -> & -> & ->)|
                      (_ & fix_result & t_fix & w1 & res & t_test & status &
                       Hfix & _ & Hst & -> & -> & _)].
  - left. rewrite get_setitem_ne by discriminate. rewrite !get_setitem_eq. now repeat split.
  - right. exists fix_result, res.
    rewrite get_setitem_ne by discriminate. rewrite !get_setitem_eq.
    cbn [fixes_attempted tests_run tests_passed passed_fixed_files].
    split; [reflexivity|]. split; [reflexivity|]. split; [reflexivity|].
    split; [reflexivity|].
    destruct (apply_fixes && bug_exists _ bug_report) eqn:Hdo.
    + apply andb_true_iff in Hdo as [Hc _].
      split; [right; now split|].
      destruct (existsb (String.eqb (lower status)) applied_statuses) eqn:Happ;
        cbn [andb]; [|now left].
      destruct (passed res) eqn:Hp; [|now left].
      right. eexists. split; [reflexivity|]. split; [exact Hc|]. split; [|reflexivity].
      destruct (fix_bug_status loads json_error fix_agent _ _ _ _ _ _ Hfix)
        as (s & Hget & Hin).
      rewrite Hget in Hst. unfold or_else in Hst.
      assert (s = status).
      { destruct (truthy (VStr s)) eqn:Hts; [now injection Hst|].
        destruct s; [|discriminate Hts]. exfalso.
        destruct Hin as [H|[H|[H|[H|[H|[H|[H|[]]]]]]]]; discriminate H. }
      subst status. rewrite Hget. f_equal. now apply applied_fix_status.
    + destruct Hfix as (-> & _ & _). split; [now left|].
      cbn in Hst. injection Hst as <-. now left.
Qed.

(** X24.  Without the user's consent the loop body calls
    no service and copies or writes no file, however the run ends; when it
    returns, no fix is counted, no path is added to the files to publish, and
    the fix result is one of the two skipped results.  The unit test is still
    run. *)
Theorem without_consent_nothing_is_fixed (entry : pydict) (t : tally) (w w' : W)
    (trace : list event) (r : outcome (pydict * tally)) :
  apply_fixes = false ->
  step entry t w = (w', trace, r) ->
  mutations trace = [] /\ service_calls trace = [] /\
  forall entry' t',
    r = Return (entry', t') ->
    fixes_attempted t' = fixes_attempted t /\
    passed_fixed_files t' = passed_fixed_files t /\
    (get entry' "fix_result" = VDict fix_skipped_no_path \/
     (get entry' "fix_result" = VDict fix_skipped_no_bug /\
      tests_run t' = tests_run t + 1)).
Proof.
  intros Hno Hrun.
  assert (Hq : traces quiet (step entry t)).
  { subst step. unfold process_entry. rewrite Hno. cbn [andb].
    apply traces_bind; [apply traces_lift|]. intros [| | | | | |bug_report];
      try apply traces_raise.
    destruct (negb _); [apply traces_ret|].
    apply traces_bind.
    { unfold _to_abs_path. destruct (startswith _ "/"); [apply traces_ret|].
      apply traces_resolve. now split. }
    intros scanned_abs. apply traces_bind; [apply traces_ret|].
    intros [fix_result attempted]. apply traces_bind; [apply traces_evaluate_quiet|].
    intros res. destruct (or_else _ (VDict [])); try apply traces_raise.
    destruct (or_else _ (VStr "")); try apply traces_raise.
    apply traces_bind; [|intros; apply traces_ret].
    destruct (_ && _); [|apply traces_ret].
    apply traces_bind; [|intros; apply traces_ret].
    unfold _repo_relpath. apply traces_bind; [|intros; apply traces_ret].
    apply traces_resolve. now split. }
  destruct (quiet_filters _ (Hq _ _ _ _ Hrun)) as [Hm Hc].
  split; [exact Hm|]. split; [exact Hc|].
  intros entry' t' ->.
  destruct (process_entry_returns _ _ _ _ _ _ _ Hrun) as (bug_report & _ & Hcases).
  cbv zeta in Hcases. rewrite Hno in Hcases. cbn [andb] in Hcases.
  destruct Hcases as [(_ & -> & -> & _)|
                      (_ & fix_result & t_fix & w1 & res & t_test & status &
                       (-> & _ & _) & _ & Hst & -> & -> & _)].
  - split; [reflexivity|]. split; [reflexivity|]. left.
    rewrite get_setitem_ne by discriminate. apply get_setitem_eq.
  - cbn in Hst. injection Hst as <-.
    cbn [fixes_attempted tests_run tests_passed passed_fixed_files existsb lower
         lower_char applied_statuses andb].
    split; [reflexivity|]. split; [reflexivity|]. right.
    rewrite get_setitem_ne by discriminate. now rewrite get_setitem_eq.
Qed.

(** X25.  The runner decides to fix when the reviewer
    confirms a bug, but [fix_bug] looks at the detector's has_bug alone: for
    a report whose has_bug is falsy and whose file exists, a run with consent
    and a confirming review counts a fix as attempted, yet the fix result
    is the skipped result of [fix_bug], the service is never called and no
    file is copied or written. *)
Theorem reviewer_only_verdict_is_not_fixed (entry bug_report : pydict) (t : tally)
    (w w' : W) (trace : list event) (entry' : pydict) (t' : tally)
    (target code : string) :
  apply_fixes = true ->
  _normalize_bug_report loads entry = Return (VDict bug_report) ->
  bug_exists (or_else (get entry "supervisor_review") (VDict [])) bug_report = true ->
  truthy (get_default bug_report "has_bug" (VBool false)) = false ->
  truthy (or_else (get bug_report "file") (get bug_report "file_path")) = true ->
  get bug_report "file_path" = VStr target -> target <> ""%string ->
  path_exists target w = true ->
  read_text Ignore target w = Return code ->
  step entry t w = (w', trace, Return (entry', t')) ->
  get entry' "fix_result" =
    VDict [("status", VStr "skipped"); ("reason", VStr "has_bug=false in bug_report");
           ("file_path", VStr target)] /\
  fixes_attempted t' = fixes_attempted t + 1 /\
  passed_fixed_files t' = passed_fixed_files t /\
  mutations trace = [] /\ service_calls trace = [].
Proof.
  intros Hyes Hnorm Hexists Hfalsy Hsf Hpath Hne Hex Hread Hrun.
  destruct (process_entry_returns _ _ _ _ _ _ _ Hrun) as (br & Hn & Hcases).
  rewrite Hnorm in Hn. injection Hn as <-.
  cbv zeta in Hcases. rewrite Hyes, Hexists, Hsf in Hcases. cbn [andb] in Hcases.
  destruct Hcases as [(Habs & _)|
                      (_ & fix_result & t_fix & w1 & res & t_test & status &
                       Hfix & Heval & Hst & -> & -> & ->)];
    [discriminate Habs|].
  revert Hfix. run_fix.
  rewrite get_setitem_ne by discriminate. rewrite Hpath, (truthy_path _ Hne). cbn [negb].
  rewrite Hex. cbn [negb]. rewrite Hread.
  rewrite get_default_setitem_ne by discriminate. rewrite Hfalsy. cbn [negb].
  intros [= <- <- <-].
  cbn in Hst. injection Hst as <-.
  rewrite get_setitem_ne by discriminate. rewrite get_setitem_eq. cbn.
  split; [reflexivity|]. split; [reflexivity|]. split; [reflexivity|].
  pose proof (traces_evaluate_quiet _ _ _ _ _ Heval) as Hq.
  apply quiet_filters.
  apply Forall_app. split.
  { match goal with |- context [if ?b then _ else _] => destruct b end;
      repeat constructor. }
  constructor; [now split|]. constructor; [now split|].
  apply Forall_app. split; [exact Hq | constructor].
Qed.

(** X26.  An entry whose bug report is missing, falsy or no
    dict is left with the fix and the test marked as skipped, without any
    effect and without a change of the counters.  An entry whose normalised
    report is no dict -- a recovered JSON value that is no object -- makes
    the loop body raise AttributeError. *)
Theorem unusable_entry_is_skipped (entry : pydict) (t : tally) (w : W) :
  (is_dict (get entry "bug_report") = false \/ truthy (get entry "bug_report") = false ->
   step entry t w =
     (w, [],
      Return (setitem "unit_test_evaluation" (VDict test_skipped_no_path)
                (setitem "fix_result" (VDict fix_skipped_no_path) entry), t))) /\
  (forall v, _normalize_bug_report loads entry = Return v -> is_dict v = false ->
             step entry t w = (w, [], Raise AttributeError)).
Proof.
  split.
  - intros H.
    assert (Hn : _normalize_bug_report loads entry = Return (VDict [])).
    { unfold _normalize_bug_report, or_else.
      destruct H as [H|H].
      - destruct (truthy (get entry "bug_report")); [|reflexivity].
        destruct (get entry "bug_report"); try reflexivity. discriminate H.
      - now rewrite H. }
    subst step. unfold process_entry, bind, lift. rewrite Hn. reflexivity.
  - intros v Hn Hv. subst step. unfold process_entry, bind, lift. rewrite Hn.
    now destruct v.
Qed.

End Entry.

Lemma insert_sorted_In x a l : In x (insert_sorted a l) <-> x = a \/ In x l.
Proof.
  induction l as [|y l IH]; cbn [insert_sorted In]; [intuition|].
  destruct (String.leb a y); cbn [In]; rewrite ?IH; intuition.
Qed.

Lemma sorted_In x l : In x (fold_right insert_sorted [] l) <-> In x l.
Proof.
  induction l as [|y l IH]; cbn [fold_right In]; [reflexivity|].
  rewrite insert_sorted_In, IH. intuition.
Qed.

(** [sorted(set(l))] has the elements of [l]. *)
Lemma sorted_set_In x l : In x (sorted_set l) <-> In x l.
Proof. unfold sorted_set. now rewrite sorted_In, nodup_In. Qed.

Lemma sorted_set_nil l : sorted_set l = [] <-> l = [].
Proof.
  split; [|now intros ->].
  intros H. destruct l as [|x l]; [reflexivity|]. exfalso.
  assert (Hin : In x (sorted_set (x :: l))) by (apply sorted_set_In; now left).
  now rewrite H in Hin.
Qed.

Lemma insert_sorted_hd x a l :
  HdRel leb_rel x l -> leb_rel x a -> HdRel leb_rel x (insert_sorted a l).
Proof.
  intros Hl Ha. destruct l as [|y l]; cbn [insert_sorted]; [now constructor|].
  destruct (String.leb a y); constructor; [exact Ha | now inversion Hl].
Qed.

Lemma insert_sorted_sorted a l :
  Sorted leb_rel l -> Sorted leb_rel (insert_sorted a l).
Proof.
  induction 1 as [|y l Hs IH Hhd]; cbn [insert_sorted]; [now repeat constructor|].
  destruct (String.leb a y) eqn:E.
  - constructor; [now constructor | now constructor].
  - constructor; [exact IH|]. apply insert_sorted_hd; [exact Hhd|].
    destruct (String.leb_total a y) as [H|H]; [congruence | exact H].
Qed.

Lemma insert_sorted_NoDup a l : ~ In a l -> NoDup l -> NoDup (insert_sorted a l).
Proof.
  induction l as [|y l IH]; cbn [insert_sorted]; intros Hn Hd.
  - now repeat constructor.
  - destruct (String.leb a y); [now constructor|].
    inversion Hd as [|? ? Hy Hl]; subst. constructor.
    + rewrite insert_sorted_In. intros [->|H]; [apply Hn; now left | contradiction].
    + apply IH; [|exact Hl]. intros H. apply Hn. now right.
Qed.

(** It is in order and without repetition. *)
Lemma sorted_set_ordered l : Sorted leb_rel (sorted_set l) /\ NoDup (sorted_set l).
Proof.
  unfold sorted_set. pose proof (NoDup_nodup string_dec l) as Hd.
  induction (nodup string_dec l) as [|x l' IH]; cbn [fold_right]; [split; constructor|].
  inversion Hd as [|? ? Hx Hl]; subst. destruct (IH Hl) as [Hs Hn]. split.
  - now apply insert_sorted_sorted.
  - apply insert_sorted_NoDup; [now rewrite sorted_In | exact Hn].
Qed.

Section Publish.
Context {W : Type} {os : OS W}.
Variable git_agent : GitPush.GitPushAgent.
Variable target_dir : string.

Lemma traces_git_run_both verbs files cmd verb rest :
  cmd = ("git" :: verb :: rest)%list -> In verb verbs ->
  (verb = "add"%string -> cmd = add_cmd files) ->
  traces (fun e => git_step git_agent verbs e /\ stages_only git_agent files e)
         (GitPush._run git_agent cmd).
Proof.
  intros -> Hin Hadd. unfold GitPush._run. apply traces_bind.
  - apply traces_run. split.
    + exists ("git" :: verb :: rest)%list, verb. now repeat split.
    + intros [= Hv]. now rewrite (Hadd Hv).
  - intros p. destruct (negb (returncode p =? 0)); [apply traces_raise | apply traces_ret].
Qed.

Lemma traces_commit_both verbs files message :
  In "diff"%string verbs -> In "commit"%string verbs ->
  traces (fun e => git_step git_agent verbs e /\ stages_only git_agent files e)
         (GitPush.commit git_agent message).
Proof.
  intros Hd Hc. unfold GitPush.commit, GitPush._has_staged_changes.
  apply traces_bind.
  - apply traces_bind; [|intros; apply traces_ret].
    eapply traces_git_run_both; [reflexivity | exact Hd | discriminate].
  - intros staged. destruct (negb staged); [apply traces_ret|].
    apply traces_bind; [|intros; apply traces_ret].
    eapply traces_git_run_both; [reflexivity | exact Hc | discriminate].
Qed.

(** X27.  The git flow that ends [main]: when no fix passed its
    test, nothing is started.  Otherwise every effect is a git subprocess of
    the agent; the only [git add] stages the distinct collected files in
    sorted order; and [git diff], [git commit] and [git push] are started
    only when the answer to the prompt, stripped and lower-cased, is y or
    yes. *)
Theorem publish_needs_consent (passed_files : list string) (git_ans : string) (w : W) :
  (passed_files = [] ->
   publish git_agent target_dir passed_files git_ans w = (w, [], Return (Done tt))) /\
  (forall w' trace r,
     publish git_agent target_dir passed_files git_ans w = (w', trace, r) ->
     Forall (fun e =>
               git_step git_agent
                 (["symbolic-ref"; "rev-parse"; "checkout"; "add"] ++
                  (if consent git_ans then ["diff"; "commit"; "push"] else []))%list e /\
               stages_only git_agent (sorted_set passed_files) e) trace) /\
  (forall f, In f (sorted_set passed_files) <-> In f passed_files) /\
  Sorted leb_rel (sorted_set passed_files) /\ NoDup (sorted_set passed_files).
Proof.
  split; [now intros ->|]. split; [|split; [intros f; apply sorted_set_In|apply sorted_set_ordered]].
  set (verbs := (["symbolic-ref"; "rev-parse"; "checkout"; "add"] ++
                 (if consent git_ans then ["diff"; "commit"; "push"] else []))%list).
  enough (Ht : traces (fun e => git_step git_agent verbs e /\
                                stages_only git_agent (sorted_set passed_files) e)
                      (publish git_agent target_dir passed_files git_ans))
    by (intros w' trace r; apply Ht).
  unfold publish.
  destruct (sorted_set passed_files) as [|f files] eqn:Hfiles; [apply traces_ret|].
  apply traces_bind.
  { apply traces_weaken with (git_step git_agent ["symbolic-ref"; "rev-parse"; "checkout"]);
      [|apply traces_create_branch].
    intros e He. split.
    - revert He. apply git_step_weaken. subst verbs.
      intros x [<-|[<-|[<-|[]]]]; cbn; tauto.
    - intros Hadd. destruct He as (cmd & verb & -> & Hv & Hin).
      rewrite Hadd in Hv. injection Hv as <-.
      destruct Hin as [H|[H|[H|[]]]]; discriminate H. }
  intros [[]|]; [|apply traces_ret].
  apply traces_bind.
  { unfold GitPush.stage_files. apply traces_bind; [|intros; apply traces_ret].
    eapply traces_git_run_both; [reflexivity | subst verbs; cbn; tauto | reflexivity]. }
  intros _. destruct (consent git_ans) eqn:Hc; [|apply traces_ret].
  apply traces_bind; [apply traces_commit_both; subst verbs; cbn; tauto|].
  intros _. apply traces_bind; [|intros; apply traces_ret].
  unfold GitPush.push. apply traces_bind; [|intros; apply traces_ret].
  eapply traces_git_run_both; [reflexivity | subst verbs; cbn; tauto | discriminate].
Qed.

End Publish.

Section FixFromReport.
Context {W : Type} {os : OS W}.
Variable loads : string -> option pyval.
Variable json_error : string -> string.
Variable fix_agent : BugFixAgent.

(** X28.  The loop body of fix_from_report.py attempts a
    fix only when the normalised report's has_bug is the boolean True: an
    empty report is skipped as invalid, and any other has_bug -- the number
    1 or the text "true", which the runner's [_as_bool] takes for true -- is
    skipped as not true, both without any effect and without counting.  With
    has_bug True the outcome is that of [fix_bug] on the report, stored under
    "fix_result" and counted when it returns. *)
Theorem fix_from_report_is_strict (entry bug_report : pydict) (updated : Z) (w : W) :
  normalize_bug_report loads entry = Return (VDict bug_report) ->
  (bug_report = [] ->
   fix_entry loads json_error fix_agent entry updated w =
     (w, [],
      Return (setitem "fix_result"
                (VDict [("status", VStr "skipped");
                        ("reason", VStr "Invalid bug_report structure")]) entry,
              updated))) /\
  (bug_report <> [] -> get bug_report "has_bug" <> VBool true ->
   fix_entry loads json_error fix_agent entry updated w =
     (w, [],
      Return (setitem "fix_result"
                (VDict [("status", VStr "skipped"); ("reason", VStr "has_bug is not true")])
                entry,
              updated))) /\
  (get bug_report "has_bug" = VBool true ->
   fix_entry loads json_error fix_agent entry updated w =
     let '(w', trace, r) := fix_bug loads json_error fix_agent bug_report false w in
     (w', trace,
      match r with
      | Return fix_result =>
          Return (setitem "fix_result" (VDict fix_result) entry, updated + 1)
      | Raise e => Raise e
      | Diverge => Diverge
      end)).
Proof.
  intros Hn. unfold fix_entry, bind, lift. rewrite Hn.
  split; [|split].
  - now intros ->.
  - intros Hne Hnot. destruct bug_report as [|kv rest]; [now contradiction Hne|].
    cbn [truthy negb].
    destruct (get (kv :: rest) "has_bug") as [|[|]| | | | |]; try reflexivity.
    now contradiction Hnot.
  - intros Hyes.
    assert (Hne : bug_report <> []) by (intros ->; discriminate Hyes).
    destruct bug_report as [|kv rest]; [now contradiction Hne|].
    cbn [truthy negb]. rewrite Hyes.
    destruct (fix_bug loads json_error fix_agent (kv :: rest) false w) as [[w' trace] [fr|e|]];
      try reflexivity.
    unfold ret. now rewrite app_nil_r.
Qed.

End FixFromReport.

(** The sample repository run through the loop body: with consent the
    proposed change is written, the test passes and the file is collected;
    without consent only the test runs. *)
Lemma entry_is_tested_and_counted_witness :
  exists w' trace entry' t' fix_result,
    process_entry json_loads no_message text_of true (fixer reply_changed) tester
      "/repo/python_programs" "/repo" entry_buggy start repo
      = (w', trace, Return (entry', t')) /\
    passed_fixed_files t' = ["python_programs/bitcount.py"] /\
    tests_run t' = 1 /\ fixes_attempted t' = 1 /\
    get entry' "fix_result" = VDict fix_result /\
    get fix_result "status" = VStr "patched".
Proof.
  pose (run := process_entry (os := mem_os) json_loads no_message text_of true
                 (fixer reply_changed) tester "/repo/python_programs" "/repo"
                 entry_buggy start repo).
  assert (Hret : exists entry' t',
             snd run = Return (entry', t') /\
             passed_fixed_files t' = ["python_programs/bitcount.py"] /\
             tests_run t' = 1 /\ fixes_attempted t' = 1)
    by (vm_compute; eexists _, _; repeat split).
  destruct run as [[w' trace] r] eqn:E. cbn [snd] in Hret.
  destruct Hret as (entry' & t' & -> & Hfiles & Hrun & Hfix).
  destruct (entry_is_tested_and_counted (os := mem_os) json_loads no_message text_of true
              (fixer reply_changed) tester "/repo/python_programs" "/repo"
              entry_buggy start repo w' trace entry' t' E)
    as [(_ & _ & -> & _)|(fix_result & res & Hfr & _ & _ & _ & _ & [Hsame|(rel & _ & _ & Hst & _)])].
  - discriminate Hrun.
  - rewrite Hsame in Hfiles. discriminate Hfiles.
  - exists w', trace, entry', t', fix_result. now repeat split.
Defined.

Lemma without_consent_nothing_is_fixed_witness :
  exists trace entry' t',
    process_entry json_loads no_message text_of false (fixer reply_changed) tester
      "/repo/python_programs" "/repo" entry_buggy start repo
      = (repo, trace, Return (entry', t')) /\
    mutations trace = [] /\ service_calls trace = [] /\
    get entry' "fix_result" = VDict fix_skipped_no_bug /\
    tests_run t' = 1 /\ fixes_attempted t' = 0 /\ passed_fixed_files t' = [].
Proof.
  pose (run := process_entry (os := mem_os) json_loads no_message text_of false
                 (fixer reply_changed) tester "/repo/python_programs" "/repo"
                 entry_buggy start repo).
  assert (Hret : exists entry' t', snd run = Return (entry', t') /\ tests_run t' = 1)
    by (vm_compute; eexists _, _; repeat split).
  assert (Hw : fst (fst run) = repo) by reflexivity.
  destruct run as [[w' trace] r] eqn:E. cbn [fst snd] in Hret, Hw. subst w'.
  destruct Hret as (entry' & t' & -> & Hrun).
  destruct (without_consent_nothing_is_fixed (os := mem_os) json_loads no_message text_of
              false (fixer reply_changed) tester "/repo/python_programs" "/repo"
              entry_buggy start repo repo trace _ eq_refl E)
    as (Hm & Hc & Hres).
  destruct (Hres entry' t' eq_refl) as (Hfix & Hfiles & [Hskip|[Hskip _]]).
  - exfalso.
    destruct (process_entry_returns json_loads no_message text_of false
                (fixer reply_changed) tester "/repo/python_programs" "/repo"
                entry_buggy start repo repo trace entry' t' E)
      as (br & Hn & [(Hf & _)|(_ & fr & tf & w1 & res & tt' & st & (-> & _) & _ & _ & -> & _)]).
    + injection Hn as <-. discriminate Hf.
    + discriminate Hskip.
  - exists trace, entry', t'. now repeat split.
Defined.

Lemma reviewer_only_verdict_is_not_fixed_witness :
  exists trace entry' t',
    process_entry json_loads no_message text_of true (fixer reply_changed) tester
      "/repo/python_programs" "/repo" entry_disputed start repo
      = (repo, trace, Return (entry', t')) /\
    bug_exists (get entry_disputed "supervisor_review") clean_report = true /\
    get entry' "fix_result" =
      VDict [("status", VStr "skipped"); ("reason", VStr "has_bug=false in bug_report");
             ("file_path", VStr program)] /\
    fixes_attempted t' = 1 /\ service_calls trace = [].
Proof.
  pose (run := process_entry (os := mem_os) json_loads no_message text_of true
                 (fixer reply_changed) tester "/repo/python_programs" "/repo"
                 entry_disputed start repo).
  assert (Hret : exists entry' t', snd run = Return (entry', t'))
    by (vm_compute; eexists _, _; reflexivity).
  assert (Hw : fst (fst run) = repo) by reflexivity.
  destruct run as [[w' trace] r] eqn:E. cbn [fst snd] in Hret, Hw. subst w'.
  destruct Hret as (entry' & t' & ->).
  assert (Hne : program <> ""%string) by discriminate.
  destruct (reviewer_only_verdict_is_not_fixed (os := mem_os) json_loads no_message text_of
              true (fixer reply_changed) tester "/repo/python_programs" "/repo"
              entry_disputed clean_report start repo repo trace entry' t'
              program program_text
              eq_refl eq_refl eq_refl eq_refl eq_refl eq_refl Hne eq_refl eq_refl E)
    as (Hfr & Hfix & _ & _ & Hc).
  exists trace, entry', t'. now repeat split.
Defined.

Lemma unusable_entry_is_skipped_witness :
  process_entry json_loads no_message text_of true (fixer reply_changed) tester
    "/repo/python_programs" "/repo" entry_empty start repo =
    (repo, [],
     Return ([("bug_report", VNone); ("supervisor_review", VNone);
              ("fix_result", VDict fix_skipped_no_path);
              ("unit_test_evaluation", VDict test_skipped_no_path)], start)).
Proof.
  exact (proj1 (unusable_entry_is_skipped (os := mem_os) json_loads no_message text_of true
                  (fixer reply_changed) tester "/repo/python_programs" "/repo"
                  entry_empty start repo) (or_introl eq_refl)).
Defined.

Lemma publish_needs_consent_witness :
  publish publisher "/repo/python_programs" [] "y" clone_main
    = (clone_main, [], Return (Done tt)) /\
  publish publisher "/repo/python_programs"
    ["python_programs/gcd.py"; "python_programs/bitcount.py"; "python_programs/gcd.py"]
    "N" clone_main =
    (clone_main,
     [ERun (git_process publisher symbolic_ref_cmd);
      ERun (git_process publisher (checkout_cmd "main"));
      ERun (git_process publisher (checkout_new_cmd "masque/auto-fix-python_programs"));
      ERun (git_process publisher
              (add_cmd ["python_programs/bitcount.py"; "python_programs/gcd.py"]))],
     Return (Done tt)).
Proof.
  split.
  - exact (proj1 (publish_needs_consent (os := mem_os) publisher "/repo/python_programs"
                    [] "y" clone_main) eq_refl).
  - vm_compute. reflexivity.
Defined.

Lemma fix_from_report_is_strict_witness :
  fix_entry json_loads no_message (fixer reply_changed) entry_textual 0 repo =
    (repo, [],
     Return ([("bug_report",
               VDict [("file", VStr "bitcount.py"); ("file_path", VStr program);
                      ("has_bug", VStr "true")]);
              ("fix_result",
               VDict [("status", VStr "skipped"); ("reason", VStr "has_bug is not true")])],
             0)) /\
  _as_bool (VStr "true") = true.
Proof.
  split; [|reflexivity].
  apply (proj1 (proj2 (fix_from_report_is_strict (os := mem_os) json_loads no_message
                         (fixer reply_changed) entry_textual
                         [("file", VStr "bitcount.py"); ("file_path", VStr program);
                          ("has_bug", VStr "true")] 0 repo eq_refl)));
    discriminate.
Defined.

End RunnerFacts.
